(** * Shipment tracking platform: ledger, identity store and access policy

    A shallow embedding of [models/User.js], [models/Shipment.js],
    [routes/shipments.js], [routes/auth.js] and the browser client
    [api-client.js].  Mongoose documents are records, collections are
    lists in insertion order, and the asynchronous model methods are
    computations in a state-and-exception monad whose state holds the
    collection, the wall clock and the random source. *)

From Stdlib Require Import ZArith List String Ascii Bool Lia QArith Qround.
From Stdlib Require Import Sorted Permutation.
Import ListNotations.
Open Scope string_scope.
Open Scope Z_scope.

(** ** JavaScript values used by the models *)

Module Js.

(** A [Date] is its number of milliseconds since the epoch. *)
Definition Date := Z.

(** An [ObjectId] is identified with its 24-character hexadecimal
    rendering, which is what Mongoose compares and casts. *)
Definition ObjectId := string.

(** [String.prototype.toUpperCase] / [toLowerCase] on ASCII text: the
    letters change case, every other byte is kept. *)
Definition upper_ascii (c : ascii) : ascii :=
  let n := N_of_ascii c in
  if ((97 <=? n) && (n <=? 122))%N then ascii_of_N (n - 32) else c.

Definition lower_ascii (c : ascii) : ascii :=
  let n := N_of_ascii c in
  if ((65 <=? n) && (n <=? 90))%N then ascii_of_N (n + 32) else c.

Fixpoint map_string (f : ascii -> ascii) (s : string) : string :=
  match s with
  | EmptyString => EmptyString
  | String c s' => String (f c) (map_string f s')
  end.

(** [String.prototype.trim] (the [trim: true] schema option). *)
Definition is_space (c : ascii) : bool :=
  let n := N_of_ascii c in ((n =? 32) || ((9 <=? n) && (n <=? 13)))%N.

Fixpoint trimStart (s : string) : string :=
  match s with
  | String c s' => if is_space c then trimStart s' else s
  | EmptyString => EmptyString
  end.

Fixpoint rev_string (s acc : string) : string :=
  match s with
  | EmptyString => acc
  | String c s' => rev_string s' (String c acc)
  end.

Definition trim (s : string) : string :=
  rev_string (trimStart (rev_string (trimStart s) EmptyString)) EmptyString.

Definition toUpperCase : string -> string := map_string upper_ascii.
Definition toLowerCase : string -> string := map_string lower_ascii.

Definition is_upper (c : ascii) : bool :=
  let n := N_of_ascii c in ((65 <=? n) && (n <=? 90))%N.

Definition is_digit (c : ascii) : bool :=
  let n := N_of_ascii c in ((48 <=? n) && (n <=? 57))%N.

Fixpoint all_chars (p : ascii -> bool) (s : string) : bool :=
  match s with
  | EmptyString => true
  | String c s' => p c && all_chars p s'
  end.

(** Template literal [`${n}`] for a non-negative integer: its decimal
    digits, most significant first.  [digits_of] peels one digit per unit
    of fuel, and the 20 units of [decimal] cover every integer below
    10^20. *)
Definition digit_char (d : Z) : ascii := ascii_of_N (48 + Z.to_N d).

Fixpoint digits_of (fuel : nat) (n : Z) (acc : string) : string :=
  match fuel with
  | O => acc
  | S fuel' =>
      let acc' := String (digit_char (n mod 10)) acc in
      if n / 10 =? 0 then acc' else digits_of fuel' (n / 10) acc'
  end.

Definition decimal (n : Z) : string := digits_of 20 n EmptyString.

(** What a thrown value looks like to the caller. *)
Inductive Exn : Type :=
| Error (message : string)
| ValidationError (message : string)
| DuplicateKey (path : string).

Inductive Result (A : Type) : Type :=
| Ok (a : A)
| Throw (e : Exn).
Arguments Ok {A} a.
Arguments Throw {A} e.

(** The wall clock.  Every reading advances it by the next pending tick,
    so successive readings never go backwards but may differ. *)
Record Clock : Type := mkClock { time : Date; ticks : list N }.

Definition read (c : Clock) : Date * Clock :=
  let t := time c + Z.of_N (hd 0%N (ticks c)) in
  (t, {| time := t; ticks := tl (ticks c) |}).

(** [Math.random()]: a stream of rationals, each in [0, 1). *)
Record Rng : Type := mkRng { draw : nat -> Q; next : nat }.

(** Computations over a state [S] that may throw.  A throw keeps the
    state reached so far: writes made before it are not undone. *)
Definition M (S A : Type) : Type := S -> Result A * S.

Definition ret {S A} (a : A) : M S A := fun s => (Ok a, s).

Definition bind {S A B} (m : M S A) (k : A -> M S B) : M S B :=
  fun s =>
    match m s with
    | (Ok a, s') => k a s'
    | (Throw e, s') => (Throw e, s')
    end.

Definition throw {S A} (e : Exn) : M S A := fun s => (Throw e, s).
Definition gets {S A} (f : S -> A) : M S A := fun s => (Ok (f s), s).
Definition modify {S} (f : S -> S) : M S unit := fun s => (Ok tt, f s).

(** [try { m } catch (error) { h error }] *)
Definition catch {S A} (m : M S A) (h : Exn -> M S A) : M S A :=
  fun s =>
    match m s with
    | (Throw e, s') => h e s'
    | r => r
    end.

Class HasClock (S : Type) : Type :=
  { getClock : S -> Clock; setClock : Clock -> S -> S }.

(** The reading the next [Date.now()] returns, and the clock after it. *)
Definition now (c : Clock) : Date := fst (read c).
Definition after (c : Clock) : Clock := snd (read c).

(** [Date.now()] and [new Date()]. *)
Definition Date_now {S} `{HasClock S} : M S Date :=
  fun s => (Ok (now (getClock s)), setClock (after (getClock s)) s).

End Js.
Import Js.

Declare Scope monad_scope.
Delimit Scope monad_scope with monad.
Notation "x <- c ;; k" := (bind c (fun x => k))
  (at level 61, c at next level, right associativity) : monad_scope.
Notation "c ;;; k" := (bind c (fun _ => k))
  (at level 61, right associativity) : monad_scope.
Open Scope monad_scope.

(** ** Identity store: [models/User.js] *)

Module User.

Inductive Role : Type := user | admin | agent.

(** The stored account document.  [loginAttempts] and [lockUntil] are
    optional because [$unset] removes them; the schema default (0) is
    applied when the document is read. *)
Record t : Type := mk {
  _id : ObjectId;
  fullName : string;
  email : string;
  phone : string;
  password : string;
  role : Role;
  isActive : bool;
  loginAttempts : option Z;
  lockUntil : option Date;
  lastLogin : option Date
}.

Definition getLoginAttempts (u : t) : Z :=
  match loginAttempts u with Some n => n | None => 0 end.

Record World : Type := mkWorld { clock : Clock; users : list t }.

#[export] Instance World_clock : HasClock World :=
  {| getClock := clock;
     setClock := fun c w => {| clock := c; users := users w |} |}.

(** Update operators of [updateOne]. *)
Definition set_loginAttempts (v : option Z) (u : t) : t :=
  mk (_id u) (fullName u) (email u) (phone u) (password u) (role u)
     (isActive u) v (lockUntil u) (lastLogin u).

Definition set_lockUntil (v : option Date) (u : t) : t :=
  mk (_id u) (fullName u) (email u) (phone u) (password u) (role u)
     (isActive u) (loginAttempts u) v (lastLogin u).

Definition set_lastLogin (v : option Date) (u : t) : t :=
  mk (_id u) (fullName u) (email u) (phone u) (password u) (role u)
     (isActive u) (loginAttempts u) (lockUntil u) v.

(** [$inc: { loginAttempts: 1 }]: a missing field counts as 0. *)
Definition inc_loginAttempts (u : t) : t :=
  set_loginAttempts (Some (getLoginAttempts u + 1)) u.

(** [Model.findOne(filter)]: the first matching document. *)
Definition findOne (filter : t -> bool) : M World (option t) :=
  gets (fun w => find filter (users w)).

(** [doc.updateOne(update)]: applies [update] to the first stored document
    with the same [_id]; the in-memory [doc] is left as it was. *)
Fixpoint update_first (id : ObjectId) (f : t -> t) (l : list t) : list t :=
  match l with
  | [] => []
  | u :: l' =>
      if String.eqb (_id u) id then f u :: l' else u :: update_first id f l'
  end.

Definition updateOne (doc : t) (update : t -> t) : M World unit :=
  modify (fun w => {| clock := clock w;
                      users := update_first (_id doc) update (users w) |}).

(** Virtual [isLocked]: [!!(this.lockUntil && this.lockUntil > Date.now())].
    The clock is read only when [lockUntil] is set. *)
Definition isLocked (u : t) : M World bool :=
  match lockUntil u with
  | None => ret false
  | Some l => t0 <- Date_now ;; ret (t0 <? l)
  end.

Definition maxAttempts : Z := 5.
Definition lockTime : Z := 2 * 60 * 60 * 1000.

Definition incLoginAttempts (u : t) : M World unit :=
  expired <- match lockUntil u with
             | None => ret false
             | Some l => t0 <- Date_now ;; ret (l <? t0)
             end ;;
  if expired then
    updateOne u (fun d => set_loginAttempts (Some 1) (set_lockUntil None d))
  else
    lock <- (if maxAttempts <=? getLoginAttempts u + 1 then
               locked <- isLocked u ;;
               if negb locked then
                 t0 <- Date_now ;; ret (Some (t0 + lockTime))
               else ret None
             else ret None) ;;
    match lock with
    | Some l => updateOne u (fun d => set_lockUntil (Some l) (inc_loginAttempts d))
    | None => updateOne u inc_loginAttempts
    end.

Definition resetLoginAttempts (u : t) : M World unit :=
  updateOne u (fun d => set_loginAttempts None (set_lockUntil None d)).

Definition updateLastLogin (u : t) : M World unit :=
  t0 <- Date_now ;;
  updateOne u (set_lastLogin (Some t0)).

Definition invalid_credentials : Exn := Error "Invalid login credentials".
Definition account_locked : Exn :=
  Error "Account temporarily locked due to too many failed login attempts".

Section Credentials.

(** [bcrypt.compare(candidate, hash)]. *)
Variable bcrypt_compare : string -> string -> bool.

Definition comparePassword (u : t) (candidatePassword : string) : bool :=
  bcrypt_compare candidatePassword (password u).

Definition findByCredentials (email0 password0 : string) : M World t :=
  found <- findOne (fun u => String.eqb (email u) (toLowerCase email0)
                             && isActive u) ;;
  match found with
  | None => throw invalid_credentials
  | Some u =>
      locked <- isLocked u ;;
      if locked then throw account_locked
      else
        if negb (comparePassword u password0) then
          incLoginAttempts u ;;; throw invalid_credentials
        else
          (if 0 <? getLoginAttempts u then resetLoginAttempts u
           else ret tt) ;;;
          updateLastLogin u ;;;
          ret u
  end.

End Credentials.

(** Looking an account up again after an operation. *)
Definition findById (id : ObjectId) (l : list t) : option t :=
  find (fun u => String.eqb (_id u) id) l.

End User.

(** ** Shipment ledger: [models/Shipment.js] *)

Module Shipment.

Inductive Status : Type :=
| OrderPlaced | InTransit | OutForDelivery
| Delivered | Returned | Cancelled | Exception.

Definition status_name (s : Status) : string :=
  match s with
  | OrderPlaced => "Order Placed"
  | InTransit => "In Transit"
  | OutForDelivery => "Out for Delivery"
  | Delivered => "Delivered"
  | Returned => "Returned"
  | Cancelled => "Cancelled"
  | Exception => "Exception"
  end.

Definition Status_eqb (a b : Status) : bool :=
  String.eqb (status_name a) (status_name b).

Inductive ServiceType : Type :=
| hyperlocal | same_day | next_day | standard | economy | express.

Definition service_name (s : ServiceType) : string :=
  match s with
  | hyperlocal => "hyperlocal"
  | same_day => "same-day"
  | next_day => "next-day"
  | standard => "standard"
  | economy => "economy"
  | express => "express"
  end.

Inductive Priority : Type := low | normal | high | urgent.
Inductive Category : Type :=
| Documents | Electronics | Clothing | Food | Fragile | Liquid | Other.
Inductive PaymentStatus : Type := pending | paid | failed | refunded | cod.
Inductive PaymentMethod : Type := online | pay_cod | wallet | upi.

Record Coordinates : Type := { latitude : Q; longitude : Q }.
Record Agent : Type := { agent_name : string; agent_id : string; agent_contact : string }.

(** The plain object handed to [addTrackingEvent].  A missing [status] is
    [None]; a missing [location] or [description] is the empty string,
    which the [required] validator rejects just the same. *)
Module EventData.
Record t : Type := mk {
  status : option Status;
  location : string;
  description : string;
  timestamp : option Date;
  coordinates : option Coordinates;
  agent : option Agent
}.
End EventData.

(** An element of the [tracking] array. *)
Module TrackingEvent.
Record t : Type := mk {
  status : option Status;
  location : string;
  description : string;
  timestamp : Date;
  coordinates : option Coordinates;
  agent : option Agent
}.
End TrackingEvent.

(** [{ ...eventData, timestamp: ts }] *)
Definition event_of (e : EventData.t) (ts : Date) : TrackingEvent.t :=
  TrackingEvent.mk (EventData.status e) (EventData.location e)
    (EventData.description e) ts (EventData.coordinates e) (EventData.agent e).

Record Address : Type := {
  street : string; city : string; state : string;
  pincode : string; country : string
}.

Record Party : Type := {
  name : string; email : option string; phone : string; address : Address
}.

Record Dimensions : Type := { length : Q; width : Q; height : Q }.

Record Package : Type := {
  pkg_description : string; weight : Q; dimensions : Dimensions; value : Q;
  category : Category; isFragile : bool; requiresSignature : bool
}.

Record Insurance : Type := { isInsured : bool; coverage : Q; premium : Q }.

Record Service : Type := {
  type : ServiceType; priority : Priority; cost : Q;
  estimatedDelivery : Date; insurance : Insurance
}.

(** The stored shipment document. *)
Record t : Type := mk {
  _id : ObjectId;
  trackingNumber : option string;
  sender : Party;
  recipient : Party;
  package : Package;
  service : Service;
  currentStatus : Status;
  progress : Z;
  tracking : list TrackingEvent.t;
  paymentStatus : PaymentStatus;
  paymentMethod : PaymentMethod;
  deliveryAttempts : Z;
  specialInstructions : option string;
  internalNotes : option string;
  assignedAgent : option ObjectId;
  createdBy : ObjectId;
  isActive : bool;
  deliveredAt : option Date;
  returnedAt : option Date;
  cancelledAt : option Date;
  cancellationReason : option string;
  createdAt : Date;
  updatedAt : Date
}.

Definition set_trackingNumber (v : option string) (s : t) : t :=
  mk (_id s) v (sender s) (recipient s) (package s) (service s)
     (currentStatus s) (progress s) (tracking s) (paymentStatus s)
     (paymentMethod s) (deliveryAttempts s) (specialInstructions s)
     (internalNotes s) (assignedAgent s) (createdBy s) (isActive s)
     (deliveredAt s) (returnedAt s) (cancelledAt s) (cancellationReason s)
     (createdAt s) (updatedAt s).

Definition set_currentStatus (v : Status) (s : t) : t :=
  mk (_id s) (trackingNumber s) (sender s) (recipient s) (package s)
     (service s) v (progress s) (tracking s) (paymentStatus s)
     (paymentMethod s) (deliveryAttempts s) (specialInstructions s)
     (internalNotes s) (assignedAgent s) (createdBy s) (isActive s)
     (deliveredAt s) (returnedAt s) (cancelledAt s) (cancellationReason s)
     (createdAt s) (updatedAt s).

Definition set_progress (v : Z) (s : t) : t :=
  mk (_id s) (trackingNumber s) (sender s) (recipient s) (package s)
     (service s) (currentStatus s) v (tracking s) (paymentStatus s)
     (paymentMethod s) (deliveryAttempts s) (specialInstructions s)
     (internalNotes s) (assignedAgent s) (createdBy s) (isActive s)
     (deliveredAt s) (returnedAt s) (cancelledAt s) (cancellationReason s)
     (createdAt s) (updatedAt s).

Definition set_tracking (v : list TrackingEvent.t) (s : t) : t :=
  mk (_id s) (trackingNumber s) (sender s) (recipient s) (package s)
     (service s) (currentStatus s) (progress s) v (paymentStatus s)
     (paymentMethod s) (deliveryAttempts s) (specialInstructions s)
     (internalNotes s) (assignedAgent s) (createdBy s) (isActive s)
     (deliveredAt s) (returnedAt s) (cancelledAt s) (cancellationReason s)
     (createdAt s) (updatedAt s).

Definition set_deliveryAttempts (v : Z) (s : t) : t :=
  mk (_id s) (trackingNumber s) (sender s) (recipient s) (package s)
     (service s) (currentStatus s) (progress s) (tracking s)
     (paymentStatus s) (paymentMethod s) v (specialInstructions s)
     (internalNotes s) (assignedAgent s) (createdBy s) (isActive s)
     (deliveredAt s) (returnedAt s) (cancelledAt s) (cancellationReason s)
     (createdAt s) (updatedAt s).

Definition set_deliveredAt (v : option Date) (s : t) : t :=
  mk (_id s) (trackingNumber s) (sender s) (recipient s) (package s)
     (service s) (currentStatus s) (progress s) (tracking s)
     (paymentStatus s) (paymentMethod s) (deliveryAttempts s)
     (specialInstructions s) (internalNotes s) (assignedAgent s)
     (createdBy s) (isActive s) v (returnedAt s) (cancelledAt s)
     (cancellationReason s) (createdAt s) (updatedAt s).

Definition set_returnedAt (v : option Date) (s : t) : t :=
  mk (_id s) (trackingNumber s) (sender s) (recipient s) (package s)
     (service s) (currentStatus s) (progress s) (tracking s)
     (paymentStatus s) (paymentMethod s) (deliveryAttempts s)
     (specialInstructions s) (internalNotes s) (assignedAgent s)
     (createdBy s) (isActive s) (deliveredAt s) v (cancelledAt s)
     (cancellationReason s) (createdAt s) (updatedAt s).

Definition set_cancelled (at_ : option Date) (reason : option string)
    (s : t) : t :=
  mk (_id s) (trackingNumber s) (sender s) (recipient s) (package s)
     (service s) (currentStatus s) (progress s) (tracking s)
     (paymentStatus s) (paymentMethod s) (deliveryAttempts s)
     (specialInstructions s) (internalNotes s) (assignedAgent s)
     (createdBy s) (isActive s) (deliveredAt s) (returnedAt s) at_
     reason (createdAt s) (updatedAt s).

Definition set_timestamps (created updated : Date) (s : t) : t :=
  mk (_id s) (trackingNumber s) (sender s) (recipient s) (package s)
     (service s) (currentStatus s) (progress s) (tracking s)
     (paymentStatus s) (paymentMethod s) (deliveryAttempts s)
     (specialInstructions s) (internalNotes s) (assignedAgent s)
     (createdBy s) (isActive s) (deliveredAt s) (returnedAt s)
     (cancelledAt s) (cancellationReason s) created updated.

(** An in-memory Mongoose document: the data plus the change tracking
    that [isNew] and [isModified] consult.  [statusModified] is
    [isModified('currentStatus')]; [dirty] is [isModified()]. *)
Record Doc : Type := mkDoc {
  data : t;
  isNew : bool;
  dirty : bool;
  statusModified : bool
}.

(** A document as a query returns it. *)
Definition hydrate (s : t) : Doc :=
  {| data := s; isNew := false; dirty := false; statusModified := false |}.

Definition on_data (f : t -> t) (d : Doc) : Doc :=
  {| data := f (data d); isNew := isNew d; dirty := true;
     statusModified := statusModified d |}.

(** [this.currentStatus = v].  Mongoose marks a path modified when the
    document is new, when the path is modified already, or when the value
    assigned differs from the one held; assigning the value a loaded
    document already has leaves [isModified('currentStatus')] false. *)
Definition assign_currentStatus (v : Status) (d : Doc) : Doc :=
  let changed :=
    isNew d || statusModified d
    || negb (Status_eqb v (currentStatus (data d))) in
  {| data := set_currentStatus v (data d); isNew := isNew d;
     dirty := dirty d || changed;
     statusModified := changed |}.

Record World : Type := mkWorld {
  clock : Clock;
  random : Rng;
  fuel : nat;
  shipments : list t
}.

#[export] Instance World_clock : HasClock World :=
  {| getClock := clock;
     setClock := fun c w =>
       {| clock := c; random := random w; fuel := fuel w;
          shipments := shipments w |} |}.

Definition set_shipments (l : list t) (w : World) : World :=
  {| clock := clock w; random := random w; fuel := fuel w; shipments := l |}.

(** [Math.random()] *)
Definition Math_random : M World Q :=
  fun w =>
    let g := random w in
    (Ok (draw g (next g)),
     {| clock := clock w;
        random := {| draw := draw g; next := S (next g) |};
        fuel := fuel w; shipments := shipments w |}).

(** *** Schema validators

    [/^IND\d{9}$/] on [trackingNumber]. *)
Definition matches_IND (s : string) : bool :=
  match s with
  | String a (String b (String c rest)) =>
      Ascii.eqb a "I" && Ascii.eqb b "N" && Ascii.eqb c "D"
      && Nat.eqb (String.length rest) 9 && all_chars is_digit rest
  | _ => false
  end.

Definition validate_event (e : TrackingEvent.t) : list string :=
  (match TrackingEvent.status e with
   | None => ["Path `status` is required."]
   | Some _ => []
   end)
  ++ (if String.eqb (TrackingEvent.location e) "" then
        ["Path `location` is required."] else [])
  ++ (if String.eqb (TrackingEvent.description e) "" then
        ["Path `description` is required."] else []).

(** The validators of the paths that the ledger operations write.  The
    sender, recipient, package and service blocks are written once, from
    a request that the handler's own validators have accepted, and their
    schema validators are not repeated here.  Mongoose validates a loaded
    document on the paths that were modified; these four paths are checked
    here on every save, which makes no difference for a document that was
    itself stored by [save]. *)
Definition validate (s : t) : list string :=
  (match trackingNumber s with
   | None => ["Tracking number is required"]
   | Some tn =>
       if String.eqb tn "" then ["Tracking number is required"]
       else if matches_IND tn then []
       else ["Tracking number must be in format IND123456789"]
   end)
  ++ (if progress s <? 0 then ["Path `progress` is less than minimum allowed value (0)."]
      else if 100 <? progress s then ["Path `progress` is more than maximum allowed value (100)."]
      else [])
  ++ (if 3 <? deliveryAttempts s then
        ["Path `deliveryAttempts` is more than maximum allowed value (3)."]
      else [])
  ++ flat_map validate_event (tracking s).


(** *** Pre-save middleware: tracking-number generator *)

Definition has_trackingNumber (tn : string) (s : t) : bool :=
  match trackingNumber s with
  | Some tn' => String.eqb tn' tn
  | None => false
  end.

(** [Math.floor(Math.random() * 900000000) + 100000000] *)
Definition randomNum (r : Q) : Z :=
  Qfloor (r * (900000000 # 1)) + 100000000.

(** The [while (exists)] loop.  Each iteration draws a number and asks the
    collection whether any shipment, active or not, already carries it.
    The loop of the source has no bound; the model stops with [None]
    after [n] iterations. *)
Fixpoint generate (n : nat) : M World (option string) :=
  match n with
  | O => ret None
  | S n' =>
      r <- Math_random ;;
      let trackingNumber0 := "IND" ++ decimal (randomNum r) in
      existingShipment <-
        gets (fun w => find (has_trackingNumber trackingNumber0) (shipments w)) ;;
      match existingShipment with
      | Some _ => generate n'
      | None => ret (Some trackingNumber0)
      end
  end.

(** The number the loop proposes at its [k]-th iteration from state [w]. *)
Definition candidate (w : World) (k : nat) : string :=
  "IND" ++ decimal (randomNum (draw (random w) (next (random w) + k))).

Definition taken (w : World) (tn : string) : bool :=
  existsb (has_trackingNumber tn) (shipments w).

Definition falsy (o : option string) : bool :=
  match o with
  | None => true
  | Some s => String.eqb s ""
  end.

Definition out_of_fuel : Exn := Error "loop bound of the model reached".

Definition preSaveTrackingNumber (d : Doc) : M World Doc :=
  if isNew d && falsy (trackingNumber (data d)) then
    n <- gets fuel ;;
    generated <- generate n ;;
    match generated with
    | Some tn => ret (on_data (set_trackingNumber (Some (toUpperCase tn))) d)
    | None => throw out_of_fuel
    end
  else ret d.

(** *** Pre-save middleware: progress from status *)

Definition statusProgress (this_progress : Z) (s : Status) : option Z :=
  match s with
  | OrderPlaced => Some 10
  | InTransit => Some 50
  | OutForDelivery => Some 80
  | Delivered => Some 100
  | Returned => Some 100
  | Cancelled => Some 0
  | Exception => Some this_progress
  end.

Definition preSaveProgress (d : Doc) : Doc :=
  if statusModified d then
    match statusProgress (progress (data d)) (currentStatus (data d)) with
    | Some p => {| data := set_progress p (data d); isNew := isNew d;
                   dirty := dirty d; statusModified := statusModified d |}
    | None => d
    end
  else d.

(** *** [save]

    Mongoose runs, in this order: its own validation (registered as the
    first pre-save hook, so the schema validators see the document before
    the middleware of this file does), the hook of the [timestamps]
    option, the two [pre('save')] functions above in the order they were
    declared, and then the write.  A new document is inserted, subject to
    the unique index on [trackingNumber]; a loaded one replaces the
    stored document with its [_id]. *)

Definition same_id (id : ObjectId) (s : t) : bool := String.eqb (_id s) id.

Definition same_trackingNumber (o : option string) (s : t) : bool :=
  match o with
  | Some tn => has_trackingNumber tn s
  | None => false
  end.

Fixpoint replace_first (s : t) (l : list t) : list t :=
  match l with
  | [] => []
  | x :: l' => if same_id (_id s) x then s :: l' else x :: replace_first s l'
  end.

Definition stamp (ts : Date) (d : Doc) : Doc :=
  if isNew d then
    {| data := set_timestamps ts ts (data d); isNew := isNew d;
       dirty := dirty d; statusModified := statusModified d |}
  else if dirty d then
    {| data := set_timestamps (createdAt (data d)) ts (data d);
       isNew := isNew d; dirty := dirty d;
       statusModified := statusModified d |}
  else d.

Definition timestampsPreSave (d : Doc) : M World Doc :=
  ts <- Date_now ;;
  ret (stamp ts d).

Definition persist (d : Doc) : M World Doc :=
  l <- gets shipments ;;
  if isNew d then
    if existsb (same_id (_id (data d))) l then throw (DuplicateKey "_id")
    else if existsb (same_trackingNumber (trackingNumber (data d))) l then
      throw (DuplicateKey "trackingNumber")
    else
      modify (set_shipments (l ++ [data d])) ;;;
      ret (hydrate (data d))
  else if dirty d then
    if existsb (same_id (_id (data d))) l then
      modify (set_shipments (replace_first (data d) l)) ;;;
      ret (hydrate (data d))
    else throw (Error "No document found for query")
  else ret d.

Definition save (d : Doc) : M World Doc :=
  match validate (data d) with
  | [] =>
      d1 <- timestampsPreSave d ;;
      d2 <- preSaveTrackingNumber d1 ;;
      persist (preSaveProgress d2)
  | errors => throw (ValidationError (String.concat "; " errors))
  end.

(** *** [addTrackingEvent]

    [eventData.timestamp || new Date()] is evaluated once for the pushed
    event and once more in the branch that stamps a terminal date, so a
    missing timestamp costs two readings of the clock. *)

Definition timestamp_or_now (e : EventData.t) : M World Date :=
  match EventData.timestamp e with
  | Some ts => ret ts
  | None => Date_now
  end.

Definition addTrackingEvent (d : Doc) (eventData : EventData.t) : M World Doc :=
  ts <- timestamp_or_now eventData ;;
  let d := on_data (fun s => set_tracking (tracking s ++ [event_of eventData ts]) s) d in
  let d := match EventData.status eventData with
           | Some st => assign_currentStatus st d
           | None => d
           end in
  d <- match EventData.status eventData with
       | Some Delivered =>
           at_ <- timestamp_or_now eventData ;;
           ret (on_data (set_deliveredAt (Some at_)) d)
       | Some Returned =>
           at_ <- timestamp_or_now eventData ;;
           ret (on_data (set_returnedAt (Some at_)) d)
       | Some Cancelled =>
           at_ <- timestamp_or_now eventData ;;
           ret (on_data (set_cancelled (Some at_)
                           (Some (EventData.description eventData))) d)
       | _ => ret d
       end ;;
  save d.

(** *** [incrementDeliveryAttempts]

    The promise returned by the inner [addTrackingEvent] is not awaited;
    both it and the final [save] act on the same in-memory document.  The
    model runs them in program order: the inner save writes the document,
    and the final save finds nothing left to write.  What the caller is
    handed back for that second save is not part of any statement below;
    the statements are about the stored document. *)

Definition max_attempts_event : EventData.t :=
  EventData.mk (Some Exception) "Delivery Center"
    "Maximum delivery attempts reached. Package being returned to sender."
    None None None.

Definition incrementDeliveryAttempts (d : Doc) : M World Doc :=
  let d := on_data (fun s => set_deliveryAttempts (deliveryAttempts s + 1) s) d in
  d <- (if 3 <=? deliveryAttempts (data d) then
          addTrackingEvent d max_attempts_event
        else ret d) ;;
  save d.

(** *** Queries *)

Definition findById (id : ObjectId) : M World (option Doc) :=
  gets (fun w => option_map hydrate (find (same_id id) (shipments w))).

(** [.sort({ createdAt: -1 })]: newest first; documents with equal
    creation times keep their collection order. *)
Fixpoint insert_desc (s : t) (l : list t) : list t :=
  match l with
  | [] => [s]
  | x :: l' =>
      if createdAt x <=? createdAt s then s :: x :: l'
      else x :: insert_desc s l'
  end.

Definition sort_newest_first (l : list t) : list t :=
  fold_right insert_desc [] l.

Definition email_is (v : string) (p : Party) : bool :=
  match email p with
  | Some e => String.eqb e v
  | None => false
  end.

(** [findByUser(userId)]: the same [userId] is compared with [createdBy]
    and with the two contact emails. *)
Definition findByUser (userId : ObjectId) : M World (list t) :=
  gets (fun w =>
    sort_newest_first
      (filter (fun s =>
                 (String.eqb (createdBy s) userId
                  || email_is userId (sender s)
                  || email_is userId (recipient s))
                 && isActive s)
              (shipments w))).

(** [populate(path, 'fullName email phone')] *)
Record UserRef : Type := {
  ref_id : ObjectId; ref_fullName : string; ref_email : string;
  ref_phone : string
}.

Definition populate (users : list User.t) (id : ObjectId) : option UserRef :=
  option_map
    (fun u => {| ref_id := User._id u; ref_fullName := User.fullName u;
                 ref_email := User.email u; ref_phone := User.phone u |})
    (User.findById id users).

Record Populated : Type := {
  doc : Doc;
  createdBy_ref : option UserRef;
  assignedAgent_ref : option UserRef
}.

Definition findByTrackingNumber (users : list User.t)
    (trackingNumber0 : string) : M World (option Populated) :=
  gets (fun w =>
    option_map
      (fun s => {| doc := hydrate s;
                   createdBy_ref := populate users (createdBy s);
                   assignedAgent_ref :=
                     match assignedAgent s with
                     | Some a => populate users a
                     | None => None
                     end |})
      (find (fun s => has_trackingNumber (toUpperCase trackingNumber0) s
                      && isActive s)
            (shipments w))).

(** *** Virtuals *)

Definition isDelayed (s : t) : M World bool :=
  match currentStatus s with
  | Delivered => ret false
  | _ => t0 <- Date_now ;; ret (estimatedDelivery (service s) <? t0)
  end.

End Shipment.

(** ** HTTP handlers: [routes/shipments.js]

    Each handler is modelled from the point where the authentication
    middleware has resolved [req.user]. *)

Module Routes.
Import Shipment.

#[warnings="-register-all"] Inductive json : Type :=
| JNull
| JBool (b : bool)
| JNum (q : Q)
| JStr (s : string)
| JDate (d : Date)
| JArr (l : list json)
| JObj (fields : list (string * json)).

(** An object literal as [res.json] serialises it: a property whose value
    is [undefined] is left out. *)
Definition obj (fields : list (string * option json)) : json :=
  JObj (flat_map (fun kv => match snd kv with
                            | Some j => [(fst kv, j)]
                            | None => []
                            end) fields).

Definition keys (j : json) : list string :=
  match j with
  | JObj fields => map fst fields
  | _ => []
  end.

Definition jstr (s : string) : option json := Some (JStr s).
Definition jnum (q : Q) : option json := Some (JNum q).
Definition jint (z : Z) : option json := Some (JNum (inject_Z z)).
Definition jdate (d : Date) : option json := Some (JDate d).
Definition jbool (b : bool) : option json := Some (JBool b).

Record Response : Type := { code : Z; body : json }.

Definition respond (c : Z) (j : json) : M World Response :=
  ret {| code := c; body := j |}.

(** *** Serialisation of the blocks an authenticated caller receives

    Only the fields the schema declares are rendered; the identifiers
    Mongoose adds to subdocuments are left out. *)

Definition json_of_address (a : Address) : json :=
  obj [("street", jstr (street a)); ("city", jstr (city a));
       ("state", jstr (state a)); ("pincode", jstr (pincode a));
       ("country", jstr (country a))].

Definition json_of_party (p : Party) : json :=
  obj [("name", jstr (name p)); ("email", option_map JStr (email p));
       ("phone", jstr (phone p));
       ("address", Some (json_of_address (address p)))].

Definition category_name (c : Category) : string :=
  match c with
  | Documents => "Documents" | Electronics => "Electronics"
  | Clothing => "Clothing" | Food => "Food" | Fragile => "Fragile"
  | Liquid => "Liquid" | Other => "Other"
  end.

Definition priority_name (p : Priority) : string :=
  match p with
  | low => "low" | normal => "normal" | high => "high" | urgent => "urgent"
  end.

Definition json_of_package (p : Package) : json :=
  obj [("description", jstr (pkg_description p)); ("weight", jnum (weight p));
       ("dimensions",
        Some (obj [("length", jnum (length (dimensions p)));
                   ("width", jnum (width (dimensions p)));
                   ("height", jnum (height (dimensions p)))]));
       ("value", jnum (value p)); ("category", jstr (category_name (category p)));
       ("isFragile", jbool (isFragile p));
       ("requiresSignature", jbool (requiresSignature p))].

Definition json_of_service (s : Service) : json :=
  obj [("type", jstr (service_name (type s)));
       ("priority", jstr (priority_name (priority s)));
       ("cost", jnum (cost s));
       ("estimatedDelivery", jdate (estimatedDelivery s));
       ("insurance",
        Some (obj [("isInsured", jbool (isInsured (insurance s)));
                   ("coverage", jnum (coverage (insurance s)));
                   ("premium", jnum (premium (insurance s)))]))].

Definition json_of_event (e : TrackingEvent.t) : json :=
  obj [("status", option_map (fun s => JStr (status_name s)) (TrackingEvent.status e));
       ("location", jstr (TrackingEvent.location e));
       ("description", jstr (TrackingEvent.description e));
       ("timestamp", jdate (TrackingEvent.timestamp e));
       ("coordinates",
        option_map (fun c => obj [("latitude", jnum (latitude c));
                                  ("longitude", jnum (longitude c))])
                   (TrackingEvent.coordinates e));
       ("agent",
        option_map (fun a => obj [("name", jstr (agent_name a));
                                  ("id", jstr (agent_id a));
                                  ("contact", jstr (agent_contact a))])
                   (TrackingEvent.agent e))].

Section Track.

(** Offset of the server's local time from UTC, in milliseconds. *)
Variable tz : Z.

Definition day : Z := 86400000.
Definition hour : Z := 3600000.

(** [d.setHours(h, 0, 0, 0)] *)
Definition setHours (d : Date) (h : Z) : Date :=
  ((d + tz) / day) * day + h * hour - tz.

(** Virtual [deliveryWindow]. *)
Definition deliveryWindow (s : t) : json :=
  obj [("start", jdate (setHours (estimatedDelivery (service s)) 9));
       ("end", jdate (setHours (estimatedDelivery (service s)) 18))].

(** The object sent to a caller without [req.user]. *)
Definition redact (e : TrackingEvent.t) : json :=
  obj [("status", option_map (fun s => JStr (status_name s)) (TrackingEvent.status e));
       ("location", jstr (TrackingEvent.location e));
       ("description", jstr (TrackingEvent.description e));
       ("timestamp", jdate (TrackingEvent.timestamp e))].

Definition publicDetails (s : t) : M World json :=
  delayed <- isDelayed s ;;
  ret (obj [("trackingNumber", option_map JStr (trackingNumber s));
            ("currentStatus", jstr (status_name (currentStatus s)));
            ("progress", jint (progress s));
            ("tracking", Some (JArr (map redact (tracking s))));
            ("estimatedDelivery", jdate (estimatedDelivery (service s)));
            ("isDelayed", jbool delayed);
            ("serviceType", jstr (service_name (type (service s))))]).

Definition fullDetails (s : t) : M World json :=
  delayed <- isDelayed s ;;
  ret (obj [("trackingNumber", option_map JStr (trackingNumber s));
            ("currentStatus", jstr (status_name (currentStatus s)));
            ("progress", jint (progress s));
            ("sender", Some (json_of_party (sender s)));
            ("recipient", Some (json_of_party (recipient s)));
            ("package", Some (json_of_package (package s)));
            ("service", Some (json_of_service (service s)));
            ("tracking", Some (JArr (map json_of_event (tracking s))));
            ("estimatedDelivery", jdate (estimatedDelivery (service s)));
            ("isDelayed", jbool delayed);
            ("deliveryWindow", Some (deliveryWindow s));
            ("deliveryAttempts", jint (deliveryAttempts s));
            ("createdAt", jdate (createdAt s));
            ("updatedAt", jdate (updatedAt s))]).

Definition server_error (message : string) : json :=
  obj [("error", jstr "Server error"); ("message", jstr message)].

(** [GET /api/shipments/track/:trackingNumber].  The [details] of a 400
    answer are the validator's error list, reduced here to its messages. *)
Definition trackShipment (users : list User.t) (reqUser : option User.t)
    (trackingNumber0 : string) : M World Response :=
  catch
    (if negb (matches_IND trackingNumber0) then
       respond 400
         (obj [("error", jstr "Validation failed");
               ("message", jstr "Invalid tracking number format");
               ("details",
                Some (JArr [obj [("msg", jstr "Invalid tracking number format. Use format: IND123456789")]]))])
     else
       shipment <- findByTrackingNumber users trackingNumber0 ;;
       match shipment with
       | None =>
           respond 404
             (obj [("error", jstr "Shipment not found");
                   ("message", jstr ("No shipment found with tracking number "
                                     ++ trackingNumber0))])
       | Some p =>
           match reqUser with
           | Some _ => j <- fullDetails (data (doc p)) ;; respond 200 j
           | None => j <- publicDetails (data (doc p)) ;; respond 200 j
           end
       end)
    (fun _ => respond 500 (server_error "Failed to retrieve shipment information")).

End Track.

(** *** [POST /api/shipments]

    The request body as the handler receives it once its validators have
    passed.  [shipmentData] spreads the whole body into the constructor, so
    besides the validated blocks the body may set any other schema path;
    [createdBy] and [service.estimatedDelivery] are overwritten by the
    handler. *)
Record Body : Type := {
  b_sender : Party;
  b_recipient : Party;
  b_package : Package;
  b_service_type : ServiceType;
  b_service_priority : Priority;
  b_service_cost : Q;
  b_service_insurance : Insurance;
  b_trackingNumber : option string;
  b_currentStatus : option Status;
  b_progress : option Z;
  b_tracking : list EventData.t;
  b_paymentStatus : option PaymentStatus;
  b_paymentMethod : option PaymentMethod;
  b_deliveryAttempts : option Z;
  b_specialInstructions : option string;
  b_internalNotes : option string;
  b_assignedAgent : option ObjectId;
  b_isActive : option bool;
  b_deliveredAt : option Date;
  b_returnedAt : option Date;
  b_cancelledAt : option Date;
  b_cancellationReason : option string
}.

Definition serviceDeliveryDays (ty : ServiceType) : Q :=
  match ty with
  | hyperlocal => 1 # 4
  | same_day => 1
  | next_day => 2
  | standard => 4
  | economy => 7
  | express => 1
  end.

(** [d.setDate(d.getDate() + days)]: [setDate] truncates its argument to an
    integer and moves the calendar day, which is a shift by whole days of
    86 400 000 ms wherever the local zone has no clock change in between. *)
Definition addDays (d : Date) (days : Q) : Date := d + Qfloor days * 86400000.

Definition or_default {A} (o : option A) (default : A) : A :=
  match o with Some a => a | None => default end.

(** Schema setters of the party blocks: [trim] on the name, [lowercase] on
    the email. *)
Definition cast_party (p : Party) : Party :=
  {| name := trim (name p); email := option_map toLowerCase (email p);
     phone := phone p; address := address p |}.

(** Casting the elements of a [tracking] array given to the constructor:
    the [timestamp] default is [Date.now]. *)
Fixpoint cast_events (l : list EventData.t) : M World (list TrackingEvent.t) :=
  match l with
  | [] => ret []
  | e :: l' =>
      ts <- timestamp_or_now e ;;
      rest <- cast_events l' ;;
      ret (event_of e ts :: rest)
  end.

(** [new Shipment(shipmentData)].  Paths the body leaves out take their
    schema defaults, which does not mark them modified; [createdAt] and
    [updatedAt] are filled in by [save]. *)
Definition newShipment (id : ObjectId) (b : Body) (estimatedDelivery0 : Date)
    (createdBy0 : ObjectId) : M World Doc :=
  events <- cast_events (b_tracking b) ;;
  ret {| data :=
           Shipment.mk id
             (option_map toUpperCase (b_trackingNumber b))
             (cast_party (b_sender b))
             (cast_party (b_recipient b))
             (b_package b)
             {| type := b_service_type b; priority := b_service_priority b;
                cost := b_service_cost b;
                estimatedDelivery := estimatedDelivery0;
                insurance := b_service_insurance b |}
             (or_default (b_currentStatus b) OrderPlaced)
             (or_default (b_progress b) 0)
             events
             (or_default (b_paymentStatus b) pending)
             (or_default (b_paymentMethod b) online)
             (or_default (b_deliveryAttempts b) 0)
             (b_specialInstructions b)
             (b_internalNotes b)
             (b_assignedAgent b)
             createdBy0
             (or_default (b_isActive b) true)
             (b_deliveredAt b) (b_returnedAt b) (b_cancelledAt b)
             (b_cancellationReason b)
             0 0;
         isNew := true;
         dirty := true;
         statusModified := match b_currentStatus b with
                           | Some _ => true
                           | None => false
                           end |}.

Definition initial_event (b : Body) (ts : Date) : TrackingEvent.t :=
  TrackingEvent.mk (Some OrderPlaced)
    (city (address (b_sender b)) ++ ", " ++ state (address (b_sender b)))
    "Shipment order has been placed and is being processed"
    ts None None.

(** The handler; [id] is the [_id] the driver gives the new document. *)
Definition createShipment (id : ObjectId) (reqUser : User.t) (b : Body)
    : M World Response :=
  catch
    (t0 <- Date_now ;;
     let estimatedDelivery0 := addDays t0 (serviceDeliveryDays (b_service_type b)) in
     shipment <- newShipment id b estimatedDelivery0 (User._id reqUser) ;;
     ts <- Date_now ;;
     let shipment :=
       on_data (fun s => set_tracking (tracking s ++ [initial_event b ts]) s)
               shipment in
     shipment <- save shipment ;;
     respond 201
       (obj [("message", jstr "Shipment created successfully");
             ("shipment",
              Some (obj [("trackingNumber",
                          option_map JStr (trackingNumber (data shipment)));
                         ("currentStatus",
                          jstr (status_name (currentStatus (data shipment))));
                         ("estimatedDelivery",
                          jdate (estimatedDelivery (service (data shipment))));
                         ("service", Some (json_of_service (service (data shipment))));
                         ("createdAt", jdate (createdAt (data shipment)))]))]))
    (fun _ => respond 500 (obj [("error", jstr "Server error");
                                ("message", jstr "Failed to create shipment")])).

(** *** [GET /api/shipments/my] *)

Definition myQuery (reqUser : User.t) (status : option Status) (s : t) : bool :=
  (String.eqb (createdBy s) (User._id reqUser)
   || email_is (User.email reqUser) (sender s)
   || email_is (User.email reqUser) (recipient s))
  && isActive s
  && match status with
     | Some st => Status_eqb (currentStatus s) st
     | None => true
     end.

Record Page : Type := {
  page_shipments : list t;
  page_current : Z;
  page_pages : Z;
  page_total : Z;
  page_limit : Z
}.

(** [parseInt(x) || fallback]; [None] stands for [NaN]. *)
Definition parsed_or (x : option Z) (fallback : Z) : Z :=
  match x with
  | Some 0 | None => fallback
  | Some n => n
  end.

(** [Math.ceil(total / limit)] for a positive [limit]. *)
Definition ceil_div (total limit : Z) : Z := (total + limit - 1) / limit.

(** The listing; [None] is the 500 answer of the [catch] block, which is
    where a negative [skip] ends. *)
Definition myShipments (reqUser : User.t) (page limit : option Z)
    (status : option Status) : M World (option Page) :=
  catch
    (let page0 := parsed_or page 1 in
     let limit0 := parsed_or limit 10 in
     if (page0 - 1) * limit0 <? 0 then throw (Error "Skip value must be non-negative")
     else
       matching <- gets (fun w => filter (myQuery reqUser status) (shipments w)) ;;
       ret (Some {| page_shipments :=
                      firstn (Z.to_nat (Z.abs limit0))
                        (skipn (Z.to_nat ((page0 - 1) * limit0))
                               (sort_newest_first matching));
                    page_current := page0;
                    page_pages := ceil_div (Z.of_nat (List.length matching)) limit0;
                    page_total := Z.of_nat (List.length matching);
                    page_limit := limit0 |}))
    (fun _ => ret None).

(** *** [PUT /api/shipments/:id/tracking] *)

Definition is_hex (c : ascii) : bool :=
  let n := N_of_ascii c in
  (is_digit c || ((65 <=? n) && (n <=? 70)) || ((97 <=? n) && (n <=? 102)))%N.

Definition isMongoId (s : string) : bool :=
  Nat.eqb (String.length s) 24 && all_chars is_hex s.

(** [status] is [None] when the body gives none of the seven names. *)
Definition addTracking (reqUser : User.t) (id : string)
    (status : option Status) (location description : string)
    (coordinates : option Coordinates) : M World Response :=
  catch
    (let errors :=
       ((if isMongoId id then [] else ["Invalid shipment ID"])
        ++ (match status with Some _ => [] | None => ["Invalid status"] end)
        ++ (if String.eqb location "" then ["Location is required"] else [])
        ++ (if String.eqb description "" then ["Description is required"] else []))%list in
     match errors with
     | _ :: _ =>
         respond 400
           (obj [("error", jstr "Validation failed");
                 ("message", jstr "Please check your input");
                 ("details",
                  Some (JArr (map (fun m => obj [("msg", jstr m)]) errors)))])
     | [] =>
         shipment <- findById id ;;
         match shipment with
         | None =>
             respond 404
               (obj [("error", jstr "Shipment not found");
                     ("message", jstr "No shipment found with the provided ID")])
         | Some d =>
             ts <- Date_now ;;
             let trackingData :=
               EventData.mk status location description (Some ts) coordinates
                 (Some {| agent_name := User.fullName reqUser;
                          agent_id := User._id reqUser;
                          agent_contact := User.email reqUser |}) in
             d' <- addTrackingEvent d trackingData ;;
             respond 200
               (obj [("message", jstr "Tracking event added successfully");
                     ("shipment",
                      Some (obj [("trackingNumber",
                                  option_map JStr (trackingNumber (data d')));
                                 ("currentStatus",
                                  jstr (status_name (currentStatus (data d'))));
                                 ("progress", jint (progress (data d')));
                                 ("latestEvent",
                                  Some (obj [("status", option_map (fun st => JStr (status_name st)) status);
                                             ("location", jstr location);
                                             ("description", jstr description);
                                             ("timestamp", jdate ts);
                                             ("agent",
                                              Some (obj [("name", jstr (User.fullName reqUser));
                                                         ("id", jstr (User._id reqUser));
                                                         ("contact", jstr (User.email reqUser))]));
                                             ("coordinates",
                                              option_map (fun c => obj [("latitude", jnum (latitude c));
                                                                        ("longitude", jnum (longitude c))])
                                                         coordinates)]))]))])
         end
     end)
    (fun _ => respond 500 (obj [("error", jstr "Server error");
                                ("message", jstr "Failed to add tracking event")])).

End Routes.

(** ** Account handlers: [routes/auth.js], with the [save] of [models/User.js]

    Each handler is modelled from the point where the request body has been
    parsed; the two protected ones start where the authentication
    middleware has resolved [req.user].  A body field that is missing is
    the empty string, which every validator below rejects just the same. *)

Module Auth.
Import User.

(** [String.prototype.includes] *)
Fixpoint includes (needle hay : string) : bool :=
  String.prefix needle hay
  || match hay with
     | String _ hay' => includes needle hay'
     | EmptyString => false
     end.

(** [error.message] *)
Definition message_of (e : Exn) : string :=
  match e with
  | Error m => m
  | ValidationError m => m
  | DuplicateKey path => "E11000 duplicate key error, index: " ++ path
  end.

(** *** Regular expressions of the validators and of the schema *)

Definition is_lower (c : ascii) : bool :=
  let n := N_of_ascii c in ((97 <=? n) && (n <=? 122))%N.

Fixpoint any_char (p : ascii -> bool) (s : string) : bool :=
  match s with
  | EmptyString => false
  | String c s' => p c || any_char p s'
  end.

(** The part of the text that [.*] can run over from its start: [.] stops
    at a line terminator. *)
Definition is_newline (c : ascii) : bool :=
  let n := N_of_ascii c in ((n =? 10) || (n =? 13))%N.

Fixpoint first_line (s : string) : string :=
  match s with
  | EmptyString => EmptyString
  | String c s' => if is_newline c then EmptyString else String c (first_line s')
  end.

(** [/^(?=.*[a-z])(?=.*[A-Z])(?=.*\d)/] *)
Definition mixed_case_and_digit (s : string) : bool :=
  let l := first_line s in
  any_char is_lower l && any_char is_upper l && any_char is_digit l.

(** [/^[0-9]{10}$/] *)
Definition ten_digits (s : string) : bool :=
  Nat.eqb (String.length s) 10 && all_chars is_digit s.

(** [/^[^\s@]+@[^\s@]+\.[^\s@]+$/]: exactly one [@], no white space, a
    non-empty local part, and after the [@] a dot that is neither the first
    nor the last character. *)
Definition plain (c : ascii) : bool := negb (is_space c) && negb (Ascii.eqb c "@").

Fixpoint dot_before_end (s : string) : bool :=
  match s with
  | EmptyString => false
  | String c s' =>
      (Ascii.eqb c "." && negb (String.eqb s' "")) || dot_before_end s'
  end.

Definition domain_like (s : string) : bool :=
  all_chars plain s
  && match s with
     | String _ s' => dot_before_end s'
     | EmptyString => false
     end.

Fixpoint local_then_domain (seen : bool) (s : string) : bool :=
  match s with
  | EmptyString => false
  | String c s' =>
      if Ascii.eqb c "@" then seen && domain_like s'
      else plain c && local_then_domain true s'
  end.

Definition matches_email (s : string) : bool := local_then_domain false s.

(** *** [save] of an account document

    The order is that of the shipment documents: the schema validators,
    the hook of the [timestamps] option, the [pre('save')] function that
    hashes a modified password, and then the write. *)

Definition set_password (v : string) (u : t) : t :=
  mk (_id u) (fullName u) (email u) (phone u) v (role u)
     (isActive u) (loginAttempts u) (lockUntil u) (lastLogin u).

(** One message per path whose validators reject the value. *)
Definition schema_errors (u : t) : list string :=
  ((if String.eqb (fullName u) "" then ["Full name is required"]
    else if (String.length (fullName u) <? 2)%nat then
      ["Name must be at least 2 characters long"]
    else if (100 <? String.length (fullName u))%nat then
      ["Name cannot exceed 100 characters"]
    else [])
   ++ (if String.eqb (email u) "" then ["Email is required"]
       else if matches_email (email u) then []
       else ["Please provide a valid email address"])
   ++ (if String.eqb (phone u) "" then ["Phone number is required"]
       else if ten_digits (phone u) then []
       else ["Please provide a valid 10-digit phone number"])
   ++ (if String.eqb (password u) "" then ["Password is required"]
       else if (String.length (password u) <? 8)%nat then
         ["Password must be at least 8 characters long"]
       else []))%list.

Definition same_email (v : string) (u : t) : bool := String.eqb (email u) v.
Definition same_phone (v : string) (u : t) : bool := String.eqb (phone u) v.
Definition same_id (v : ObjectId) (u : t) : bool := String.eqb (_id u) v.

(** The insert, subject to the unique indexes on [_id], [email] and
    [phone]. *)
Definition insertOne (u : t) : M World unit :=
  l <- gets users ;;
  if existsb (same_id (_id u)) l then throw (DuplicateKey "_id")
  else if existsb (same_email (email u)) l then throw (DuplicateKey "email")
  else if existsb (same_phone (phone u)) l then throw (DuplicateKey "phone")
  else modify (fun w => {| clock := clock w; users := (users w ++ [u])%list |}).

Section Handlers.

(** [bcrypt.compare(candidate, hash)]; [bcrypt.hash(password, salt)], the
    salt being the one [bcrypt.genSalt(12)] draws for the call;
    [jwt.sign({ userId }, secret, { expiresIn: '7d' })]; and the
    [isEmail] validator and [normalizeEmail] sanitizer of
    express-validator. *)
Variable bcrypt_compare : string -> string -> bool.
Variable bcrypt_hash : string -> string -> string.
Variable jwt_sign : ObjectId -> string.
Variable isEmail : string -> bool.
Variable normalizeEmail : string -> string.

(** [new User({ fullName, email, phone, password })]: the setters trim the
    name and lower-case and trim the email; every other path takes its
    schema default. *)
Definition newUser (id : ObjectId) (fullName0 email0 phone0 password0 : string) : t :=
  mk id (trim fullName0) (trim (toLowerCase email0)) phone0 password0
     user true (Some 0) None None.

(** [user.save()] on a new document; the document handed back carries the
    hash. *)
Definition saveNew (salt : string) (u : t) : M World t :=
  match schema_errors u with
  | [] =>
      Date_now ;;;
      let u := set_password (bcrypt_hash salt (password u)) u in
      insertOne u ;;;
      ret u
  | errors => throw (ValidationError (String.concat "; " errors))
  end.

(** [user.password = v; user.save()] on a loaded document.  Assigning the
    string the document already holds leaves the path unmodified, and then
    nothing is validated, hashed or written. *)
Definition savePassword (salt : string) (u : t) (v : string) : M World unit :=
  let modified := negb (String.eqb v (password u)) in
  if modified && (String.eqb v "" || (String.length v <? 8)%nat) then
    throw (ValidationError "Password must be at least 8 characters long")
  else
    Date_now ;;;
    if modified then
      l <- gets users ;;
      if existsb (same_id (_id u)) l then
        updateOne u (set_password (bcrypt_hash salt v))
      else throw (Error "No document found for query")
    else ret tt.

(** What a handler sends.  The [user] object of a success body lists
    fields of one account document; the answer carries that document. *)
Inductive Reply : Type :=
| Success (status : Z) (message : string) (token : option string)
    (account : option t)
| Failure (status : Z) (error message : string) (details : list string).

Definition status_of (r : Reply) : Z :=
  match r with
  | Success s _ _ _ => s
  | Failure s _ _ _ => s
  end.

Definition validation_failed (details : list string) : Reply :=
  Failure 400 "Validation failed" "Please check your input" details.

(** *** [POST /api/auth/register] *)

Record Registration : Type := {
  r_fullName : string; r_email : string; r_phone : string; r_password : string
}.

Definition registration_errors (b : Registration) : list string :=
  ((if String.eqb (r_fullName b) "" then ["Full name is required"] else [])
   ++ (if (2 <=? String.length (r_fullName b))%nat
          && (String.length (r_fullName b) <=? 100)%nat then []
       else ["Name must be between 2 and 100 characters"])
   ++ (if isEmail (r_email b) then []
       else ["Please provide a valid email address"])
   ++ (if ten_digits (r_phone b) then []
       else ["Please provide a valid 10-digit phone number"])
   ++ (if (8 <=? String.length (r_password b))%nat then []
       else ["Password must be at least 8 characters long"])
   ++ (if mixed_case_and_digit (r_password b) then []
       else ["Password must contain at least one uppercase letter, one lowercase letter, and one number"]))%list.

(** The handler; [id] is the [_id] the driver gives the new document and
    [salt] the salt drawn for its password. *)
Definition register (salt : string) (id : ObjectId) (b : Registration)
    : M World Reply :=
  catch
    (match registration_errors b with
     | (_ :: _) as errors => ret (validation_failed errors)
     | [] =>
         let email0 := normalizeEmail (r_email b) in
         existingUser <-
           findOne (fun u => String.eqb (email u) (toLowerCase email0)
                             || String.eqb (phone u) (r_phone b)) ;;
         match existingUser with
         | Some x =>
             let field :=
               if String.eqb (email x) (toLowerCase email0) then "email"
               else "phone" in
             ret (Failure 400 "User already exists"
                    ("A user with this " ++ field ++ " already exists") [])
         | None =>
             u <- saveNew salt
                    (newUser id (trim (r_fullName b)) (toLowerCase email0)
                       (r_phone b) (r_password b)) ;;
             ret (Success 201 "User registered successfully"
                    (Some (jwt_sign (_id u))) (Some u))
         end
     end)
    (fun e =>
       match e with
       | DuplicateKey field =>
           ret (Failure 400 "Duplicate entry"
                  ("This " ++ field ++ " is already registered") [])
       | _ =>
           ret (Failure 500 "Server error"
                  "Something went wrong during registration" [])
       end).

(** *** [POST /api/auth/login] *)

Definition login_errors (email0 password0 : string) : list string :=
  ((if isEmail email0 then [] else ["Please provide a valid email address"])
   ++ (if String.eqb password0 "" then ["Password is required"] else []))%list.

Definition invalid_reply : Reply :=
  Failure 401 "Invalid credentials" "Incorrect email or password" [].

Definition locked_reply : Reply :=
  Failure 423 "Account locked"
    "Account temporarily locked due to too many failed login attempts. Please try again later."
    [].

Definition login (email0 password0 : string) : M World Reply :=
  catch
    (match login_errors email0 password0 with
     | (_ :: _) as errors => ret (validation_failed errors)
     | [] =>
         u <- findByCredentials bcrypt_compare (normalizeEmail email0) password0 ;;
         ret (Success 200 "Login successful" (Some (jwt_sign (_id u))) (Some u))
     end)
    (fun e =>
       if includes "Invalid login credentials" (message_of e) then
         ret invalid_reply
       else if includes "Account temporarily locked" (message_of e) then
         ret locked_reply
       else
         ret (Failure 500 "Server error" "Something went wrong during login" [])).

(** *** [POST /api/auth/change-password] *)

Definition password_errors (currentPassword newPassword : string) : list string :=
  ((if String.eqb currentPassword "" then ["Current password is required"] else [])
   ++ (if (8 <=? String.length newPassword)%nat then []
       else ["New password must be at least 8 characters long"])
   ++ (if mixed_case_and_digit newPassword then []
       else ["New password must contain at least one uppercase letter, one lowercase letter, and one number"]))%list.

Definition changePassword (salt : string) (reqUser : t)
    (currentPassword newPassword : string) : M World Reply :=
  catch
    (match password_errors currentPassword newPassword with
     | (_ :: _) as errors => ret (validation_failed errors)
     | [] =>
         if negb (comparePassword bcrypt_compare reqUser currentPassword) then
           ret (Failure 400 "Invalid password" "Current password is incorrect" [])
         else
           savePassword salt reqUser newPassword ;;;
           ret (Success 200 "Password changed successfully" None None)
     end)
    (fun _ => ret (Failure 500 "Server error" "Failed to change password" [])).

End Handlers.

(** *** The [toJSON] transform of the account schema

    [ret] is the plain object Mongoose has built from the document; the
    transform deletes six of its properties and returns it. *)

Definition hidden_paths : list string :=
  ["password"; "resetPasswordToken"; "resetPasswordExpires";
   "emailVerificationToken"; "emailVerificationExpires"; "__v"].

Definition delete (k : string) (ret0 : list (string * Routes.json))
    : list (string * Routes.json) :=
  filter (fun kv => negb (String.eqb (fst kv) k)) ret0.

Definition transform (ret0 : list (string * Routes.json))
    : list (string * Routes.json) :=
  delete "__v"
    (delete "emailVerificationExpires"
       (delete "emailVerificationToken"
          (delete "resetPasswordExpires"
             (delete "resetPasswordToken" (delete "password" ret0))))).

End Auth.

(** ** Dashboard: [GET /api/shipments/dashboard/stats] *)

Module Dashboard.
Import Shipment.

Record Statistics : Type := {
  totalShipments : Z;
  todayShipments : Z;
  activeShipments : Z;
  deliveredShipments : Z;
  delayedShipments : Z;
  statusBreakdown : list (Status * Z)
}.

(** [Shipment.countDocuments(filter)] *)
Definition countDocuments (filter0 : t -> bool) : M World Z :=
  gets (fun w => Z.of_nat (List.length (filter filter0 (shipments w)))).

Definition status_in (l : list Status) (s : t) : bool :=
  existsb (Status_eqb (currentStatus s)) l.

(** [{ $group: { _id: '$currentStatus', count: { $sum: 1 } } }]: one entry
    for each status that occurs.  MongoDB does not fix the order of the
    groups; the model lists them as they first occur. *)
Fixpoint bump (st : Status) (acc : list (Status * Z)) : list (Status * Z) :=
  match acc with
  | [] => [(st, 1)]
  | (k, n) :: acc' =>
      if Status_eqb k st then (k, n + 1) :: acc' else (k, n) :: bump st acc'
  end.

Definition group_by_status (l : list t) : list (Status * Z) :=
  fold_left (fun acc s => bump (currentStatus s) acc) l [].

(** [acc[item._id] = item.count] read back: the count recorded for a
    status, 0 when the object has no such property. *)
Definition count_of (st : Status) (breakdown : list (Status * Z)) : Z :=
  match find (fun kv => Status_eqb (fst kv) st) breakdown with
  | Some kv => snd kv
  | None => 0
  end.

(** The handler; [None] is the 500 answer of its [catch] block.  The six
    queries only read the collection, so running them one after another
    gives what [Promise.all] gives. *)
Definition stats (tz : Z) : M World (option Statistics) :=
  catch
    (t0 <- Date_now ;;
     let today := Routes.setHours tz t0 0 in
     let tomorrow := today + Routes.day in
     total <- countDocuments isActive ;;
     today_count <-
       countDocuments (fun s => (today <=? createdAt s)
                                && (createdAt s <? tomorrow) && isActive s) ;;
     active <-
       countDocuments (fun s => status_in [OrderPlaced; InTransit; OutForDelivery] s
                                && isActive s) ;;
     delivered <-
       countDocuments (fun s => Status_eqb (currentStatus s) Delivered
                                && isActive s) ;;
     t1 <- Date_now ;;
     delayed <-
       countDocuments (fun s => negb (status_in [Delivered; Cancelled; Returned] s)
                                && (estimatedDelivery (service s) <? t1)
                                && isActive s) ;;
     breakdown <- gets (fun w => group_by_status (filter isActive (shipments w))) ;;
     ret (Some {| totalShipments := total;
                  todayShipments := today_count;
                  activeShipments := active;
                  deliveredShipments := delivered;
                  delayedShipments := delayed;
                  statusBreakdown := breakdown |}))
    (fun _ => ret None).

End Dashboard.

(** ** Browser client: [api-client.js] *)

Module Client.

(** The client object and the browser storage it writes.  A token is
    [None] when the property holds [null]; the empty string is the other
    falsy value it can hold. *)
Record State : Type := {
  token : option string;
  localStorage : string -> option string
}.

Definition token_key : string := "trackship_token".

Definition truthy (o : option string) : bool :=
  match o with
  | Some s => negb (String.eqb s "")
  | None => false
  end.

Definition setItem (k v : string) (st : State) : State :=
  {| token := token st;
     localStorage := fun k' => if String.eqb k' k then Some v else localStorage st k' |}.

Definition removeItem (k : string) (st : State) : State :=
  {| token := token st;
     localStorage := fun k' => if String.eqb k' k then None else localStorage st k' |}.

(** [new TrackShipAPI()] in a browser whose storage is [storage]. *)
Definition construct (storage : string -> option string) : State :=
  {| token := storage token_key; localStorage := storage |}.

Definition setToken (t : option string) : M State unit :=
  modify (fun st =>
    let st := {| token := t; localStorage := localStorage st |} in
    match t with
    | Some v => if truthy t then setItem token_key v st else removeItem token_key st
    | None => removeItem token_key st
    end).

Definition getHeaders (isMultipart : bool) (st : State) : list (string * string) :=
  ((if negb isMultipart then [("Content-Type", "application/json")] else [])
   ++ (match token st with
       | Some v => if truthy (token st) then
                     [("Authorization", ("Bearer " ++ v)%string)]
                   else []
       | None => []
       end))%list.

Definition isAuthenticated (st : State) : bool := truthy (token st).

(** The two properties of a response body that the client reads. *)
Record Data : Type := { d_message : option string; d_token : option string }.

(** What [fetch] and [response.json()] come back with: a rejection, or a
    response with its [ok] flag, its status and, when the body parses, its
    data. *)
Inductive Fetched : Type :=
| Rejected (e : Exn)
| Answered (ok : bool) (status : Z) (data : option Data).

Definition request (f : Fetched) : M State Data :=
  match f with
  | Rejected e => throw e
  | Answered _ _ None => throw (Error "Unexpected end of JSON input")
  | Answered false status (Some data) =>
      throw (Error (if truthy (d_message data) then
                      match d_message data with Some m => m | None => "" end
                    else "HTTP error! status: " ++ decimal status))
  | Answered true _ (Some data) => ret data
  end.

(** [login] and [register] differ in the endpoint and the body they send;
    [f] is what the server answered. *)
Definition login (f : Fetched) : M State Data :=
  response <- request f ;;
  (if truthy (d_token response) then setToken (d_token response) else ret tt) ;;;
  ret response.

(** [try { m } finally { f }]: [f] runs however [m] ends, and the outcome
    is that of [m] unless [f] itself throws. *)
Definition finally {S A} (m : M S A) (f : M S unit) : M S A :=
  fun s =>
    match m s with
    | (r, s') =>
        match f s' with
        | (Ok _, s'') => (r, s'')
        | (Throw e, s'') => (Throw e, s'')
        end
    end.

Definition logout (f : Fetched) : M State unit :=
  finally
    (catch (request f ;;; ret tt) (fun _ => ret tt))
    (setToken None).

End Client.

(** * Notions used in the statements *)

Module Notions.

Section Accounts.
Import User.

Definition not_locked_at (u : t) (t0 : Date) : Prop :=
  forall l, lockUntil u = Some l -> l <= t0.


End Accounts.

Section Ledger.
Import Shipment.


(** What [save] leaves in the collection, as a function of the document
    and the clock reading of the timestamps hook. *)
Definition saved (ts : Date) (d : Doc) : t := data (preSaveProgress (stamp ts d)).

(** The status-to-progress table of the specification; it has no entry
    for [Exception]. *)
Definition fixed_mapping (st : Status) : option Z :=
  match st with
  | OrderPlaced => Some 10
  | InTransit => Some 50
  | OutForDelivery => Some 80
  | Delivered => Some 100
  | Returned => Some 100
  | Cancelled => Some 0
  | Exception => None
  end.

(** The clock readings of [addTrackingEvent]: the time given to the pushed
    event, and the time written to a terminal date. *)
Definition event_time (e : EventData.t) (c : Clock) : Date :=
  match EventData.timestamp e with
  | Some ts => ts
  | None => now c
  end.

Definition clock_past (e : EventData.t) (c : Clock) : Clock :=
  match EventData.timestamp e with
  | Some _ => c
  | None => after c
  end.

Definition terminal_time (e : EventData.t) (c : Clock) : Date :=
  event_time e (clock_past e c).

Definition is_terminal (o : option Status) : bool :=
  match o with
  | Some Delivered | Some Returned | Some Cancelled => true
  | _ => false
  end.

(** The clock when [addTrackingEvent] reaches [save]. *)
Definition clock_at_save (e : EventData.t) (c : Clock) : Clock :=
  if is_terminal (EventData.status e) then clock_past e (clock_past e c)
  else clock_past e c.

(** The in-memory document that [addTrackingEvent] hands to [save]. *)
Definition applyEvent (e : EventData.t) (ts at_ : Date) (d : Doc) : Doc :=
  let d1 := on_data (fun s => set_tracking (tracking s ++ [event_of e ts]) s) d in
  let d2 := match EventData.status e with
            | Some st => assign_currentStatus st d1
            | None => d1
            end in
  match EventData.status e with
  | Some Delivered => on_data (set_deliveredAt (Some at_)) d2
  | Some Returned => on_data (set_returnedAt (Some at_)) d2
  | Some Cancelled =>
      on_data (set_cancelled (Some at_) (Some (EventData.description e))) d2
  | _ => d2
  end.

Definition with_clock (c : Clock) (w : World) : World :=
  {| clock := c; random := random w; fuel := fuel w; shipments := shipments w |}.

(** A stored shipment that the collection holds under its own [_id], as a
    query by [_id] returns it. *)
Definition stored (w : World) (s : t) : Prop :=
  find (same_id (_id s)) (shipments w) = Some s.


(** The progress rule as the specification words it: after every persisted
    event, progress is the table entry of the current status, unless the
    event is an [Exception], which leaves progress as it was. *)
Definition progress_always_mapped : Prop :=
  forall (w w' : World) (s : t) (e : EventData.t) (st : Status) (d' : Doc),
    stored w s ->
    EventData.status e = Some st ->
    addTrackingEvent (hydrate s) e w = (Ok d', w') ->
    (st <> Exception ->
       Some (progress (data d')) = fixed_mapping (currentStatus (data d')))
    /\ (st = Exception -> progress (data d') = progress s).

(** A shipment whose progress is where the rule wants it. *)
Definition settled (s : t) : Prop :=
  currentStatus s = Exception
  \/ Some (progress s) = fixed_mapping (currentStatus s).

Definition summary (w : World) : list (Status * Z * nat) :=
  map (fun s => (currentStatus s, progress s, List.length (tracking s)))
      (shipments w).




(** *** Visibility *)

(** Property lookup in a response. *)
Definition field (k : string) (j : Routes.json) : option Routes.json :=
  match j with
  | Routes.JObj fields =>
      option_map snd (find (fun kv => String.eqb (fst kv) k) fields)
  | _ => None
  end.

(** Two events, and two shipments, that differ at most in what an
    anonymous caller may not see: the agent and coordinates of an event;
    the sender, recipient and package blocks and every part of the service
    block other than its type and estimated delivery. *)
Definition same_public_event (a b : TrackingEvent.t) : Prop :=
  TrackingEvent.status a = TrackingEvent.status b
  /\ TrackingEvent.location a = TrackingEvent.location b
  /\ TrackingEvent.description a = TrackingEvent.description b
  /\ TrackingEvent.timestamp a = TrackingEvent.timestamp b.

Definition same_public (a b : t) : Prop :=
  trackingNumber a = trackingNumber b
  /\ isActive a = isActive b
  /\ currentStatus a = currentStatus b
  /\ progress a = progress b
  /\ Forall2 same_public_event (tracking a) (tracking b)
  /\ estimatedDelivery (service a) = estimatedDelivery (service b)
  /\ type (service a) = type (service b).

Definition public_keys : list string :=
  ["trackingNumber"; "currentStatus"; "progress"; "tracking";
   "estimatedDelivery"; "isDelayed"; "serviceType"].

Definition public_event_keys : list string :=
  ["status"; "location"; "description"; "timestamp"].

(** Association of a shipment with an account, in the words of the
    specification: the account created it, or the account's registered
    email is the sender's or the recipient's contact email. *)
Definition associated (u : User.t) (s : t) : Prop :=
  createdBy s = User._id u
  \/ email (sender s) = Some (User.email u)
  \/ email (recipient s) = Some (User.email u).

End Ledger.

End Notions.
Import Notions.

(** Sample accounts.  The password check is run with string equality in
    place of bcrypt. *)
Definition alice (attempts : option Z) (lock : option Date) (active : bool) : User.t :=
  User.mk "64b000000000000000000001" "Alice" "alice@example.com" "9876543210"
    "s3cretPass" User.user active attempts lock None.

Definition at_noon (l : list User.t) : User.World :=
  User.mkWorld (mkClock 1000 [5%N; 0%N; 2%N; 1%N]) l.

(** Sample requests. *)
Definition mumbai : Shipment.Address :=
  {| Shipment.street := "123 Warehouse Street"; Shipment.city := "Mumbai";
     Shipment.state := "Maharashtra"; Shipment.pincode := "400001";
     Shipment.country := "India" |}.

Definition pune : Shipment.Address :=
  {| Shipment.street := "456 Delivery Lane"; Shipment.city := "Pune";
     Shipment.state := "Maharashtra"; Shipment.pincode := "411001";
     Shipment.country := "India" |}.

Definition warehouse : Shipment.Party :=
  {| Shipment.name := "Mumbai Warehouse";
     Shipment.email := Some "mumbai@trackship.in";
     Shipment.phone := "9876543210"; Shipment.address := mumbai |}.

Definition alice_home : Shipment.Party :=
  {| Shipment.name := "Alice";
     Shipment.email := Some "alice@example.com";
     Shipment.phone := "9876543211"; Shipment.address := pune |}.

Definition phone_box : Shipment.Package :=
  {| Shipment.pkg_description := "Electronics - Mobile Phone";
     Shipment.weight := 1 # 2;
     Shipment.dimensions :=
       {| Shipment.length := 20; Shipment.width := 10; Shipment.height := 5 |};
     Shipment.value := 25000; Shipment.category := Shipment.Electronics;
     Shipment.isFragile := true; Shipment.requiresSignature := true |}.

Definition order (number : option string) (events : list Shipment.EventData.t)
    : Routes.Body :=
  {| Routes.b_sender := warehouse; Routes.b_recipient := alice_home;
     Routes.b_package := phone_box;
     Routes.b_service_type := Shipment.next_day;
     Routes.b_service_priority := Shipment.high;
     Routes.b_service_cost := 150;
     Routes.b_service_insurance :=
       {| Shipment.isInsured := false; Shipment.coverage := 0;
          Shipment.premium := 0 |};
     Routes.b_trackingNumber := number;
     Routes.b_currentStatus := None;
     Routes.b_progress := None;
     Routes.b_tracking := events;
     Routes.b_paymentStatus := None;
     Routes.b_paymentMethod := None;
     Routes.b_deliveryAttempts := None;
     Routes.b_specialInstructions := None;
     Routes.b_internalNotes := None;
     Routes.b_assignedAgent := None;
     Routes.b_isActive := None;
     Routes.b_deliveredAt := None;
     Routes.b_returnedAt := None;
     Routes.b_cancelledAt := None;
     Routes.b_cancellationReason := None |}.

Definition ravi : User.t :=
  User.mk "64b000000000000000000002" "Ravi" "ravi@trackship.in" "9876500000"
    "agentPass1" User.agent true None None None.

Definition parcel_id : ObjectId := "64b0000000000000000000a1".

Definition empty_ledger : Shipment.World :=
  Shipment.mkWorld (mkClock 1000 [5%N; 0%N; 2%N; 1%N])
    (mkRng (fun i => match i with O => 23456789 # 900000000 | _ => 1 # 2 end) 0)
    8 [].

(** The ledger after one ordinary creation request. *)
Definition one_parcel : Shipment.World :=
  snd (Routes.createShipment parcel_id ravi (order (Some "IND123456789") [])
         empty_ledger).

Definition report (status : Shipment.Status) (ts : option Date)
    : Shipment.EventData.t :=
  Shipment.EventData.mk (Some status) "Pune Distribution Center"
    "Status reported by the field agent" ts None None.

Definition blank : Shipment.t :=
  Shipment.mk "" None warehouse alice_home phone_box
    {| Shipment.type := Shipment.standard; Shipment.priority := Shipment.normal;
       Shipment.cost := 0; Shipment.estimatedDelivery := 0;
       Shipment.insurance :=
         {| Shipment.isInsured := false; Shipment.coverage := 0;
            Shipment.premium := 0 |} |}
    Shipment.OrderPlaced 0 [] Shipment.pending Shipment.online 0
    None None None "" true None None None None 0 0.

(** The first stored shipment. *)
Definition the_parcel (w : Shipment.World) : Shipment.t :=
  hd blank (Shipment.shipments w).

(** The outcome of a computation that returned. *)
Definition returned {A} (r : Result A * Shipment.World) (fallback : A) : A :=
  match fst r with
  | Ok a => a
  | Throw _ => fallback
  end.

(** An agent reports the parcel in transit; then it is delivered. *)
Definition transit_run : Result Shipment.Doc * Shipment.World :=
  Shipment.addTrackingEvent (Shipment.hydrate (the_parcel one_parcel))
    (report Shipment.InTransit None) one_parcel.

Definition delivered_run : Result Shipment.Doc * Shipment.World :=
  Shipment.addTrackingEvent (Shipment.hydrate (the_parcel one_parcel))
    (report Shipment.Delivered (Some 5000)) one_parcel.

Definition cancelled_run : Result Shipment.Doc * Shipment.World :=
  Shipment.addTrackingEvent (Shipment.hydrate (the_parcel one_parcel))
    (report Shipment.Cancelled None) one_parcel.

(** The same status reported again on the freshly created parcel. *)
Definition repeated_run : Result Shipment.Doc * Shipment.World :=
  Shipment.addTrackingEvent (Shipment.hydrate (the_parcel one_parcel))
    (report Shipment.OrderPlaced (Some 2000)) one_parcel.




Definition customer : User.t := alice None None true.


(** The same parcel with every hidden field changed. *)
Definition disguised : Shipment.World :=
  Shipment.set_shipments
    [Shipment.mk parcel_id (Some "IND123456789") alice_home warehouse
       {| Shipment.pkg_description := "Books"; Shipment.weight := 3;
          Shipment.dimensions :=
            {| Shipment.length := 1; Shipment.width := 2; Shipment.height := 3 |};
          Shipment.value := 10; Shipment.category := Shipment.Other;
          Shipment.isFragile := false; Shipment.requiresSignature := false |}
       {| Shipment.type := Shipment.next_day; Shipment.priority := Shipment.low;
          Shipment.cost := 1; Shipment.estimatedDelivery := 172801005;
          Shipment.insurance :=
            {| Shipment.isInsured := true; Shipment.coverage := 5;
               Shipment.premium := 1 |} |}
       Shipment.OrderPlaced 0
       [Shipment.TrackingEvent.mk (Some Shipment.OrderPlaced)
          "Mumbai, Maharashtra"
          "Shipment order has been placed and is being processed" 1005
          (Some {| Shipment.latitude := 19; Shipment.longitude := 72 |})
          (Some {| Shipment.agent_name := "Ravi";
                   Shipment.agent_id := "64b000000000000000000002";
                   Shipment.agent_contact := "ravi@trackship.in" |})]
       Shipment.paid Shipment.upi 1 (Some "Ring twice") (Some "VIP") None
       "64b000000000000000000001" true None None None None 1 2]
    one_parcel.

(** * Notions used in the statements about the rest of the code *)

Module Conditions.

Section Ledger.
Import Shipment.

(** A ledger as the handlers keep it: no two shipments share an [_id] or a
    tracking number, and every stored shipment passes the schema
    validators. *)
Definition well_formed (w : World) : Prop :=
  NoDup (map _id (shipments w))
  /\ NoDup (map trackingNumber (shipments w))
  /\ forall s, In s (shipments w) -> validate s = [].

(** Two versions of a shipment that agree on everything an event or a
    delivery attempt has no business changing. *)
Definition same_consignment (a b : t) : Prop :=
  _id a = _id b
  /\ trackingNumber a = trackingNumber b
  /\ sender a = sender b
  /\ recipient a = recipient b
  /\ package a = package b
  /\ service a = service b
  /\ paymentStatus a = paymentStatus b
  /\ paymentMethod a = paymentMethod b
  /\ specialInstructions a = specialInstructions b
  /\ internalNotes a = internalNotes b
  /\ assignedAgent a = assignedAgent b
  /\ createdBy a = createdBy b
  /\ isActive a = isActive b
  /\ createdAt a = createdAt b.

(** The ledger [l'] is [l] with at most the shipment [id] rewritten, and
    that one only outside its consignment data. *)
Definition only_touches (id : ObjectId) (l l' : list t) : Prop :=
  Forall2 (fun a b => same_consignment a b /\ (_id a <> id -> a = b)) l l'.

(** Newest first. *)
Definition newer (a b : t) : Prop := createdAt b <= createdAt a.
Definition newest_first (l : list t) : Prop := StronglySorted newer l.


(** The shipments of the first [n] pages of a listing, fetched one page
    after another. *)
Fixpoint pages_upto (reqUser : User.t) (limit : Z) (status : option Status)
    (n : nat) (w : World) : list t :=
  match n with
  | O => []
  | S k =>
      (pages_upto reqUser limit status k w
       ++ match fst (Routes.myShipments reqUser (Some (Z.of_nat n)) (Some limit)
                       status w) with
          | Ok (Some p) => Routes.page_shipments p
          | _ => []
          end)%list
  end.

(** The number of shipments of a list that are in a given status. *)
Definition tally (st : Status) (l : list t) : Z :=
  Z.of_nat (List.length (filter (fun s => Status_eqb (currentStatus s) st) l)).

(** A tracking request that the validators of the handler accept. *)
Definition acceptable_report (id : string) (status : option Status)
    (location description : string) : bool :=
  Routes.isMongoId id
  && match status with Some _ => true | None => false end
  && negb (String.eqb location "")
  && negb (String.eqb description "").


End Ledger.

Section Accounts.
Import User.

(** What a login never touches. *)
Definition same_identity (a b : t) : Prop :=
  _id a = _id b /\ fullName a = fullName b /\ email a = email b
  /\ phone a = phone b /\ password a = password b /\ role a = role b
  /\ isActive a = isActive b.

(** The accounts [l'] are [l] with at most the account [id] rewritten, and
    that one only in its login bookkeeping. *)
Definition only_bookkeeping (id : option ObjectId) (l l' : list t) : Prop :=
  Forall2 (fun a b => same_identity a b /\ (Some (_id a) <> id -> a = b)) l l'.

(** A computation that, from any state, rewrites at most the login
    bookkeeping of the account [id]. *)
Definition bookkeeping_only (id : ObjectId) {A : Type} (m : M World A) : Prop :=
  forall w, only_bookkeeping (Some id) (users w) (users (snd (m w))).

(** An account store without duplicate identifiers, emails or phones. *)
Definition distinct_accounts (l : list t) : Prop :=
  NoDup (map _id l) /\ NoDup (map email l) /\ NoDup (map phone l).

(** The filter of [findByCredentials]. *)
Definition active_with_email (email0 : string) (u : t) : bool :=
  String.eqb (email u) (toLowerCase email0) && isActive u.


(** The change a password update makes to one stored account. *)
Definition rehashed (id : ObjectId) (hash : string) (a b : t) : Prop :=
  a = b \/ (_id a = id /\ b = Auth.set_password hash a).

End Accounts.

End Conditions.
Import Conditions.

(** More sample data.  A second parcel, created by the customer. *)
Definition second_id : ObjectId := "64b0000000000000000000a2".

Definition two_parcels : Shipment.World :=
  snd (Routes.createShipment second_id customer (order (Some "IND222222222") [])
         one_parcel).

(** The ledger after the first parcel was delivered. *)
Definition delivered_ledger : Shipment.World := snd delivered_run.



(** Stand-ins for bcrypt and the token signer. *)
Definition sample_hash (salt password0 : string) : string := "hash:" ++ password0.
Definition sample_compare (candidate hash : string) : bool :=
  String.eqb (sample_hash "" candidate) hash.
Definition sample_sign (id : ObjectId) : string := "token-for-" ++ id.

Definition signup : Auth.Registration :=
  {| Auth.r_fullName := " Bob Builder "; Auth.r_email := "Bob@Example.com";
     Auth.r_phone := "9123456789"; Auth.r_password := "Secret123" |}.

Definition bob_id : ObjectId := "64b000000000000000000003".

Definition office : User.World := at_noon [alice (Some 2) None true; ravi].

Definition after_signup : Result Auth.Reply * User.World :=
  Auth.register sample_hash sample_sign Auth.matches_email toLowerCase
    "salt" bob_id signup office.

(** A browser that holds somebody's token and a language setting. *)
Definition browser : Client.State :=
  Client.construct
    (fun k => if String.eqb k "trackship_token" then Some "old-token"
              else if String.eqb k "lang" then Some "hi" else None).

Definition account_object : list (string * Routes.json) :=
  [("_id", Routes.JStr "64b000000000000000000001");
   ("fullName", Routes.JStr "Alice");
   ("password", Routes.JStr "$2a$12$abcdefghijklmnopqrstuv");
   ("role", Routes.JStr "user");
   ("resetPasswordToken", Routes.JStr "r3s3t");
   ("__v", Routes.JNum 0)].

(** * Properties *)

(** ** The clock *)

Lemma now_ge_time (c : Clock) : time c <= now c.
Proof. unfold now, read; simpl. lia. Qed.

Lemma time_after (c : Clock) : time (after c) = now c.
Proof. reflexivity. Qed.

Lemma now_after_ge (c : Clock) : now c <= now (after c).
Proof. rewrite <- (time_after c). apply now_ge_time. Qed.

(** ** Identity store *)

Section UserFacts.
Import User.

Variable bcrypt_compare : string -> string -> bool.


Lemma findById_update_first (l : list t) (id : ObjectId) (f : t -> t) (u : t) :
  (forall x, _id (f x) = _id x) ->
  findById id l = Some u ->
  findById id (update_first id f l) = Some (f u).
Proof.
  intros Hf. unfold findById. induction l as [|x l IH]; simpl; [discriminate|].
  destruct (String.eqb_spec (_id x) id) as [E|N]; simpl.
  - intros [= ->]. rewrite Hf. subst id. now rewrite String.eqb_refl.
  - destruct (String.eqb_spec (_id x) id); [contradiction|]. exact IH.
Qed.







(** C10.  An account whose [isActive] flag is false is invisible to
    [findByCredentials]: the call fails with the same generic error as for an
    address nobody registered, whatever the password, and writes nothing. *)
Theorem inactive_account_rejected :
  forall (w : World) (email0 password0 : string),
    (forall u,
        In u (users w) ->
        isActive u = false ->
        email u = toLowerCase email0 ->
        (forall v, In v (users w) -> email v = email u -> v = u) ->
        findByCredentials bcrypt_compare email0 password0 w
        = (Throw invalid_credentials, w))
    /\ ((forall v, In v (users w) -> email v <> toLowerCase email0) ->
        findByCredentials bcrypt_compare email0 password0 w
        = (Throw invalid_credentials, w)).
Proof.
  intros w email0 password0.
  assert (Hnone : forall p : t -> bool,
             find p (users w) = None ->
             (found <- findOne p ;;
              match found with
              | None => throw invalid_credentials
              | Some u => ret u
              end) w = (Throw invalid_credentials, w)).
  { intros p Hp. unfold findOne, bind, gets, throw. now rewrite Hp. }
  split.
  - intros u Hin Hoff Hmail Huniq.
    unfold findByCredentials, findOne, bind, gets, throw.
    destruct (find _ (users w)) as [v|] eqn:Hfind; [|reflexivity].
    exfalso. apply find_some in Hfind as [Hv Hp].
    apply andb_prop in Hp as [He Ha]. apply String.eqb_eq in He.
    assert (v = u) by (apply Huniq; [exact Hv|congruence]).
    subst v. congruence.
  - intros Hnobody.
    unfold findByCredentials, findOne, bind, gets, throw.
    destruct (find _ (users w)) as [v|] eqn:Hfind; [|reflexivity].
    exfalso. apply find_some in Hfind as [Hv Hp].
    apply andb_prop in Hp as [He _]. apply String.eqb_eq in He.
    now apply (Hnobody v).
Qed.

End UserFacts.


Lemma inactive_account_rejected_witness :
  User.findByCredentials String.eqb "Alice@Example.com" "s3cretPass"
    (at_noon [alice None None false])
  = (Throw User.invalid_credentials, at_noon [alice None None false]).
Proof.
  apply (proj1 (inactive_account_rejected String.eqb
                  (at_noon [alice None None false])
                  "Alice@Example.com" "s3cretPass")
               (alice None None false)).
  - simpl. now left.
  - reflexivity.
  - reflexivity.
  - intros v [<-|[]] _. reflexivity.
Defined.

(** ** Tracking numbers *)

Section GeneratorFacts.
Import Shipment.




















Lemma validate_ok_trackingNumber (s : t) :
  validate s = [] ->
  exists tn, trackingNumber s = Some tn /\ matches_IND tn = true
             /\ falsy (trackingNumber s) = false.
Proof.
  unfold validate. intros H. apply app_eq_nil in H as [H _].
  destruct (trackingNumber s) as [tn|]; [|discriminate].
  simpl. destruct (String.eqb tn ""); [discriminate|].
  destruct (matches_IND tn) eqn:E; [|discriminate].
  exists tn. repeat split. exact E.
Qed.

Lemma stamp_keeps (ts : Date) (d : Doc) :
  isNew (stamp ts d) = isNew d
  /\ dirty (stamp ts d) = dirty d
  /\ statusModified (stamp ts d) = statusModified d
  /\ trackingNumber (data (stamp ts d)) = trackingNumber (data d)
  /\ currentStatus (data (stamp ts d)) = currentStatus (data d)
  /\ progress (data (stamp ts d)) = progress (data d)
  /\ tracking (data (stamp ts d)) = tracking (data d)
  /\ deliveryAttempts (data (stamp ts d)) = deliveryAttempts (data d)
  /\ _id (data (stamp ts d)) = _id (data d).
Proof.
  unfold stamp.
  destruct (isNew d) eqn:E1, (dirty d) eqn:E2; repeat split; simpl; congruence.
Qed.

Lemma preSaveProgress_keeps (d : Doc) :
  isNew (preSaveProgress d) = isNew d
  /\ dirty (preSaveProgress d) = dirty d
  /\ trackingNumber (data (preSaveProgress d)) = trackingNumber (data d)
  /\ currentStatus (data (preSaveProgress d)) = currentStatus (data d)
  /\ tracking (data (preSaveProgress d)) = tracking (data d)
  /\ deliveryAttempts (data (preSaveProgress d)) = deliveryAttempts (data d)
  /\ _id (data (preSaveProgress d)) = _id (data d)
  /\ deliveredAt (data (preSaveProgress d)) = deliveredAt (data d)
  /\ returnedAt (data (preSaveProgress d)) = returnedAt (data d)
  /\ cancelledAt (data (preSaveProgress d)) = cancelledAt (data d)
  /\ cancellationReason (data (preSaveProgress d)) = cancellationReason (data d).
Proof.
  unfold preSaveProgress.
  destruct (statusModified d); [|repeat split].
  destruct (statusProgress _ _); repeat split.
Qed.

(** Every way [save] can end.  A call that throws leaves the collection as
    it was. *)
Lemma save_cases (d : Doc) (w w' : World) (r : Result Doc) :
  save d w = (r, w') ->
  match r with
  | Ok d' =>
      validate (data d) = []
      /\ clock w' = after (clock w)
      /\ ((isNew d = true
           /\ d' = hydrate (saved (now (clock w)) d)
           /\ shipments w' = (shipments w ++ [saved (now (clock w)) d])%list
           /\ existsb (same_id (_id (data d))) (shipments w) = false
           /\ existsb (same_trackingNumber (trackingNumber (data d))) (shipments w) = false)
          \/ (isNew d = false /\ dirty d = true
              /\ d' = hydrate (saved (now (clock w)) d)
              /\ shipments w' = replace_first (saved (now (clock w)) d) (shipments w)
              /\ existsb (same_id (_id (data d))) (shipments w) = true)
          \/ (isNew d = false /\ dirty d = false /\ d' = preSaveProgress d
              /\ shipments w' = shipments w))
  | Throw _ => shipments w' = shipments w
  end.
Proof.
  unfold save. destruct (validate (data d)) eqn:Hv.
  2:{ unfold throw. intros [= <- <-]. reflexivity. }
  destruct (validate_ok_trackingNumber _ Hv) as (tn & Htn & Hm & Hf).
  unfold timestampsPreSave, preSaveTrackingNumber, bind, ret, Date_now.
  cbn [getClock setClock World_clock clock].
  destruct (stamp_keeps (now (clock w)) d) as (S1 & S2 & _ & S4 & _ & _ & _ & _ & S9).
  destruct (preSaveProgress_keeps (stamp (now (clock w)) d))
    as (P1 & P2 & P3 & _ & _ & _ & P7 & _).
  assert (Hid : _id (saved (now (clock w)) d) = _id (data d))
    by (unfold saved; congruence).
  assert (Hnum : trackingNumber (saved (now (clock w)) d) = trackingNumber (data d))
    by (unfold saved; congruence).
  rewrite S4, Hf, andb_false_r.
  unfold persist, bind, gets, modify, ret, throw. cbn [shipments].
  rewrite P1, S1, P2, S2.
  fold (saved (now (clock w)) d). rewrite Hid, Hnum.
  destruct (isNew d) eqn:Hnew.
  - destruct (existsb (same_id _) _) eqn:E1; [intros [= <- <-]; reflexivity|].
    destruct (existsb (same_trackingNumber _) _) eqn:E2;
      [intros [= <- <-]; reflexivity|].
    intros [= <- <-]. repeat split. left. repeat split.
  - destruct (dirty d) eqn:Hd.
    + destruct (existsb (same_id _) _) eqn:E1; [|intros [= <- <-]; reflexivity].
      intros [= <- <-]. repeat split. right; left. repeat split.
    + intros [= <- <-]. repeat split. right; right. repeat split.
      unfold stamp. now rewrite Hnew, Hd.
Qed.

Lemma save_inv (d d' : Doc) (w w' : World) :
  save d w = (Ok d', w') ->
  validate (data d) = []
  /\ clock w' = after (clock w)
  /\ ((isNew d = true
       /\ d' = hydrate (saved (now (clock w)) d)
       /\ shipments w' = (shipments w ++ [saved (now (clock w)) d])%list
       /\ existsb (same_id (_id (data d))) (shipments w) = false
       /\ existsb (same_trackingNumber (trackingNumber (data d))) (shipments w) = false)
      \/ (isNew d = false /\ dirty d = true
          /\ d' = hydrate (saved (now (clock w)) d)
          /\ shipments w' = replace_first (saved (now (clock w)) d) (shipments w)
          /\ existsb (same_id (_id (data d))) (shipments w) = true)
      \/ (isNew d = false /\ dirty d = false /\ d' = preSaveProgress d
          /\ shipments w' = shipments w)).
Proof. intros H. exact (save_cases d w w' (Ok d') H). Qed.

(** [save] returns whenever the document is valid and the write can go
    through. *)
Lemma save_loaded (d : Doc) (w : World) :
  isNew d = false ->
  validate (data d) = [] ->
  (dirty d = true -> existsb (same_id (_id (data d))) (shipments w) = true) ->
  exists d' w', save d w = (Ok d', w').
Proof.
  intros Hnew Hv Hex.
  destruct (save d w) as [[d'|e] w'] eqn:Hs; [now exists d', w'|].
  exfalso. revert Hs. unfold save. rewrite Hv.
  destruct (validate_ok_trackingNumber _ Hv) as (tn & Htn & Hm & Hf).
  unfold timestampsPreSave, preSaveTrackingNumber, bind, ret, Date_now.
  cbn [getClock setClock World_clock clock].
  destruct (stamp_keeps (now (clock w)) d) as (S1 & S2 & _ & S4 & _ & _ & _ & _ & S9).
  destruct (preSaveProgress_keeps (stamp (now (clock w)) d))
    as (P1 & P2 & P3 & _ & _ & _ & P7 & _).
  rewrite S4, Hf, andb_false_r.
  unfold persist, bind, gets, modify, ret, throw. cbn [shipments].
  rewrite P1, S1, P2, S2, Hnew, P7, S9.
  destruct (dirty d); [|discriminate].
  rewrite (Hex eq_refl). discriminate.
Qed.


End GeneratorFacts.

(** ** The ledger *)

Section LedgerFacts.
Import Shipment.

Lemma with_clock_same (w : World) : with_clock (clock w) w = w.
Proof. now destruct w. Qed.

Lemma addTrackingEvent_eq (d : Doc) (e : EventData.t) (w : World) :
  addTrackingEvent d e w =
  save (applyEvent e (event_time e (clock w)) (terminal_time e (clock w)) d)
       (with_clock (clock_at_save e (clock w)) w).
Proof.
  unfold addTrackingEvent, applyEvent, terminal_time, clock_at_save,
    event_time, clock_past, timestamp_or_now, is_terminal.
  destruct (EventData.timestamp e) as [ts|];
    destruct (EventData.status e) as [[]|];
    unfold bind, ret, Date_now; cbn [getClock setClock World_clock clock];
    rewrite ?with_clock_same; reflexivity.
Qed.

Lemma Status_eqb_eq (a b : Status) : Status_eqb a b = true <-> a = b.
Proof. destruct a, b; split; intros H; try reflexivity; discriminate H. Qed.

Lemma Status_eqb_neq (a b : Status) : Status_eqb a b = false <-> a <> b.
Proof.
  split.
  - intros H E. apply Status_eqb_eq in E. congruence.
  - intros H. destruct (Status_eqb a b) eqn:E; [|reflexivity].
    apply Status_eqb_eq in E. contradiction.
Qed.

(** The fields of the document that [addTrackingEvent] saves. *)
Lemma applyEvent_fields (e : EventData.t) (ts at_ : Date) (d : Doc) :
  let D := applyEvent e ts at_ d in
  tracking (data D) = (tracking (data d) ++ [event_of e ts])%list
  /\ currentStatus (data D)
     = match EventData.status e with
       | Some st => st
       | None => currentStatus (data d)
       end
  /\ statusModified D
     = match EventData.status e with
       | Some st => isNew d || statusModified d
                    || negb (Status_eqb st (currentStatus (data d)))
       | None => statusModified d
       end
  /\ isNew D = isNew d
  /\ dirty D = true
  /\ progress (data D) = progress (data d)
  /\ deliveryAttempts (data D) = deliveryAttempts (data d)
  /\ trackingNumber (data D) = trackingNumber (data d)
  /\ _id (data D) = _id (data d).
Proof.
  unfold applyEvent.
  destruct (EventData.status e) as [[]|]; cbn; repeat split.
Qed.

Lemma applyEvent_dates (e : EventData.t) (ts at_ : Date) (d : Doc) :
  let D := applyEvent e ts at_ d in
  (EventData.status e = Some Delivered -> deliveredAt (data D) = Some at_)
  /\ (EventData.status e = Some Returned -> returnedAt (data D) = Some at_)
  /\ (EventData.status e = Some Cancelled ->
        cancelledAt (data D) = Some at_
        /\ cancellationReason (data D) = Some (EventData.description e)).
Proof.
  unfold applyEvent.
  destruct (EventData.status e) as [[]|]; cbn; repeat split; discriminate.
Qed.

Lemma saved_fields (ts : Date) (d : Doc) :
  tracking (saved ts d) = tracking (data d)
  /\ currentStatus (saved ts d) = currentStatus (data d)
  /\ deliveryAttempts (saved ts d) = deliveryAttempts (data d)
  /\ trackingNumber (saved ts d) = trackingNumber (data d)
  /\ _id (saved ts d) = _id (data d)
  /\ deliveredAt (saved ts d) = deliveredAt (data d)
  /\ returnedAt (saved ts d) = returnedAt (data d)
  /\ cancelledAt (saved ts d) = cancelledAt (data d)
  /\ cancellationReason (saved ts d) = cancellationReason (data d)
  /\ progress (saved ts d)
     = if statusModified d then
         match statusProgress (progress (data d)) (currentStatus (data d)) with
         | Some p => p
         | None => progress (data d)
         end
       else progress (data d).
Proof.
  unfold saved, preSaveProgress, stamp.
  destruct (isNew d), (dirty d), (statusModified d); cbn;
    try (destruct (statusProgress _ _)); repeat split.
Qed.

(** An [addTrackingEvent] that returns has written the returned document. *)
Lemma addTrackingEvent_inv (d d' : Doc) (e : EventData.t) (w w' : World) :
  addTrackingEvent d e w = (Ok d', w') ->
  let D := applyEvent e (event_time e (clock w)) (terminal_time e (clock w)) d in
  let ts := now (clock_at_save e (clock w)) in
  d' = hydrate (saved ts D)
  /\ validate (data D) = []
  /\ clock w' = after (clock_at_save e (clock w))
  /\ ((isNew d = true /\ shipments w' = (shipments w ++ [saved ts D])%list)
      \/ (isNew d = false
          /\ shipments w' = replace_first (saved ts D) (shipments w)
          /\ existsb (same_id (_id (data d))) (shipments w) = true)).
Proof.
  rewrite addTrackingEvent_eq. intros H. cbn zeta.
  destruct (applyEvent_fields e (event_time e (clock w))
              (terminal_time e (clock w)) d)
    as (_ & _ & _ & Hnew & Hdirty & _ & _ & _ & Hid).
  apply save_inv in H as (Hv & Hc & [H|[H|H]]); cbn [clock with_clock shipments] in *.
  - destruct H as (Hn & -> & Hs & _). repeat split; try assumption.
    left. split; [congruence|exact Hs].
  - destruct H as (Hn & _ & -> & Hs & Hex). repeat split; try assumption.
    right. rewrite <- Hid. repeat split; [congruence|exact Hs|exact Hex].
  - destruct H as (_ & Hd & _). congruence.
Qed.

Lemma fixed_mapping_statusProgress (p : Z) (st : Status) :
  st <> Exception -> statusProgress p st = fixed_mapping st.
Proof. destruct st; intros H; try reflexivity. contradiction. Qed.

(** C1 (amended).  A persisted [addTrackingEvent] on a stored shipment sets
    the status to the event's status.  When that status differs from the
    one the shipment had and is not [Exception], progress becomes its entry
    in the fixed table; when it is [Exception], or repeats the status the
    shipment already had, progress keeps its value.  So a shipment that is
    settled stays settled, and for it every event other than an [Exception]
    leaves progress at the table entry of the new status. *)
Theorem progress_follows_status_change :
  forall (w w' : World) (s : t) (e : EventData.t) (st : Status) (d' : Doc),
    EventData.status e = Some st ->
    addTrackingEvent (hydrate s) e w = (Ok d', w') ->
    currentStatus (data d') = st
    /\ (st <> currentStatus s -> st <> Exception ->
          Some (progress (data d')) = fixed_mapping st)
    /\ (st = currentStatus s \/ st = Exception ->
          progress (data d') = progress s)
    /\ (settled s ->
          settled (data d')
          /\ (st <> Exception ->
                Some (progress (data d'))
                = fixed_mapping (currentStatus (data d')))).
Proof.
  intros w w' s e st d' Hst Hrun.
  apply addTrackingEvent_inv in Hrun as (-> & _).
  set (D := applyEvent _ _ _ _).
  destruct (applyEvent_fields e (event_time e (clock w))
              (terminal_time e (clock w)) (hydrate s))
    as (_ & Hcur & Hmod & _ & _ & Hprog & _).
  fold D in Hcur, Hmod, Hprog. rewrite Hst in Hcur, Hmod.
  cbn [hydrate isNew statusModified data orb] in Hmod, Hprog.
  destruct (saved_fields (now (clock_at_save e (clock w))) D)
    as (_ & Scur & _ & _ & _ & _ & _ & _ & _ & Sprog).
  cbn [hydrate data]. rewrite Hmod, Hcur, Hprog in Sprog. rewrite Hcur in Scur.
  assert (Hchanged : st <> currentStatus s -> st <> Exception ->
                     Some (progress (saved (now (clock_at_save e (clock w))) D))
                     = fixed_mapping st).
  { intros Hne Hex. apply Status_eqb_neq in Hne. rewrite Hne in Sprog.
    cbn [negb] in Sprog. rewrite Sprog.
    destruct st; try reflexivity. now elim Hex. }
  assert (Hkept : st = currentStatus s \/ st = Exception ->
                  progress (saved (now (clock_at_save e (clock w))) D)
                  = progress s).
  { intros [Heq|Hex].
    - apply Status_eqb_eq in Heq. rewrite Heq in Sprog. exact Sprog.
    - rewrite Sprog, Hex. cbn [statusProgress].
      now destruct (negb (Status_eqb Exception (currentStatus s))). }
  split; [exact Scur|]. split; [exact Hchanged|]. split; [exact Hkept|].
  intros Hsettled.
  assert (Hmapped : st <> Exception ->
                    Some (progress (saved (now (clock_at_save e (clock w))) D))
                    = fixed_mapping st).
  { intros Hex.
    destruct (Status_eqb st (currentStatus s)) eqn:E.
    - apply Status_eqb_eq in E. rewrite Hkept by now left.
      destruct Hsettled as [Hs|Hs]; congruence.
    - apply Status_eqb_neq in E. now apply Hchanged. }
  unfold settled. rewrite Scur. split.
  - destruct st; try (right; apply Hmapped; discriminate). now left.
  - exact Hmapped.
Qed.

(** C2.  A persisted [addTrackingEvent] whose status is [Delivered],
    [Returned] or [Cancelled] stores the matching terminal date: the
    timestamp the event carries, or else a reading of the clock taken during
    the call; for [Cancelled] the event's description becomes the
    cancellation reason.  The returned document is the one in the
    collection. *)
Theorem terminal_dates_stamped :
  forall (w w' : World) (d d' : Doc) (e : EventData.t),
    addTrackingEvent d e w = (Ok d', w') ->
    let at_ := terminal_time e (clock w) in
    (EventData.status e = Some Delivered -> deliveredAt (data d') = Some at_)
    /\ (EventData.status e = Some Returned -> returnedAt (data d') = Some at_)
    /\ (EventData.status e = Some Cancelled ->
          cancelledAt (data d') = Some at_
          /\ cancellationReason (data d') = Some (EventData.description e))
    /\ (forall ts, EventData.timestamp e = Some ts -> at_ = ts)
    /\ (EventData.timestamp e = None ->
          is_terminal (EventData.status e) = true ->
          time (clock w) <= at_ <= time (clock w'))
    /\ In (data d') (shipments w').
Proof.
  intros w w' d d' e Hrun at_. subst at_.
  apply addTrackingEvent_inv in Hrun as (-> & _ & Hclock & Hstore).
  set (D := applyEvent _ _ _ _) in *.
  destruct (applyEvent_dates e (event_time e (clock w))
              (terminal_time e (clock w)) d) as (Hd & Hr & Hc).
  fold D in Hd, Hr, Hc.
  destruct (saved_fields (now (clock_at_save e (clock w))) D)
    as (_ & _ & _ & _ & Sid & Sd & Sr & Sc & Sn & _).
  cbn [hydrate data]. rewrite Sd, Sr, Sc, Sn.
  split; [exact Hd|]. split; [exact Hr|]. split; [exact Hc|]. split; [|split].
  - intros ts Hts. unfold terminal_time, event_time. now rewrite Hts.
  - intros Hnone Hterm. rewrite Hclock.
    unfold terminal_time, event_time, clock_at_save, clock_past.
    rewrite Hnone, Hterm.
    pose proof (now_ge_time (clock w)).
    pose proof (now_after_ge (clock w)).
    pose proof (now_after_ge (after (clock w))).
    rewrite !time_after. lia.
  - destruct Hstore as [(_ & ->)|(_ & -> & Hex)].
    + apply in_or_app. right. now left.
    + destruct (applyEvent_fields e (event_time e (clock w))
                  (terminal_time e (clock w)) d)
        as (_ & _ & _ & _ & _ & _ & _ & _ & Hid).
      fold D in Hid. rewrite <- Hid, <- Sid in Hex. clear -Hex.
      induction (shipments w) as [|x l IH]; [discriminate|].
      cbn [replace_first existsb] in *.
      destruct (same_id _ x); [now left|]. right. now apply IH.
Qed.

Lemma validate_parts (s : t) :
  validate s = [] <->
  (exists tn, trackingNumber s = Some tn /\ String.eqb tn "" = false
              /\ matches_IND tn = true)
  /\ 0 <= progress s <= 100
  /\ deliveryAttempts s <= 3
  /\ flat_map validate_event (tracking s) = [].
Proof.
  unfold validate. split.
  - intros H.
    apply app_eq_nil in H as [H1 H]. apply app_eq_nil in H as [H2 H].
    apply app_eq_nil in H as [H3 H4].
    split; [|split; [|split]].
    + destruct (trackingNumber s) as [tn|]; [|discriminate].
      exists tn. destruct (String.eqb tn ""); [discriminate|].
      destruct (matches_IND tn); [now repeat split|discriminate].
    + destruct (Z.ltb_spec (progress s) 0); [discriminate|].
      destruct (Z.ltb_spec 100 (progress s)); [discriminate|]. lia.
    + destruct (Z.ltb_spec 3 (deliveryAttempts s)); [discriminate|]. lia.
    + exact H4.
  - intros ((tn & -> & -> & ->) & Hp & Hd & ->).
    destruct (Z.ltb_spec (progress s) 0); [lia|].
    destruct (Z.ltb_spec 100 (progress s)); [lia|].
    destruct (Z.ltb_spec 3 (deliveryAttempts s)); [lia|]. reflexivity.
Qed.

Lemma find_replace_first (s' : t) (l : list t) :
  existsb (same_id (_id s')) l = true ->
  find (same_id (_id s')) (replace_first s' l) = Some s'.
Proof.
  induction l as [|x l IH]; [discriminate|].
  cbn [existsb replace_first find].
  destruct (same_id (_id s') x) eqn:E; cbn [find orb].
  - intros _. unfold same_id. now rewrite String.eqb_refl.
  - rewrite E. exact IH.
Qed.

Lemma stored_exists (w : World) (s : t) :
  stored w s -> existsb (same_id (_id s)) (shipments w) = true.
Proof.
  unfold stored. intros H. apply existsb_exists. exists s.
  apply find_some in H. exact H.
Qed.

Lemma in_replace_first (s' x : t) (l : list t) :
  In x (replace_first s' l) -> x = s' \/ In x l.
Proof.
  induction l as [|y l IH]; [intros []|].
  cbn [replace_first]. destruct (same_id (_id s') y).
  - intros [<-|H]; [now left|right; now right].
  - intros [<-|H]; [right; now left|].
    destruct (IH H) as [->|H']; [now left|right; now right].
Qed.




(** The document [incrementDeliveryAttempts] works on. *)
Lemma counted_fields (s : t) :
  let d1 := on_data (fun x => set_deliveryAttempts (deliveryAttempts x + 1) x)
                    (hydrate s) in
  isNew d1 = false /\ dirty d1 = true /\ statusModified d1 = false
  /\ deliveryAttempts (data d1) = deliveryAttempts s + 1
  /\ tracking (data d1) = tracking s
  /\ progress (data d1) = progress s
  /\ currentStatus (data d1) = currentStatus s
  /\ trackingNumber (data d1) = trackingNumber s
  /\ _id (data d1) = _id s.
Proof. repeat split. Qed.










(** One persisted event on a stored shipment. *)
Lemma addTrackingEvent_stored (w w' : World) (s : t) (e : EventData.t) (d' : Doc) :
  stored w s ->
  addTrackingEvent (hydrate s) e w = (Ok d', w') ->
  stored w' (data d')
  /\ _id (data d') = _id s
  /\ tracking (data d')
     = (tracking s ++ [event_of e (event_time e (clock w))])%list.
Proof.
  intros Hst Hrun.
  apply addTrackingEvent_inv in Hrun as (-> & _ & _ & Hw).
  set (D := applyEvent _ _ _ _) in *.
  destruct (applyEvent_fields e (event_time e (clock w))
              (terminal_time e (clock w)) (hydrate s))
    as (A1 & _ & _ & _ & _ & _ & _ & _ & A9).
  fold D in A1, A9.
  destruct (saved_fields (now (clock_at_save e (clock w))) D)
    as (St & _ & _ & _ & Sid & _).
  cbn [hydrate data] in *.
  destruct Hw as [[Hn _]|(_ & Hw & Hex)]; [discriminate Hn|].
  split; [|split; congruence].
  unfold stored. rewrite Hw. apply find_replace_first. congruence.
Qed.



End LedgerFacts.


(** ** Queries and visibility *)

Section QueryFacts.
Import Shipment.



Lemma has_trackingNumber_eq (tn : string) (s : t) :
  has_trackingNumber tn s = true <-> trackingNumber s = Some tn.
Proof.
  unfold has_trackingNumber. destruct (trackingNumber s) as [tn'|].
  - rewrite String.eqb_eq. split; congruence.
  - split; discriminate.
Qed.


Lemma in_insert_desc (s x : t) (l : list t) :
  In x (insert_desc s l) <-> x = s \/ In x l.
Proof.
  induction l as [|y l IH]; cbn [insert_desc In].
  - split; intros [H|[]]; left; congruence.
  - destruct (createdAt y <=? createdAt s); cbn [In]; [|rewrite IH];
      split; intros H; intuition (subst; auto).
Qed.

Lemma in_sort_newest_first (x : t) (l : list t) :
  In x (sort_newest_first l) <-> In x l.
Proof.
  unfold sort_newest_first. induction l as [|y l IH]; cbn [fold_right In].
  - tauto.
  - rewrite in_insert_desc, IH. split; intros H; intuition (subst; auto).
Qed.

(** What [findByUser] selects: the active shipments whose creator, or one of
    whose contact emails, is the identifier it was given. *)
Lemma findByUser_members (userId : ObjectId) (w : World) :
  exists l,
    findByUser userId w = (Ok l, w)
    /\ forall s,
         In s l <->
         In s (shipments w) /\ isActive s = true
         /\ (createdBy s = userId
             \/ email (sender s) = Some userId
             \/ email (recipient s) = Some userId).
Proof.
  unfold findByUser, gets. eexists. split; [reflexivity|].
  intros s. rewrite in_sort_newest_first, filter_In.
  assert (Hmail : forall p, email_is userId p = true <-> email p = Some userId).
  { intros p. unfold email_is. destruct (email p) as [e|].
    - rewrite String.eqb_eq.
      split; [intros ->; reflexivity|intros [= ->]; reflexivity].
    - split; discriminate. }
  rewrite andb_true_iff, !orb_true_iff, String.eqb_eq, !Hmail. tauto.
Qed.

Lemma redact_same (a b : TrackingEvent.t) :
  same_public_event a b -> Routes.redact a = Routes.redact b.
Proof.
  intros (H1 & H2 & H3 & H4). unfold Routes.redact. now rewrite H1, H2, H3, H4.
Qed.

Lemma map_redact_same (l1 l2 : list TrackingEvent.t) :
  Forall2 same_public_event l1 l2 -> map Routes.redact l1 = map Routes.redact l2.
Proof.
  induction 1 as [|a b l1 l2 Hab _ IH]; cbn [map]; [reflexivity|].
  now rewrite (redact_same a b Hab), IH.
Qed.

Lemma redact_shape (e : TrackingEvent.t) :
  incl (Routes.keys (Routes.redact e)) public_event_keys
  /\ field "agent" (Routes.redact e) = None
  /\ field "coordinates" (Routes.redact e) = None.
Proof.
  unfold Routes.redact, public_event_keys.
  destruct (TrackingEvent.status e); cbn; repeat split;
    intros k Hk; cbn in *; tauto.
Qed.

(** What the anonymous branch computes for a shipment. *)
Lemma publicDetails_run (s : t) (w : World) :
  exists delayed w',
    Routes.publicDetails s w
    = (Ok (Routes.obj
             [("trackingNumber", option_map Routes.JStr (trackingNumber s));
              ("currentStatus", Routes.jstr (status_name (currentStatus s)));
              ("progress", Routes.jint (progress s));
              ("tracking", Some (Routes.JArr (map Routes.redact (tracking s))));
              ("estimatedDelivery", Routes.jdate (estimatedDelivery (service s)));
              ("isDelayed", Routes.jbool delayed);
              ("serviceType", Routes.jstr (service_name (type (service s))))]),
       w')
    /\ (delayed, clock w')
       = match currentStatus s with
         | Delivered => (false, clock w)
         | _ => (estimatedDelivery (service s) <? now (clock w), after (clock w))
         end
    /\ shipments w' = shipments w.
Proof.
  unfold Routes.publicDetails, isDelayed.
  destruct (currentStatus s); unfold bind, ret, Date_now;
    cbn [getClock setClock World_clock];
    eexists; eexists; (split; [reflexivity|]); split; reflexivity.
Qed.

Lemma find_same_public (p1 p2 : t -> bool) (l1 l2 : list t) :
  (forall a b, same_public a b -> p1 a = p2 b) ->
  Forall2 same_public l1 l2 ->
  match find p1 l1, find p2 l2 with
  | Some a, Some b => same_public a b
  | None, None => True
  | _, _ => False
  end.
Proof.
  intros Hp. induction 1 as [|a b l1 l2 Hab _ IH]; cbn [find]; [exact I|].
  rewrite (Hp a b Hab). destruct (p2 b); [exact Hab|exact IH].
Qed.

(** C6.  The object sent to an anonymous caller has no property besides the
    tracking number, status, progress, event list, estimated delivery,
    delay flag and service type; it has no sender, recipient, package or
    service property; each element of its event list has only status,
    location, description and timestamp, so neither agent nor coordinates.
    The handler answers 200 with exactly that object, and two ledgers whose
    shipments differ only in the hidden fields get the same answer. *)
Theorem anonymous_view_redacted :
  (forall (s : t) (w : World),
      exists j w',
        Routes.publicDetails s w = (Ok j, w')
        /\ incl (Routes.keys j) public_keys
        /\ field "sender" j = None
        /\ field "recipient" j = None
        /\ field "package" j = None
        /\ field "service" j = None
        /\ exists evs,
             field "tracking" j = Some (Routes.JArr evs)
             /\ List.length evs = List.length (tracking s)
             /\ forall ev, In ev evs ->
                  incl (Routes.keys ev) public_event_keys
                  /\ field "agent" ev = None
                  /\ field "coordinates" ev = None)
  /\ (forall (tz : Z) (users : list User.t) (code0 : string)
             (w w' : World) (resp : Routes.Response),
        Routes.trackShipment tz users None code0 w = (Ok resp, w') ->
        Routes.code resp = 200 ->
        exists s,
          In s (shipments w) /\ isActive s = true
          /\ Routes.publicDetails s w = (Ok (Routes.body resp), w'))
  /\ (forall (tz : Z) (users1 users2 : list User.t) (code0 : string)
             (w1 w2 : World),
        clock w1 = clock w2 ->
        Forall2 same_public (shipments w1) (shipments w2) ->
        fst (Routes.trackShipment tz users1 None code0 w1)
        = fst (Routes.trackShipment tz users2 None code0 w2)).
Proof.
  split; [|split].
  - intros s w.
    destruct (publicDetails_run s w) as (delayed & w' & Hrun & _).
    eexists. exists w'. split; [exact Hrun|].
    unfold public_keys.
    destruct (trackingNumber s); cbn;
      (split; [intros k Hk; cbn in *; tauto|]);
      repeat (split; [reflexivity|]);
      (eexists; split; [reflexivity|]);
      (split; [apply length_map|]);
      intros ev Hev; apply in_map_iff in Hev as (e & <- & _);
      apply redact_shape.
  - intros tz users code0 w w' resp.
    unfold Routes.trackShipment, catch.
    destruct (matches_IND code0); cbn [negb].
    2:{ unfold Routes.respond, ret. intros [= <- <-] Hc. discriminate Hc. }
    unfold bind at 1. unfold findByTrackingNumber, gets.
    destruct (find _ (shipments w)) as [s|] eqn:Hf; cbn [option_map].
    2:{ unfold Routes.respond, ret. intros [= <- <-] Hc. discriminate Hc. }
    cbn [doc hydrate data]. unfold bind at 1.
    destruct (publicDetails_run s w) as (delayed & w1 & Hrun & _).
    rewrite Hrun. unfold Routes.respond, ret.
    intros [= <- <-] _. cbn [Routes.body].
    apply find_some in Hf as [Hin Hs]. apply andb_prop in Hs as [_ Ha].
    exists s. now repeat split.
  - intros tz users1 users2 code0 w1 w2 Hclock Hall.
    unfold Routes.trackShipment, catch.
    destruct (matches_IND code0); cbn [negb]; [|reflexivity].
    unfold bind at 1 3. unfold findByTrackingNumber, gets.
    pose proof (find_same_public
                  (fun s => has_trackingNumber (toUpperCase code0) s && isActive s)
                  (fun s => has_trackingNumber (toUpperCase code0) s && isActive s)
                  (shipments w1) (shipments w2)) as Hfind.
    cbv beta in Hfind.
    destruct (find _ (shipments w1)) as [a|];
      destruct (find _ (shipments w2)) as [b|]; cbn [option_map];
      try (exfalso; apply Hfind; [|exact Hall];
           intros x y (Hn & Ha & _); unfold has_trackingNumber;
           now rewrite Hn, Ha).
    + assert (Hab : same_public a b).
      { apply Hfind; [|exact Hall].
        intros x y (Hn & Ha & _). unfold has_trackingNumber.
        now rewrite Hn, Ha. }
      cbn [doc hydrate data]. unfold bind at 1 2.
      destruct (publicDetails_run a w1) as (d1 & w1' & -> & Hd1 & _).
      destruct (publicDetails_run b w2) as (d2 & w2' & -> & Hd2 & _).
      destruct Hab as (Hn & _ & Hc & Hp & He & Hd & Ht).
      rewrite Hc, Hd, Hclock in Hd1. rewrite <- Hd1 in Hd2.
      injection Hd2 as -> _.
      unfold Routes.respond, ret. cbn [fst].
      now rewrite Hn, Hc, Hp, Hd, Ht, (map_redact_same _ _ He).
    + reflexivity.
Qed.

End QueryFacts.

(** ** Runs on the sample ledger *)

Section Samples.
Import Shipment.

Lemma one_parcel_stored : stored one_parcel (the_parcel one_parcel).
Proof. vm_compute. reflexivity. Qed.

Lemma progress_follows_status_change_witness :
  Some (progress (data (returned transit_run (hydrate blank))))
  = fixed_mapping InTransit
  /\ progress (data (returned repeated_run (hydrate blank)))
     = progress (the_parcel one_parcel).
Proof.
  split.
  - assert (Hrun : addTrackingEvent (hydrate (the_parcel one_parcel))
                     (report InTransit None) one_parcel
                   = (Ok (returned transit_run (hydrate blank)), snd transit_run))
      by (vm_compute; reflexivity).
    destruct (progress_follows_status_change one_parcel (snd transit_run)
                (the_parcel one_parcel) (report InTransit None) InTransit
                (returned transit_run (hydrate blank)) eq_refl Hrun)
      as (_ & Hchanged & _).
    apply Hchanged; intros E; vm_compute in E; discriminate E.
  - assert (Hrun : addTrackingEvent (hydrate (the_parcel one_parcel))
                     (report OrderPlaced (Some 2000)) one_parcel
                   = (Ok (returned repeated_run (hydrate blank)), snd repeated_run))
      by (vm_compute; reflexivity).
    destruct (progress_follows_status_change one_parcel (snd repeated_run)
                (the_parcel one_parcel) (report OrderPlaced (Some 2000))
                OrderPlaced (returned repeated_run (hydrate blank)) eq_refl Hrun)
      as (_ & _ & Hkept & _).
    apply Hkept. left. vm_compute. reflexivity.
Defined.

(** C1, as worded, fails: the creation handler stores the sample parcel as
    Order Placed with progress 0, and an agent's Order Placed event on it is
    persisted with progress still 0, where the table says 10. *)
Lemma repeated_status_keeps_progress :
  summary one_parcel = [(OrderPlaced, 0, 1%nat)]
  /\ summary (snd (Routes.addTracking ravi parcel_id (Some OrderPlaced)
                     "Mumbai" "Awaiting pickup" None one_parcel))
     = [(OrderPlaced, 0, 2%nat)]
  /\ fixed_mapping OrderPlaced = Some 10
  /\ ~ progress_always_mapped.
Proof.
  split; [vm_compute; reflexivity|].
  split; [vm_compute; reflexivity|].
  split; [reflexivity|].
  intros Hclaim.
  assert (Hrun : addTrackingEvent (hydrate (the_parcel one_parcel))
                   (report OrderPlaced (Some 2000)) one_parcel
                 = (Ok (returned repeated_run (hydrate blank)), snd repeated_run))
    by (vm_compute; reflexivity).
  destruct (Hclaim one_parcel (snd repeated_run) (the_parcel one_parcel)
              (report OrderPlaced (Some 2000)) OrderPlaced
              (returned repeated_run (hydrate blank))
              one_parcel_stored eq_refl Hrun)
    as [Hmapped _].
  specialize (Hmapped ltac:(discriminate)).
  vm_compute in Hmapped. discriminate Hmapped.
Qed.

Lemma terminal_dates_stamped_witness :
  deliveredAt (data (returned delivered_run (hydrate blank))) = Some 5000
  /\ cancelledAt (data (returned cancelled_run (hydrate blank))) = Some 1008
  /\ cancellationReason (data (returned cancelled_run (hydrate blank)))
     = Some "Status reported by the field agent".
Proof.
  split.
  - assert (Hrun : addTrackingEvent (hydrate (the_parcel one_parcel))
                     (report Delivered (Some 5000)) one_parcel
                   = (Ok (returned delivered_run (hydrate blank)), snd delivered_run))
      by (vm_compute; reflexivity).
    destruct (terminal_dates_stamped _ _ _ _ _ Hrun) as (Hd & _).
    exact (Hd eq_refl).
  - assert (Hrun : addTrackingEvent (hydrate (the_parcel one_parcel))
                     (report Cancelled None) one_parcel
                   = (Ok (returned cancelled_run (hydrate blank)), snd cancelled_run))
      by (vm_compute; reflexivity).
    destruct (terminal_dates_stamped _ _ _ _ _ Hrun) as (_ & _ & Hc & _).
    exact (Hc eq_refl).
Defined.






Lemma anonymous_view_redacted_witness :
  fst (Routes.trackShipment 19800000 [ravi] None "IND123456789" one_parcel)
  = fst (Routes.trackShipment 19800000 [] None "IND123456789" disguised).
Proof.
  destruct anonymous_view_redacted as (_ & _ & Hsame).
  apply Hsame; [reflexivity|].
  constructor; [|constructor].
  repeat split. constructor; [|constructor]. repeat split.
Defined.

(** C8.  [findByUser] with the identifier of an account that is the
    recipient, by its registered email, of an active shipment somebody else
    created returns nothing, where the listing handler [GET /my] returns
    that shipment. *)
Theorem findByUser_misses_email_match :
  shipments one_parcel = [the_parcel one_parcel]
  /\ isActive (the_parcel one_parcel) = true
  /\ associated customer (the_parcel one_parcel)
  /\ fst (findByUser (User._id customer) one_parcel) = Ok []
  /\ option_map Routes.page_shipments
       (returned (Routes.myShipments customer None None None one_parcel) None)
     = Some [the_parcel one_parcel].
Proof.
  split; [reflexivity|]. split; [reflexivity|].
  split; [right; right; reflexivity|].
  split; vm_compute; reflexivity.
Qed.

End Samples.

(** ** The ledger as a whole *)

Section LedgerInvariants.
Import Shipment.

Lemma saved_valid (ts : Date) (d : Doc) :
  validate (data d) = [] -> validate (saved ts d) = [].
Proof.
  rewrite !validate_parts. intros (H1 & H2 & H3 & H4).
  destruct (saved_fields ts d) as (St & Sc & Sd & Sn & Sid & _ & _ & _ & _ & Sp).
  rewrite Sn, Sd, St. split; [exact H1|]. split; [|split; assumption].
  rewrite Sp. destruct (statusModified d); [|exact H2].
  destruct (currentStatus (data d)); cbn; lia.
Qed.

Lemma map_replace_first {B : Type} (f : t -> B) (s : t) (l : list t) :
  (forall x, In x l -> same_id (_id s) x = true -> f x = f s) ->
  map f (replace_first s l) = map f l.
Proof.
  induction l as [|y l IH]; intros H; [reflexivity|].
  cbn [replace_first]. destruct (same_id (_id s) y) eqn:E; cbn [map].
  - f_equal. symmetry. apply H; [now left|exact E].
  - f_equal. apply IH. intros x Hx. apply H. now right.
Qed.

Lemma NoDup_map_same {B : Type} (f : t -> B) (l : list t) (x y : t) :
  NoDup (map f l) -> In x l -> In y l -> f x = f y -> x = y.
Proof.
  induction l as [|z l IH]; [intros _ []|].
  cbn [map]. intros Hnd Hx Hy E. inversion Hnd as [|? ? Hz Hl]; subst.
  destruct Hx as [->|Hx], Hy as [->|Hy].
  - reflexivity.
  - exfalso. apply Hz. rewrite E. now apply in_map.
  - exfalso. apply Hz. rewrite <- E. now apply in_map.
  - now apply IH.
Qed.

Lemma existsb_same_id_false (id : ObjectId) (l : list t) :
  existsb (same_id id) l = false -> ~ In id (map _id l).
Proof.
  intros H Hin. apply in_map_iff in Hin as (x & Hx & Hin).
  assert (existsb (same_id id) l = true) as Ht.
  { apply existsb_exists. exists x. split; [exact Hin|].
    unfold same_id. rewrite Hx. apply String.eqb_refl. }
  congruence.
Qed.

Lemma existsb_same_number_false (tn : string) (l : list t) :
  existsb (same_trackingNumber (Some tn)) l = false ->
  ~ In (Some tn) (map trackingNumber l).
Proof.
  intros H Hin. apply in_map_iff in Hin as (x & Hx & Hin).
  assert (existsb (same_trackingNumber (Some tn)) l = true) as Ht.
  { apply existsb_exists. exists x. split; [exact Hin|].
    cbn [same_trackingNumber]. now apply has_trackingNumber_eq. }
  congruence.
Qed.

Lemma NoDup_snoc {B : Type} (l : list B) (b : B) :
  NoDup l -> ~ In b l -> NoDup (l ++ [b]).
Proof.
  intros Hl Hb. apply NoDup_app; [exact Hl|constructor; [intros []|constructor]|].
  intros x Hx [<-|[]]. contradiction.
Qed.

Lemma well_formed_shipments (w w' : World) :
  shipments w' = shipments w -> well_formed w -> well_formed w'.
Proof. unfold well_formed. now intros ->. Qed.

(** [save] keeps the ledger well formed, provided a loaded document still
    carries the tracking number it is stored under. *)
Lemma save_well_formed (d : Doc) (w w' : World) (r : Result Doc) :
  save d w = (r, w') ->
  well_formed w ->
  (isNew d = false ->
   forall x, In x (shipments w) -> _id x = _id (data d) ->
             trackingNumber x = trackingNumber (data d)) ->
  well_formed w'.
Proof.
  intros Hs Hwf Hsame. apply save_cases in Hs.
  destruct r as [d'|e]; [|now apply (well_formed_shipments w)].
  destruct Hs as (Hv & _ & Hs).
  destruct Hwf as (Hid & Htn & Hval).
  pose proof (saved_valid (now (clock w)) d Hv) as Hv'.
  destruct (saved_fields (now (clock w)) d) as (_ & _ & _ & Sn & Sid & _).
  destruct Hs as [(Hnew & _ & Hw & E1 & E2)|[(Hnew & _ & _ & Hw & _)|(_ & _ & _ & Hw)]].
  - unfold well_formed. rewrite Hw, !map_app. cbn [map].
    split; [|split].
    + apply NoDup_snoc; [exact Hid|]. rewrite Sid.
      now apply existsb_same_id_false.
    + apply NoDup_snoc; [exact Htn|]. rewrite Sn.
      destruct (validate_ok_trackingNumber _ Hv) as (tn & Etn & _).
      rewrite Etn in *. now apply existsb_same_number_false.
    + intros s Hin. apply in_app_or in Hin as [Hin|[<-|[]]];
        [now apply Hval|exact Hv'].
  - unfold well_formed. rewrite Hw.
    assert (Hx : forall x, In x (shipments w) ->
                           same_id (_id (saved (now (clock w)) d)) x = true ->
                           _id x = _id (data d)).
    { intros x _ E. unfold same_id in E. apply String.eqb_eq in E. congruence. }
    split; [|split].
    + rewrite map_replace_first; [exact Hid|].
      intros x Hin E. rewrite Sid. now apply Hx.
    + rewrite map_replace_first; [exact Htn|].
      intros x Hin E. rewrite Sn. apply (Hsame Hnew x Hin). now apply Hx.
    + intros s Hin. apply in_replace_first in Hin as [->|Hin];
        [exact Hv'|now apply Hval].
  - now apply (well_formed_shipments w); [|repeat split].
Qed.

Lemma addTrackingEvent_well_formed (d : Doc) (e : EventData.t) (w w' : World)
    (r : Result Doc) :
  addTrackingEvent d e w = (r, w') ->
  well_formed w ->
  (isNew d = false ->
   forall x, In x (shipments w) -> _id x = _id (data d) ->
             trackingNumber x = trackingNumber (data d)) ->
  well_formed w'.
Proof.
  rewrite addTrackingEvent_eq. intros Hs Hwf Hsame.
  destruct (applyEvent_fields e (event_time e (clock w))
              (terminal_time e (clock w)) d)
    as (_ & _ & _ & Hnew & _ & _ & _ & Hn & Hid).
  apply save_well_formed in Hs; [exact Hs|exact Hwf|].
  cbn [shipments with_clock]. rewrite Hnew, Hn, Hid. exact Hsame.
Qed.

Lemma stored_number (w : World) (s : t) :
  well_formed w -> In s (shipments w) ->
  forall x, In x (shipments w) -> _id x = _id s ->
            trackingNumber x = trackingNumber s.
Proof.
  intros (Hid & _) Hs x Hx E.
  now rewrite (NoDup_map_same _id (shipments w) x s Hid Hx Hs E).
Qed.

Lemma cast_events_clock (l : list EventData.t) :
  forall w, exists evs w1,
    Routes.cast_events l w = (Ok evs, w1)
    /\ shipments w1 = shipments w
    /\ time (clock w) <= time (clock w1).
Proof.
  induction l as [|e l IH]; intros w.
  - exists [], w. repeat split. lia.
  - cbn [Routes.cast_events]. unfold bind at 1.
    assert (Ht : exists ts w0, timestamp_or_now e w = (Ok ts, w0)
                               /\ shipments w0 = shipments w
                               /\ time (clock w) <= time (clock w0)).
    { unfold timestamp_or_now.
      destruct (EventData.timestamp e) as [ts|].
      - exists ts, w. repeat split. lia.
      - eexists. eexists. split; [reflexivity|]. split; [reflexivity|].
        cbn [getClock setClock World_clock clock]. rewrite time_after.
        apply now_ge_time. }
    destruct Ht as (ts & w0 & -> & Hw0 & Hc0).
    unfold bind at 1.
    destruct (IH w0) as (evs & w1 & -> & Hw1 & Hc1).
    exists (event_of e ts :: evs), w1. unfold ret.
    split; [reflexivity|]. split; [congruence|lia].
Qed.

(** What the creation handler hands to [save], and how it answers. *)
Lemma createShipment_run (id : ObjectId) (reqUser : User.t) (b : Routes.Body)
    (w : World) :
  exists d w1,
    isNew d = true
    /\ shipments w1 = shipments w
    /\ now (clock w) <= time (clock w1)
    /\ _id (data d) = id
    /\ createdBy (data d) = User._id reqUser
    /\ trackingNumber (data d) = option_map toUpperCase (Routes.b_trackingNumber b)
    /\ estimatedDelivery (service (data d))
       = Routes.addDays (now (clock w))
           (Routes.serviceDeliveryDays (Routes.b_service_type b))
    /\ currentStatus (data d) = Routes.or_default (Routes.b_currentStatus b) OrderPlaced
    /\ progress (data d) = Routes.or_default (Routes.b_progress b) 0
    /\ statusModified d = match Routes.b_currentStatus b with
                          | Some _ => true
                          | None => false
                          end
    /\ forall r w2,
         save d w1 = (r, w2) ->
         exists resp,
           Routes.createShipment id reqUser b w = (Ok resp, w2)
           /\ Routes.code resp = match r with Ok _ => 201 | Throw _ => 500 end.
Proof.
  unfold Routes.createShipment, catch.
  unfold bind at 1. unfold Date_now at 1. cbn [getClock setClock World_clock].
  unfold bind at 1. unfold Routes.newShipment. unfold bind at 1.
  match goal with
  | |- context [Routes.cast_events _ ?w0] =>
      destruct (cast_events_clock (Routes.b_tracking b) w0)
        as (evs & w2 & Hc & Hw2 & Hclock)
  end.
  rewrite Hc. unfold ret at 1. unfold bind at 1. unfold Date_now at 1.
  cbn [getClock setClock World_clock]. unfold bind at 1.
  match goal with
  | |- context [save ?D ?W] => exists D, W
  end.
  split; [|split; [|split; [|split; [|split; [|split; [|split; [|split; [|split; [|split]]]]]]]]];
    cycle 10.
  - intros r w3 Hs. rewrite Hs. destruct r as [d'|e]; unfold Routes.respond, ret;
      eexists; split; reflexivity.
  - reflexivity.
  - cbn [shipments]. exact Hw2.
  - cbn [clock] in *. rewrite time_after in *.
    pose proof (now_ge_time (clock w2)). lia.
  - reflexivity.
  - reflexivity.
  - reflexivity.
  - reflexivity.
  - reflexivity.
  - reflexivity.
  - reflexivity.
Qed.

End LedgerInvariants.

Section LedgerExtras.
Import Shipment.

(** The fields [save] passes through unchanged, and the creation time. *)
Lemma saved_more_fields (ts : Date) (d : Doc) :
  sender (saved ts d) = sender (data d)
  /\ recipient (saved ts d) = recipient (data d)
  /\ package (saved ts d) = package (data d)
  /\ service (saved ts d) = service (data d)
  /\ paymentStatus (saved ts d) = paymentStatus (data d)
  /\ paymentMethod (saved ts d) = paymentMethod (data d)
  /\ specialInstructions (saved ts d) = specialInstructions (data d)
  /\ internalNotes (saved ts d) = internalNotes (data d)
  /\ assignedAgent (saved ts d) = assignedAgent (data d)
  /\ createdBy (saved ts d) = createdBy (data d)
  /\ isActive (saved ts d) = isActive (data d)
  /\ createdAt (saved ts d) = (if isNew d then ts else createdAt (data d))
  /\ (isNew d = true -> updatedAt (saved ts d) = ts).
Proof.
  unfold saved, preSaveProgress, stamp.
  destruct (isNew d), (dirty d), (statusModified d); cbn;
    try (destruct (statusProgress _ _)); repeat split; discriminate.
Qed.

Lemma applyEvent_more_fields (e : EventData.t) (ts at_ : Date) (d : Doc) :
  let D := applyEvent e ts at_ d in
  sender (data D) = sender (data d)
  /\ recipient (data D) = recipient (data d)
  /\ package (data D) = package (data d)
  /\ service (data D) = service (data d)
  /\ paymentStatus (data D) = paymentStatus (data d)
  /\ paymentMethod (data D) = paymentMethod (data d)
  /\ specialInstructions (data D) = specialInstructions (data d)
  /\ internalNotes (data D) = internalNotes (data d)
  /\ assignedAgent (data D) = assignedAgent (data d)
  /\ createdBy (data D) = createdBy (data d)
  /\ isActive (data D) = isActive (data d)
  /\ createdAt (data D) = createdAt (data d).
Proof.
  unfold applyEvent.
  destruct (EventData.status e) as [[]|]; cbn; repeat split.
Qed.

Lemma applyEvent_keeps_dates (e : EventData.t) (ts at_ : Date) (d : Doc) :
  let D := applyEvent e ts at_ d in
  (EventData.status e <> Some Delivered -> deliveredAt (data D) = deliveredAt (data d))
  /\ (EventData.status e <> Some Returned -> returnedAt (data D) = returnedAt (data d))
  /\ (EventData.status e <> Some Cancelled ->
        cancelledAt (data D) = cancelledAt (data d)
        /\ cancellationReason (data D) = cancellationReason (data d)).
Proof.
  unfold applyEvent.
  destruct (EventData.status e) as [[]|]; cbn; repeat split;
    try reflexivity; intros; try reflexivity; exfalso; auto.
Qed.

Lemma validate_event_ok (e : EventData.t) (ts : Date) :
  (exists st, EventData.status e = Some st) ->
  EventData.location e <> "" -> EventData.description e <> "" ->
  validate_event (event_of e ts) = [].
Proof.
  intros [st Hst] Hl Hd. unfold validate_event, event_of.
  cbn [TrackingEvent.status TrackingEvent.location TrackingEvent.description].
  rewrite Hst.
  destruct (String.eqb_spec (EventData.location e) ""); [contradiction|].
  destruct (String.eqb_spec (EventData.description e) ""); [contradiction|].
  reflexivity.
Qed.

(** The tracking handler, branch by branch. *)
Lemma addTracking_run (reqUser : User.t) (id : string) (status : option Status)
    (location description : string) (coordinates : option Coordinates)
    (w : World) :
  (acceptable_report id status location description = false ->
     exists resp,
       Routes.addTracking reqUser id status location description coordinates w
       = (Ok resp, w)
       /\ Routes.code resp = 400)
  /\ (acceptable_report id status location description = true ->
      find (same_id id) (shipments w) = None ->
      exists resp,
        Routes.addTracking reqUser id status location description coordinates w
        = (Ok resp, w)
        /\ Routes.code resp = 404)
  /\ (acceptable_report id status location description = true ->
      forall s, find (same_id id) (shipments w) = Some s ->
      forall r w2,
        addTrackingEvent (hydrate s)
          (EventData.mk status location description (Some (now (clock w)))
             coordinates
             (Some {| agent_name := User.fullName reqUser;
                      agent_id := User._id reqUser;
                      agent_contact := User.email reqUser |}))
          (with_clock (after (clock w)) w) = (r, w2) ->
        exists resp,
          Routes.addTracking reqUser id status location description coordinates w
          = (Ok resp, w2)
          /\ Routes.code resp = match r with Ok _ => 200 | Throw _ => 500 end).
Proof.
  unfold Routes.addTracking, acceptable_report, catch.
  split; [|split].
  - destruct (Routes.isMongoId id), status,
      (String.eqb location ""), (String.eqb description "");
      cbn; intros H; try discriminate H;
      unfold Routes.respond, ret; eexists; split; reflexivity.
  - intros H Hf.
    destruct (Routes.isMongoId id), status,
      (String.eqb location ""), (String.eqb description "");
      cbn in H; try discriminate H.
    cbn [app]. unfold bind at 1. unfold findById, gets. rewrite Hf.
    cbn [option_map]. unfold Routes.respond, ret. eexists. split; reflexivity.
  - intros H s Hf r w2.
    destruct (Routes.isMongoId id), status as [st|],
      (String.eqb location ""), (String.eqb description "");
      cbn in H; try discriminate H.
    cbn [app]. unfold bind at 1. unfold findById, gets. rewrite Hf.
    cbn [option_map]. unfold bind at 1. unfold Date_now at 1.
    cbn [getClock setClock World_clock]. unfold bind at 1.
    change {| clock := after (clock w); random := random w; fuel := fuel w;
              shipments := shipments w |}
      with (with_clock (after (clock w)) w).
    intros ->. destruct r as [d'|e]; unfold Routes.respond, ret;
      eexists; split; reflexivity.
Qed.

(** An event with a status, a location and a description passes the
    validators on a stored, valid shipment, so the call returns. *)
Lemma addTrackingEvent_returns (w : World) (s : t) (e : EventData.t) :
  stored w s ->
  validate s = [] ->
  (exists st, EventData.status e = Some st) ->
  EventData.location e <> "" ->
  EventData.description e <> "" ->
  exists d' w', addTrackingEvent (hydrate s) e w = (Ok d', w').
Proof.
  intros Hst Hv He Hl Hd.
  rewrite addTrackingEvent_eq.
  set (D := applyEvent e (event_time e (clock w)) (terminal_time e (clock w))
              (hydrate s)).
  destruct (applyEvent_fields e (event_time e (clock w))
              (terminal_time e (clock w)) (hydrate s))
    as (A1 & _ & _ & A4 & _ & A6 & A7 & A8 & A9).
  fold D in A1, A4, A6, A7, A8, A9.
  cbn [hydrate data isNew] in A1, A4, A6, A7, A8, A9.
  assert (HvD : validate (data D) = []).
  { apply validate_parts. apply validate_parts in Hv as (H1 & H2 & H3 & H4).
    rewrite A8, A6, A7, A1, flat_map_app, H4. cbn [flat_map app].
    rewrite validate_event_ok; [|exact He|exact Hl|exact Hd].
    repeat split; try assumption; lia. }
  apply (save_loaded D _ A4 HvD). intros _.
  rewrite A9. cbn [with_clock shipments]. now apply stored_exists.
Qed.

(** X5.  [addTrackingEvent] has no table of allowed transitions: on a
    stored, valid shipment every event with a status, a location and a
    description is persisted and makes its status the current one, whatever
    the status was, a closed one included.  Dates stamped by an earlier
    closing event stay in place unless the new event stamps the same date
    again. *)
Theorem event_accepted_whatever_the_status :
  forall (w : World) (s : t) (e : EventData.t) (st : Status),
    stored w s ->
    validate s = [] ->
    EventData.status e = Some st ->
    EventData.location e <> "" ->
    EventData.description e <> "" ->
    exists d' w',
      addTrackingEvent (hydrate s) e w = (Ok d', w')
      /\ stored w' (data d')
      /\ currentStatus (data d') = st
      /\ (st <> Delivered -> deliveredAt (data d') = deliveredAt s)
      /\ (st <> Returned -> returnedAt (data d') = returnedAt s)
      /\ (st <> Cancelled ->
            cancelledAt (data d') = cancelledAt s
            /\ cancellationReason (data d') = cancellationReason s).
Proof.
  intros w s e st Hst Hv He Hl Hd.
  destruct (addTrackingEvent_returns w s e Hst Hv (ex_intro _ st He) Hl Hd)
    as (d' & w' & Hrun).
  exists d', w'. split; [exact Hrun|].
  destruct (addTrackingEvent_stored _ _ _ _ _ Hst Hrun) as (Hst' & _ & _).
  split; [exact Hst'|].
  apply addTrackingEvent_inv in Hrun as (-> & _).
  set (D := applyEvent _ _ _ _).
  set (ts := now (clock_at_save e (clock w))).
  destruct (applyEvent_fields e (event_time e (clock w))
              (terminal_time e (clock w)) (hydrate s))
    as (_ & A2 & _).
  fold D in A2.
  destruct (saved_fields ts D) as (_ & Sc & _ & _ & _ & Sd & Sr & Sca & Scr & _).
  destruct (applyEvent_keeps_dates e (event_time e (clock w))
              (terminal_time e (clock w)) (hydrate s)) as (K1 & K2 & K3).
  fold D in K1, K2, K3. cbn [hydrate data] in K1, K2, K3 |- *.
  rewrite He in A2, K1, K2, K3.
  split; [congruence|].
  split; [intros N; rewrite Sd; apply K1; congruence|].
  split; [intros N; rewrite Sr; apply K2; congruence|].
  intros N. rewrite Sca, Scr. apply K3. congruence.
Qed.

(** X1.  The handlers and model methods that write keep the ledger well
    formed: identifiers and tracking numbers stay unique and every stored
    shipment keeps passing the schema validators, so its progress stays
    within 0 and 100, its delivery attempts at three or fewer and its number
    in the [IND] format.  This holds for the creation handler, the tracking
    handler, [addTrackingEvent] and [incrementDeliveryAttempts], whether they
    succeed or fail. *)
Theorem ledger_stays_well_formed :
  forall w : World,
    well_formed w ->
    (forall id reqUser b,
        well_formed (snd (Routes.createShipment id reqUser b w)))
    /\ (forall reqUser id status location description coordinates,
          well_formed (snd (Routes.addTracking reqUser id status location
                              description coordinates w)))
    /\ (forall s e, In s (shipments w) ->
          well_formed (snd (addTrackingEvent (hydrate s) e w)))
    /\ (forall s, In s (shipments w) ->
          well_formed (snd (incrementDeliveryAttempts (hydrate s) w)))
    /\ (forall s, In s (shipments w) ->
          0 <= progress s <= 100 /\ deliveryAttempts s <= 3
          /\ exists tn, trackingNumber s = Some tn /\ matches_IND tn = true).
Proof.
  intros w Hwf.
  assert (Hevent : forall s e w0 r w',
             shipments w0 = shipments w -> In s (shipments w) ->
             addTrackingEvent (hydrate s) e w0 = (r, w') -> well_formed w').
  { intros s e w0 r w' Hw0 Hin Hrun.
    apply addTrackingEvent_well_formed in Hrun; [exact Hrun| |].
    - now apply (well_formed_shipments w).
    - intros _. cbn [hydrate data]. rewrite Hw0. now apply stored_number. }
  split; [|split; [|split; [|split]]].
  - intros id reqUser b.
    destruct (createShipment_run id reqUser b w)
      as (d & w1 & Hnew & Hw1 & _ & _ & _ & _ & _ & _ & _ & _ & Hrun).
    destruct (save d w1) as [r w2] eqn:Hs.
    destruct (Hrun r w2 eq_refl) as (resp & -> & _). cbn [snd].
    apply save_well_formed in Hs; [exact Hs| |intros N; congruence].
    now apply (well_formed_shipments w).
  - intros reqUser id status location description coordinates.
    destruct (addTracking_run reqUser id status location description
                coordinates w) as (H400 & H404 & H200).
    destruct (acceptable_report id status location description) eqn:Hacc.
    2:{ destruct (H400 eq_refl) as (resp & -> & _). exact Hwf. }
    destruct (find (same_id id) (shipments w)) as [s|] eqn:Hf.
    2:{ destruct (H404 eq_refl eq_refl) as (resp & -> & _). exact Hwf. }
    destruct (addTrackingEvent (hydrate s)
                (EventData.mk status location description
                   (Some (now (clock w))) coordinates
                   (Some {| agent_name := User.fullName reqUser;
                            agent_id := User._id reqUser;
                            agent_contact := User.email reqUser |}))
                (with_clock (after (clock w)) w)) as [r w2] eqn:Hrun.
    destruct (H200 eq_refl s eq_refl r w2 Hrun) as (resp & -> & _). cbn [snd].
    eapply Hevent; [| |exact Hrun]; [reflexivity|].
    apply find_some in Hf. apply Hf.
  - intros s e Hin.
    destruct (addTrackingEvent (hydrate s) e w) as [r w'] eqn:Hrun. cbn [snd].
    now apply (Hevent s e w r w' eq_refl).
  - intros s Hin. unfold incrementDeliveryAttempts.
    set (d1 := on_data _ (hydrate s)).
    destruct (counted_fields s) as (C1 & _ & _ & _ & _ & _ & _ & C8 & C9).
    fold d1 in C1, C8, C9.
    assert (Hsame : isNew d1 = false ->
                    forall x, In x (shipments w) -> _id x = _id (data d1) ->
                              trackingNumber x = trackingNumber (data d1)).
    { intros _. rewrite C8, C9. now apply stored_number. }
    destruct (3 <=? deliveryAttempts (data d1)).
    + unfold bind at 1.
      destruct (addTrackingEvent d1 max_attempts_event w) as [[d2|x] w2] eqn:Ha.
      * pose proof (addTrackingEvent_well_formed _ _ _ _ _ Ha Hwf Hsame) as Hwf2.
        apply addTrackingEvent_inv in Ha as (-> & _).
        match goal with
        | |- well_formed (snd (save ?D ?W)) =>
            destruct (save D W) as [r w3] eqn:Hs
        end.
        cbn [snd]. apply save_cases in Hs.
        destruct r as [d3|x]; [|now apply (well_formed_shipments w2)].
        destruct Hs as (_ & _ & [H|[H|H]]).
        -- destruct H as [H _]. discriminate H.
        -- destruct H as (_ & H & _). discriminate H.
        -- destruct H as (_ & _ & _ & H). now apply (well_formed_shipments w2).
      * cbn [snd].
        now apply (addTrackingEvent_well_formed _ _ _ _ _ Ha Hwf Hsame).
    + unfold bind at 1. unfold ret at 1.
      destruct (save d1 w) as [r w3] eqn:Hs. cbn [snd].
      now apply (save_well_formed _ _ _ _ Hs Hwf Hsame).
  - intros s Hin. destruct Hwf as (_ & _ & Hval).
    apply Hval in Hin. apply validate_parts in Hin as ((tn & Htn & _ & Hm) & Hp & Hd & _).
    split; [exact Hp|]. split; [exact Hd|]. now exists tn.
Qed.

(** X2.  Creation is all or nothing.  For a body that has passed the
    handler's validators the handler always answers, with 201 or with 500; on
    500 the ledger is as it was; on 201 exactly one shipment was added at the
    end, under the identifier given and under the upper-cased tracking number
    of the request, neither of which any earlier shipment has.  A request
    without a tracking number is answered 500: the schema validators, which
    require one, run before the hook that would generate it.  So is a
    request whose identifier or number is already taken. *)
Theorem creation_all_or_nothing :
  forall (id : ObjectId) (reqUser : User.t) (b : Routes.Body) (w : World),
    exists resp w',
      Routes.createShipment id reqUser b w = (Ok resp, w')
      /\ (Routes.code resp = 201 \/ Routes.code resp = 500)
      /\ (Routes.code resp = 500 -> shipments w' = shipments w)
      /\ (Routes.code resp = 201 ->
            exists s tn,
              shipments w' = (shipments w ++ [s])%list
              /\ _id s = id
              /\ Routes.b_trackingNumber b = Some tn
              /\ trackingNumber s = Some (toUpperCase tn)
              /\ matches_IND (toUpperCase tn) = true
              /\ validate s = []
              /\ forall x, In x (shipments w) ->
                   _id x <> id /\ trackingNumber x <> Some (toUpperCase tn))
      /\ (Routes.b_trackingNumber b = None -> Routes.code resp = 500)
      /\ (forall x, In x (shipments w) ->
            _id x = id
            \/ (exists tn, Routes.b_trackingNumber b = Some tn
                           /\ trackingNumber x = Some (toUpperCase tn)) ->
            Routes.code resp = 500).
Proof.
  intros id reqUser b w.
  destruct (createShipment_run id reqUser b w)
    as (d & w1 & Hnew & Hw1 & _ & Hid & _ & Hnum & _ & _ & _ & _ & Hrun).
  destruct (save d w1) as [r w2] eqn:Hs.
  destruct (Hrun r w2 eq_refl) as (resp & Hresp & Hcode).
  exists resp, w2. split; [exact Hresp|]. rewrite Hcode.
  pose proof (save_cases _ _ _ _ Hs) as Hc.
  destruct r as [d'|e].
  - destruct Hc as (Hv & _ & [H|[H|H]]);
      [|destruct H as [H _]; congruence|destruct H as [H _]; congruence].
    destruct H as (_ & _ & Hw2 & E1 & E2).
    destruct (validate_ok_trackingNumber _ Hv) as (tn' & Htn' & Hm & _).
    rewrite Hnum in Htn'.
    destruct (Routes.b_trackingNumber b) as [tn|] eqn:Hb; [|discriminate Htn'].
    cbn [option_map] in Htn'. injection Htn' as <-.
    rewrite Hw1 in *. rewrite Hid in E1. rewrite Hnum in E2. cbn [option_map] in E2.
    destruct (saved_fields (now (clock w1)) d) as (_ & _ & _ & Sn & Sid & _).
    assert (Hfresh : forall x, In x (shipments w) ->
                       _id x <> id /\ trackingNumber x <> Some (toUpperCase tn)).
    { intros x Hx. split.
      - intros E. apply (existsb_same_id_false _ _ E1).
        rewrite <- E. now apply in_map.
      - intros E. apply (existsb_same_number_false _ _ E2).
        rewrite <- E. now apply in_map. }
    split; [now left|]. split; [discriminate|]. split.
    { intros _. exists (saved (now (clock w1)) d), tn.
      split; [exact Hw2|]. split; [congruence|]. split; [reflexivity|].
      split; [rewrite Sn, Hnum; reflexivity|]. split; [exact Hm|].
      split; [now apply saved_valid|exact Hfresh]. }
    split; [discriminate|].
    intros x Hx [E|(tn0 & [= <-] & E)]; exfalso;
      destruct (Hfresh x Hx) as [F1 F2]; contradiction.
  - split; [now right|]. split; [intros _; congruence|].
    split; [discriminate|]. split; reflexivity.
Qed.



End LedgerExtras.

Section FrameFacts.
Import Shipment.

Lemma same_consignment_refl (a : t) : same_consignment a a.
Proof. repeat split. Qed.

Lemma only_touches_refl (id : ObjectId) (l : list t) : only_touches id l l.
Proof.
  unfold only_touches. induction l as [|x l IH]; constructor;
    [split; [apply same_consignment_refl|reflexivity]|exact IH].
Qed.

Lemma only_touches_same (id : ObjectId) (l l' : list t) :
  l' = l -> only_touches id l l'.
Proof. intros ->. apply only_touches_refl. Qed.

Lemma saved_same_consignment (ts : Date) (d : Doc) :
  isNew d = false -> same_consignment (data d) (saved ts d).
Proof.
  intros Hnew.
  destruct (saved_fields ts d) as (_ & _ & _ & Sn & Sid & _).
  destruct (saved_more_fields ts d)
    as (S1 & S2 & S3 & S4 & S5 & S6 & S7 & S8 & S9 & S10 & S11 & S12 & _).
  rewrite Hnew in S12.
  unfold same_consignment. repeat split; congruence.
Qed.

Lemma applyEvent_same_consignment (e : EventData.t) (ts at_ : Date) (d : Doc) :
  same_consignment (data d) (data (applyEvent e ts at_ d)).
Proof.
  destruct (applyEvent_fields e ts at_ d) as (_ & _ & _ & _ & _ & _ & _ & An & Aid).
  destruct (applyEvent_more_fields e ts at_ d)
    as (S1 & S2 & S3 & S4 & S5 & S6 & S7 & S8 & S9 & S10 & S11 & S12).
  unfold same_consignment. repeat split; congruence.
Qed.

Lemma same_consignment_trans (a b c : t) :
  same_consignment a b -> same_consignment b c -> same_consignment a c.
Proof.
  unfold same_consignment. intros H1 H2.
  decompose [and] H1. decompose [and] H2. repeat split; congruence.
Qed.

Lemma replace_first_only_touches (s' : t) (l : list t) :
  (forall x, find (same_id (_id s')) l = Some x -> same_consignment x s') ->
  only_touches (_id s') l (replace_first s' l).
Proof.
  unfold only_touches. induction l as [|x l IH]; intros H; [constructor|].
  cbn [replace_first find] in *.
  destruct (same_id (_id s') x) eqn:E.
  - constructor; [|apply only_touches_refl].
    split; [now apply H|].
    intros N. exfalso. apply N. unfold same_id in E. now apply String.eqb_eq.
  - constructor; [|now apply IH].
    split; [apply same_consignment_refl|reflexivity].
Qed.

(** A [save] of a loaded document rewrites at most the stored shipment
    with its [_id], and leaves the consignment data of that one alone when
    the document still carries them. *)
Lemma save_only_touches (d : Doc) (w w' : World) (r : Result Doc) :
  save d w = (r, w') ->
  isNew d = false ->
  (forall x, find (same_id (_id (data d))) (shipments w) = Some x ->
             same_consignment x (data d)) ->
  only_touches (_id (data d)) (shipments w) (shipments w').
Proof.
  intros Hs Hnew Hsame. apply save_cases in Hs.
  destruct r as [d'|e]; [|now apply only_touches_same].
  destruct Hs as (_ & _ & [H|[H|H]]).
  - destruct H as [H _]. congruence.
  - destruct H as (_ & _ & _ & -> & _).
    destruct (saved_fields (now (clock w)) d) as (_ & _ & _ & _ & Sid & _).
    rewrite <- Sid. apply replace_first_only_touches.
    rewrite Sid. intros x Hx.
    apply (same_consignment_trans _ (data d)); [now apply Hsame|].
    now apply saved_same_consignment.
  - destruct H as (_ & _ & _ & H). now apply only_touches_same.
Qed.

Lemma addTrackingEvent_only_touches (d : Doc) (e : EventData.t) (w w' : World)
    (r : Result Doc) :
  addTrackingEvent d e w = (r, w') ->
  isNew d = false ->
  (forall x, find (same_id (_id (data d))) (shipments w) = Some x ->
             same_consignment x (data d)) ->
  only_touches (_id (data d)) (shipments w) (shipments w').
Proof.
  rewrite addTrackingEvent_eq. intros Hs Hnew Hsame.
  destruct (applyEvent_fields e (event_time e (clock w))
              (terminal_time e (clock w)) d)
    as (_ & _ & _ & Anew & _ & _ & _ & _ & Aid).
  apply save_only_touches in Hs.
  - rewrite Aid in Hs. exact Hs.
  - congruence.
  - rewrite Aid. cbn [with_clock shipments]. intros x Hx.
    apply (same_consignment_trans _ (data d)); [now apply Hsame|].
    apply applyEvent_same_consignment.
Qed.

(** X6.  An event or a delivery attempt recorded on a stored shipment,
    directly or through the tracking handler, leaves every other shipment of
    the ledger exactly as it was, keeps the ledger's length and order, and
    on the shipment itself changes nothing of the consignment: identifier,
    tracking number, parties, package, service, payment, notes, agent,
    creator, active flag and creation time. *)
Theorem writes_touch_one_shipment :
  forall (w : World) (s : t),
    stored w s ->
    (forall e,
        only_touches (_id s) (shipments w)
          (shipments (snd (addTrackingEvent (hydrate s) e w))))
    /\ only_touches (_id s) (shipments w)
         (shipments (snd (incrementDeliveryAttempts (hydrate s) w)))
    /\ (forall reqUser status location description coordinates,
          only_touches (_id s) (shipments w)
            (shipments (snd (Routes.addTracking reqUser (_id s) status location
                               description coordinates w)))).
Proof.
  intros w s Hst.
  assert (Hevent : forall e w0 r w',
             shipments w0 = shipments w ->
             addTrackingEvent (hydrate s) e w0 = (r, w') ->
             only_touches (_id s) (shipments w) (shipments w')).
  { intros e w0 r w' Hw0 Hrun.
    apply addTrackingEvent_only_touches in Hrun; [|reflexivity|].
    - cbn [hydrate data] in Hrun. now rewrite Hw0 in Hrun.
    - cbn [hydrate data]. rewrite Hw0. unfold stored in Hst. rewrite Hst.
      intros x [= <-]. apply same_consignment_refl. }
  split; [|split].
  - intros e. destruct (addTrackingEvent (hydrate s) e w) as [r w'] eqn:Hrun.
    now apply (Hevent e w r w').
  - unfold incrementDeliveryAttempts.
    set (d1 := on_data _ (hydrate s)).
    assert (Hid : _id (data d1) = _id s) by reflexivity.
    assert (Hsame : forall x, find (same_id (_id (data d1))) (shipments w) = Some x ->
                              same_consignment x (data d1)).
    { rewrite Hid. unfold stored in Hst. rewrite Hst. intros x [= <-].
      repeat split. }
    destruct (3 <=? deliveryAttempts (data d1)).
    + unfold bind at 1.
      destruct (addTrackingEvent d1 max_attempts_event w) as [[d2|x] w2] eqn:Ha.
      * pose proof (addTrackingEvent_only_touches _ _ _ _ _ Ha eq_refl Hsame) as Ht.
        rewrite Hid in Ht.
        apply addTrackingEvent_inv in Ha as (-> & _).
        match goal with
        | |- context [save ?D ?W] => destruct (save D W) as [r w3] eqn:Hs
        end.
        cbn [snd]. apply save_cases in Hs.
        destruct r as [d3|x]; [|now rewrite Hs].
        destruct Hs as (_ & _ & [H|[H|H]]).
        -- destruct H as [H _]. discriminate H.
        -- destruct H as (_ & H & _). discriminate H.
        -- destruct H as (_ & _ & _ & H). now rewrite H.
      * cbn [snd].
        pose proof (addTrackingEvent_only_touches _ _ _ _ _ Ha eq_refl Hsame) as Ht.
        now rewrite Hid in Ht.
    + unfold bind at 1. unfold ret at 1.
      destruct (save d1 w) as [r w3] eqn:Hs. cbn [snd].
      apply save_only_touches in Hs; [|reflexivity|exact Hsame].
      now rewrite Hid in Hs.
  - intros reqUser status location description coordinates.
    destruct (addTracking_run reqUser (_id s) status location description
                coordinates w) as (H400 & H404 & H200).
    destruct (acceptable_report (_id s) status location description) eqn:Hacc.
    2:{ destruct (H400 eq_refl) as (resp & -> & _). apply only_touches_refl. }
    destruct (addTrackingEvent (hydrate s)
                (EventData.mk status location description
                   (Some (now (clock w))) coordinates
                   (Some {| agent_name := User.fullName reqUser;
                            agent_id := User._id reqUser;
                            agent_contact := User.email reqUser |}))
                (with_clock (after (clock w)) w)) as [r w2] eqn:Hrun.
    destruct (H200 eq_refl s Hst r w2 Hrun) as (resp & -> & _). cbn [snd].
    eapply Hevent; [|exact Hrun]. reflexivity.
Qed.


End FrameFacts.

Section LookupFacts.
Import Shipment.




End LookupFacts.

(** ** Listings *)

Section ListingFacts.
Import Shipment.

Lemma insert_desc_sorted (s : t) (l : list t) :
  newest_first l -> newest_first (insert_desc s l).
Proof.
  unfold newest_first. induction l as [|x l IH]; intros Hl.
  - cbn. constructor; [constructor|constructor].
  - cbn [insert_desc]. inversion Hl as [|? ? Hl' Hx]; subst.
    destruct (Z.leb_spec (createdAt x) (createdAt s)) as [Hle|Hgt].
    + constructor; [exact Hl|]. constructor; [exact Hle|].
      eapply Forall_impl; [|exact Hx]. unfold newer. intros y Hy. lia.
    + constructor; [now apply IH|].
      apply Forall_forall. intros y Hy. apply in_insert_desc in Hy as [->|Hy].
      * unfold newer. lia.
      * rewrite Forall_forall in Hx. now apply Hx.
Qed.

Lemma sort_newest_first_sorted (l : list t) : newest_first (sort_newest_first l).
Proof.
  unfold sort_newest_first. induction l as [|x l IH]; cbn [fold_right].
  - constructor.
  - now apply insert_desc_sorted.
Qed.

Lemma insert_desc_perm (s : t) (l : list t) : Permutation (insert_desc s l) (s :: l).
Proof.
  induction l as [|x l IH]; cbn [insert_desc]; [reflexivity|].
  destruct (createdAt x <=? createdAt s); [reflexivity|].
  rewrite IH. apply perm_swap.
Qed.

Lemma sort_newest_first_perm (l : list t) : Permutation (sort_newest_first l) l.
Proof.
  unfold sort_newest_first. induction l as [|x l IH]; cbn [fold_right];
    [reflexivity|].
  rewrite insert_desc_perm. now constructor.
Qed.

Lemma firstn_sorted (n : nat) (l : list t) :
  newest_first l -> newest_first (firstn n l).
Proof.
  unfold newest_first. revert n. induction l as [|x l IH]; intros n Hl.
  - rewrite firstn_nil. constructor.
  - destruct n as [|n]; [constructor|]. cbn [firstn].
    inversion Hl as [|? ? Hl' Hx]; subst.
    constructor; [now apply IH|].
    apply Forall_forall. intros y Hy. rewrite Forall_forall in Hx.
    apply Hx. revert Hy. clear. revert n.
    induction l as [|z l IH]; intros n; [rewrite firstn_nil; intros []|].
    destruct n as [|n]; [intros []|]. cbn [firstn].
    intros [->|Hy]; [now left|right; now apply (IH n)].
Qed.

Lemma skipn_sorted (n : nat) (l : list t) :
  newest_first l -> newest_first (skipn n l).
Proof.
  unfold newest_first. revert l. induction n as [|n IH]; intros l Hl; [exact Hl|].
  destruct l as [|x l]; [constructor|]. cbn [skipn].
  inversion Hl; subst. now apply IH.
Qed.

Lemma in_firstn (n : nat) (l : list t) (x : t) : In x (firstn n l) -> In x l.
Proof.
  revert n. induction l as [|z l IH]; intros n; [rewrite firstn_nil; intros []|].
  destruct n as [|n]; [intros []|]. cbn [firstn].
  intros [->|Hy]; [now left|right; now apply (IH n)].
Qed.

Lemma in_skipn (n : nat) (l : list t) (x : t) : In x (skipn n l) -> In x l.
Proof.
  revert l. induction n as [|n IH]; intros l; [trivial|].
  destruct l as [|z l]; [intros []|]. cbn [skipn]. intros H. right. now apply IH.
Qed.

Lemma firstn_plus (a b : nat) (l : list t) :
  firstn (a + b) l = (firstn a l ++ firstn b (skipn a l))%list.
Proof.
  revert l. induction a as [|a IH]; intros l; [reflexivity|].
  destruct l as [|x l]; [cbn; now rewrite firstn_nil|].
  cbn [Nat.add firstn skipn app]. now rewrite IH.
Qed.

Lemma email_is_eq (v : string) (p : Party) :
  email_is v p = true <-> email p = Some v.
Proof.
  unfold email_is. destruct (email p) as [e|].
  - rewrite String.eqb_eq.
    split; [intros ->; reflexivity|intros [= ->]; reflexivity].
  - split; discriminate.
Qed.

Lemma myQuery_true (reqUser : User.t) (status : option Status) (s : t) :
  Routes.myQuery reqUser status s = true <->
  associated reqUser s /\ isActive s = true
  /\ forall st, status = Some st -> currentStatus s = st.
Proof.
  unfold Routes.myQuery, associated.
  rewrite !andb_true_iff, !orb_true_iff, String.eqb_eq, !email_is_eq.
  destruct status as [st|].
  - rewrite Status_eqb_eq. split.
    + intros [[H1 H2] H3]. split; [tauto|]. split; [exact H2|].
      intros st0 [= <-]. exact H3.
    + intros (H1 & H2 & H3). split; [split; [tauto|exact H2]|]. now apply H3.
  - split.
    + intros [[H1 H2] _]. split; [tauto|]. split; [exact H2|]. discriminate.
    + intros (H1 & H2 & _). split; [split; [tauto|exact H2]|]. reflexivity.
Qed.

(** The listing handler, as a function of the ledger. *)
Lemma myShipments_run (reqUser : User.t) (page limit : option Z)
    (status : option Status) (w : World) :
  let page0 := Routes.parsed_or page 1 in
  let limit0 := Routes.parsed_or limit 10 in
  let matching := filter (Routes.myQuery reqUser status) (shipments w) in
  Routes.myShipments reqUser page limit status w
  = (Ok (if (page0 - 1) * limit0 <? 0 then None
         else Some {| Routes.page_shipments :=
                        firstn (Z.to_nat (Z.abs limit0))
                          (skipn (Z.to_nat ((page0 - 1) * limit0))
                             (sort_newest_first matching));
                      Routes.page_current := page0;
                      Routes.page_pages :=
                        Routes.ceil_div (Z.of_nat (List.length matching)) limit0;
                      Routes.page_total := Z.of_nat (List.length matching);
                      Routes.page_limit := limit0 |}),
     w).
Proof.
  cbn zeta. unfold Routes.myShipments, catch.
  destruct (_ <? 0); [reflexivity|].
  unfold bind, gets, ret. reflexivity.
Qed.


(** X10.  [GET /my] never throws and writes nothing.  It answers 500
    exactly when the page and limit make the skip negative.  Otherwise the
    page holds at most [|limit|] shipments, newest first, each of them
    stored, active, associated with the caller and in the requested status;
    the total is the number of all such shipments; for a positive limit the
    page count is the least number of pages that holds the total, and
    fetching pages 1 to n one after another yields the first [n * limit]
    matching shipments from the newest down, every one once all pages are
    fetched. *)
Theorem listing_is_paginated :
  forall (reqUser : User.t) (page limit : option Z) (status : option Status)
         (w : World),
    let page0 := Routes.parsed_or page 1 in
    let limit0 := Routes.parsed_or limit 10 in
    let matching := filter (Routes.myQuery reqUser status) (shipments w) in
    exists r,
      Routes.myShipments reqUser page limit status w = (Ok r, w)
      /\ (r = None <-> (page0 - 1) * limit0 < 0)
      /\ (forall p, r = Some p ->
            Routes.page_total p = Z.of_nat (List.length matching)
            /\ Routes.page_current p = page0
            /\ Routes.page_limit p = limit0
            /\ Z.of_nat (List.length (Routes.page_shipments p)) <= Z.abs limit0
            /\ newest_first (Routes.page_shipments p)
            /\ (forall s, In s (Routes.page_shipments p) ->
                  In s (shipments w) /\ isActive s = true
                  /\ associated reqUser s
                  /\ forall st, status = Some st -> currentStatus s = st)
            /\ (0 < limit0 ->
                  Routes.page_total p <= Routes.page_pages p * limit0
                  /\ Routes.page_pages p * limit0 < Routes.page_total p + limit0))
      /\ (forall n : nat,
            0 < limit0 ->
            pages_upto reqUser limit0 status n w
            = firstn (n * Z.to_nat limit0) (sort_newest_first matching)
            /\ (Z.of_nat (List.length matching) <= Z.of_nat n * limit0 ->
                Permutation (pages_upto reqUser limit0 status n w) matching)).
Proof.
  intros reqUser page limit status w page0 limit0 matching.
  pose proof (myShipments_run reqUser page limit status w) as Hrun.
  cbn zeta in Hrun. fold page0 limit0 matching in Hrun.
  eexists. split; [exact Hrun|]. split; [|split].
  - destruct (Z.ltb_spec ((page0 - 1) * limit0) 0); split; intros H0;
      try reflexivity; try discriminate; lia.
  - intros p Hp.
    destruct ((page0 - 1) * limit0 <? 0); [discriminate|].
    injection Hp as <-. cbn [Routes.page_total Routes.page_current
      Routes.page_limit Routes.page_shipments Routes.page_pages].
    split; [reflexivity|]. split; [reflexivity|]. split; [reflexivity|].
    split.
    { rewrite length_firstn. lia. }
    split.
    { apply firstn_sorted, skipn_sorted, sort_newest_first_sorted. }
    split.
    { intros s Hin. apply in_firstn, in_skipn in Hin.
      apply (proj1 (in_sort_newest_first _ _)) in Hin.
      apply filter_In in Hin as [Hin Hq]. apply myQuery_true in Hq.
      destruct Hq as (H1 & H2 & H3). now repeat split. }
    intros Hpos. unfold Routes.ceil_div.
    set (total := Z.of_nat (List.length matching)).
    pose proof (Z.div_mod (total + limit0 - 1) limit0 ltac:(lia)) as Hdm.
    pose proof (Z.mod_pos_bound (total + limit0 - 1) limit0 Hpos) as Hmb.
    split; nia.
  - intros n Hpos.
    assert (Hparsed : Routes.parsed_or (Some limit0) 10 = limit0).
    { unfold Routes.parsed_or. destruct limit0; try reflexivity. lia. }
    assert (Hsame : forall k : nat,
               filter (Routes.myQuery reqUser status) (shipments w) = matching)
      by reflexivity.
    assert (Heq : pages_upto reqUser limit0 status n w
                  = firstn (n * Z.to_nat limit0) (sort_newest_first matching)).
    { induction n as [|n IH]; [reflexivity|].
      cbn [pages_upto]. rewrite IH.
      rewrite (myShipments_run reqUser (Some (Z.of_nat (S n))) (Some limit0) status w).
      cbn zeta. rewrite Hparsed.
      assert (Hpage : Routes.parsed_or (Some (Z.of_nat (S n))) 1 = Z.of_nat (S n)).
      { unfold Routes.parsed_or. destruct (Z.of_nat (S n)) eqn:E; try reflexivity. lia. }
      rewrite Hpage.
      destruct (Z.ltb_spec ((Z.of_nat (S n) - 1) * limit0) 0) as [Hneg|_]; [nia|].
      cbn [fst Routes.page_shipments]. fold matching.
      replace (Z.to_nat ((Z.of_nat (S n) - 1) * limit0))
        with (n * Z.to_nat limit0)%nat by nia.
      replace (Z.to_nat (Z.abs limit0)) with (Z.to_nat limit0) by lia.
      replace (S n * Z.to_nat limit0)%nat
        with (n * Z.to_nat limit0 + Z.to_nat limit0)%nat by lia.
      now rewrite firstn_plus. }
    split; [exact Heq|].
    intros Hall. rewrite Heq, firstn_all2.
    + apply sort_newest_first_perm.
    + rewrite (Permutation_length (sort_newest_first_perm matching)). nia.
Qed.

End ListingFacts.

(** ** Dashboard *)

Section DashboardFacts.
Import Shipment.
Import Dashboard.

Ltac status_cases :=
  repeat match goal with
  | |- context [Status_eqb ?a ?b] =>
      let v := eval vm_compute in (Status_eqb a b) in
      change (Status_eqb a b) with v
  end;
  cbv iota.

Lemma filter_both (p q : t -> bool) (l : list t) :
  filter (fun s => p s && q s) l = filter p (filter q l).
Proof.
  induction l as [|x l IH]; [reflexivity|]. cbn [filter].
  destruct (q x); cbn [filter]; rewrite ?andb_true_r, ?andb_false_r;
    [destruct (p x)|]; now rewrite IH.
Qed.

Lemma filter_length_both (p q : t -> bool) (l : list t) :
  (List.length (filter (fun s => p s && q s) l) <= List.length (filter q l))%nat.
Proof. rewrite filter_both. apply filter_length_le. Qed.

Lemma tally_cons (st : Status) (x : t) (l : list t) :
  tally st (x :: l)
  = (if Status_eqb (currentStatus x) st then 1 else 0) + tally st l.
Proof.
  unfold tally. cbn [filter].
  destruct (Status_eqb (currentStatus x) st); cbn [List.length]; lia.
Qed.

Lemma tally_total (l : list t) :
  Z.of_nat (List.length l)
  = tally OrderPlaced l + tally InTransit l + tally OutForDelivery l
    + tally Delivered l + tally Returned l + tally Cancelled l
    + tally Exception l.
Proof.
  induction l as [|x l IH]; [reflexivity|].
  rewrite !tally_cons. cbn [List.length]. rewrite Nat2Z.inj_succ, IH.
  destruct (currentStatus x); status_cases; lia.
Qed.

Lemma tally_nonneg (st : Status) (l : list t) : 0 <= tally st l.
Proof. unfold tally. lia. Qed.

Lemma status_in_open (l : list t) :
  Z.of_nat (List.length (filter (status_in [OrderPlaced; InTransit; OutForDelivery]) l))
  = tally OrderPlaced l + tally InTransit l + tally OutForDelivery l.
Proof.
  induction l as [|x l IH]; [reflexivity|].
  rewrite !tally_cons. cbn [filter]. unfold status_in at 1. cbn [existsb].
  destruct (currentStatus x); status_cases; cbn [orb List.length];
    rewrite ?Nat2Z.inj_succ; lia.
Qed.

Lemma not_closed_bound (q : t -> bool) (l : list t) :
  Z.of_nat (List.length
              (filter (fun s => negb (status_in [Delivered; Cancelled; Returned] s)
                                && q s) l))
  <= tally OrderPlaced l + tally InTransit l + tally OutForDelivery l
     + tally Exception l.
Proof.
  induction l as [|x l IH]; [cbn; lia|].
  rewrite !tally_cons. cbn [filter]. unfold status_in at 1. cbn [existsb].
  destruct (currentStatus x); status_cases; cbn [orb negb andb];
    destruct (q x); cbn [List.length]; rewrite ?Nat2Z.inj_succ; lia.
Qed.

Lemma count_of_bump (st k : Status) (acc : list (Status * Z)) :
  count_of st (bump k acc)
  = count_of st acc + (if Status_eqb k st then 1 else 0).
Proof.
  unfold count_of. induction acc as [|[k0 n] acc IH]; cbn [bump find fst snd].
  - destruct (Status_eqb k st); cbn; lia.
  - destruct (Status_eqb k0 k) eqn:E0; cbn [find fst snd].
    + apply Status_eqb_eq in E0. subst k0.
      destruct (Status_eqb k st); cbn; lia.
    + destruct (Status_eqb k0 st) eqn:E1; cbn [snd].
      * apply Status_eqb_eq in E1. subst k0.
        destruct (Status_eqb k st) eqn:E2; [|lia].
        apply Status_eqb_eq in E2. subst k.
        apply Status_eqb_neq in E0. now elim E0.
      * exact IH.
Qed.

Lemma count_of_fold (st : Status) (l : list t) :
  forall acc,
    count_of st (fold_left (fun a s => bump (currentStatus s) a) l acc)
    = count_of st acc + tally st l.
Proof.
  induction l as [|x l IH]; intros acc; cbn [fold_left].
  - unfold tally. cbn. lia.
  - rewrite IH, count_of_bump, tally_cons. lia.
Qed.

Lemma bump_keys (k : Status) (acc : list (Status * Z)) :
  NoDup (map fst acc) -> (forall kv, In kv acc -> 1 <= snd kv) ->
  NoDup (map fst (bump k acc))
  /\ (forall kv, In kv (bump k acc) -> 1 <= snd kv)
  /\ (forall k', In k' (map fst (bump k acc)) -> k' = k \/ In k' (map fst acc)).
Proof.
  induction acc as [|[k0 n] acc IH]; intros Hnd Hpos; cbn [bump].
  - split; [constructor; [intros []|constructor]|].
    split; [intros kv [<-|[]]; cbn; lia|].
    intros k' [<-|[]]. now left.
  - destruct (Status_eqb k0 k) eqn:E0.
    + split; [exact Hnd|]. split.
      * intros kv [<-|Hin]; [|apply Hpos; now right].
        cbn [snd]. specialize (Hpos (k0, n) (or_introl eq_refl)). cbn in Hpos. lia.
      * intros k' Hin. now right.
    + cbn [map fst] in *. inversion Hnd as [|? ? Hk0 Hacc]; subst.
      destruct (IH Hacc (fun kv H => Hpos kv (or_intror H))) as (I1 & I2 & I3).
      split; [|split].
      * constructor; [|exact I1]. intros Hin.
        apply I3 in Hin as [->|Hin]; [|contradiction].
        apply Status_eqb_neq in E0. now apply E0.
      * intros kv [<-|Hin]; [apply Hpos; now left|now apply I2].
      * intros k' [<-|Hin]; [right; now left|].
        apply I3 in Hin as [->|Hin]; [now left|right; now right].
Qed.

Lemma group_keys (l : list t) :
  forall acc,
    NoDup (map fst acc) -> (forall kv, In kv acc -> 1 <= snd kv) ->
    NoDup (map fst (fold_left (fun a s => bump (currentStatus s) a) l acc))
    /\ (forall kv, In kv (fold_left (fun a s => bump (currentStatus s) a) l acc) ->
                   1 <= snd kv).
Proof.
  induction l as [|x l IH]; intros acc Hnd Hpos; cbn [fold_left].
  - now split.
  - destruct (bump_keys (currentStatus x) acc Hnd Hpos) as (B1 & B2 & _).
    now apply IH.
Qed.

(** X11.  The dashboard handler never throws and writes nothing.  The
    total is the number of active shipments; the breakdown has one entry,
    with a positive count, for each status that occurs among them, and its
    counts are the per-status numbers, so they add up to the total; the
    delivered figure is the breakdown's Delivered entry, the active figure
    the sum of its Order Placed, In Transit and Out for Delivery entries;
    the delayed figure is at most the active figure plus the Exception
    entry; and today's figure is at most the total. *)
Theorem dashboard_counts_agree :
  forall (tz : Z) (w : World),
    exists st w',
      stats tz w = (Ok (Some st), w')
      /\ shipments w' = shipments w
      /\ totalShipments st
         = Z.of_nat (List.length (filter isActive (shipments w)))
      /\ (forall k, count_of k (statusBreakdown st)
                    = tally k (filter isActive (shipments w)))
      /\ NoDup (map fst (statusBreakdown st))
      /\ (forall kv, In kv (statusBreakdown st) -> 1 <= snd kv)
      /\ totalShipments st
         = count_of OrderPlaced (statusBreakdown st)
           + count_of InTransit (statusBreakdown st)
           + count_of OutForDelivery (statusBreakdown st)
           + count_of Delivered (statusBreakdown st)
           + count_of Returned (statusBreakdown st)
           + count_of Cancelled (statusBreakdown st)
           + count_of Exception (statusBreakdown st)
      /\ deliveredShipments st = count_of Delivered (statusBreakdown st)
      /\ activeShipments st
         = count_of OrderPlaced (statusBreakdown st)
           + count_of InTransit (statusBreakdown st)
           + count_of OutForDelivery (statusBreakdown st)
      /\ 0 <= delayedShipments st
           <= activeShipments st + count_of Exception (statusBreakdown st)
      /\ 0 <= todayShipments st <= totalShipments st.
Proof.
  intros tz w. unfold stats, catch, countDocuments.
  unfold bind, gets, ret, Date_now. cbn [getClock setClock World_clock clock shipments].
  eexists. eexists. split; [reflexivity|].
  cbn [totalShipments todayShipments activeShipments deliveredShipments
       delayedShipments statusBreakdown shipments].
  set (l := shipments w). set (a := filter isActive l).
  assert (Hcount : forall k, count_of k (group_by_status a) = tally k a).
  { intros k. unfold group_by_status. rewrite count_of_fold. reflexivity. }
  destruct (group_keys a [] ltac:(constructor) ltac:(intros kv []))
    as (Hnd & Hpos).
  assert (Hact : Z.of_nat (List.length
                             (filter (fun s => status_in [OrderPlaced; InTransit; OutForDelivery] s
                                               && isActive s) l))
                 = tally OrderPlaced a + tally InTransit a + tally OutForDelivery a).
  { rewrite filter_both. apply status_in_open. }
  assert (Hdel : forall t1,
             Z.of_nat (List.length
                         (filter (fun s => negb (status_in [Delivered; Cancelled; Returned] s)
                                           && (estimatedDelivery (service s) <? t1)
                                           && isActive s) l))
             <= tally OrderPlaced a + tally InTransit a + tally OutForDelivery a
                + tally Exception a).
  { intros t1.
    rewrite (filter_both
               (fun s => negb (status_in [Delivered; Cancelled; Returned] s)
                         && (estimatedDelivery (service s) <? t1)) isActive l).
    apply not_closed_bound. }
  split; [reflexivity|]. split; [reflexivity|]. split; [exact Hcount|].
  split; [exact Hnd|]. split; [exact Hpos|].
  rewrite !Hcount, Hact.
  split; [apply tally_total|].
  split; [unfold tally; now rewrite filter_both|].
  split; [reflexivity|].
  split; [split; [lia|apply Hdel]|].
  split; [lia|].
  apply inj_le. apply filter_length_both.
Qed.

End DashboardFacts.

(** ** Accounts *)

Section AccountFacts.
Import User.

Variable bcrypt_compare : string -> string -> bool.
Variable jwt_sign : ObjectId -> string.
Variable isEmail : string -> bool.
Variable normalizeEmail : string -> string.

Local Abbreviation check := (findByCredentials bcrypt_compare).
Local Abbreviation login_ := (Auth.login bcrypt_compare jwt_sign isEmail normalizeEmail).

Lemma same_identity_refl (a : t) : same_identity a a.
Proof. repeat split. Qed.

Lemma same_identity_trans (a b c : t) :
  same_identity a b -> same_identity b c -> same_identity a c.
Proof.
  unfold same_identity. intros H1 H2.
  decompose [and] H1. decompose [and] H2. repeat split; congruence.
Qed.

Lemma only_bookkeeping_refl (id : option ObjectId) (l : list t) :
  only_bookkeeping id l l.
Proof.
  unfold only_bookkeeping. induction l as [|x l IH]; constructor;
    [split; [apply same_identity_refl|reflexivity]|exact IH].
Qed.

Lemma only_bookkeeping_trans (id : option ObjectId) (l1 l2 l3 : list t) :
  only_bookkeeping id l1 l2 -> only_bookkeeping id l2 l3 ->
  only_bookkeeping id l1 l3.
Proof.
  unfold only_bookkeeping. intros H12. revert l3.
  induction H12 as [|a b l1 l2 [Hab Hab'] _ IH]; intros l3 H23;
    inversion H23 as [|? c ? l3' [Hbc Hbc'] H23']; subst; constructor.
  - split; [now apply (same_identity_trans a b c)|].
    intros N. rewrite (Hab' N). apply Hbc'.
    rewrite <- (Hab' N). exact N.
  - now apply IH.
Qed.

Lemma update_first_bookkeeping (id : ObjectId) (f : t -> t) (l : list t) :
  (forall x, same_identity x (f x)) ->
  only_bookkeeping (Some id) l (update_first id f l).
Proof.
  intros Hf. unfold only_bookkeeping.
  induction l as [|x l IH]; cbn [update_first]; [constructor|].
  destruct (String.eqb_spec (_id x) id) as [E|N].
  - constructor; [|apply only_bookkeeping_refl].
    split; [apply Hf|]. intros N. exfalso. apply N. now rewrite E.
  - constructor; [|exact IH].
    split; [apply same_identity_refl|reflexivity].
Qed.

Lemma bookkeeping_ret (id : ObjectId) {A : Type} (a : A) :
  bookkeeping_only id (ret a).
Proof. intros w. apply only_bookkeeping_refl. Qed.

Lemma bookkeeping_throw (id : ObjectId) {A : Type} (e : Exn) :
  bookkeeping_only id (@throw World A e).
Proof. intros w. apply only_bookkeeping_refl. Qed.

Lemma bookkeeping_now (id : ObjectId) : bookkeeping_only id (@Date_now World _).
Proof. intros w. apply only_bookkeeping_refl. Qed.

Lemma bookkeeping_bind (id : ObjectId) {A B : Type} (m : M World A)
    (k : A -> M World B) :
  bookkeeping_only id m -> (forall a, bookkeeping_only id (k a)) ->
  bookkeeping_only id (bind m k).
Proof.
  intros Hm Hk w. unfold bind. specialize (Hm w).
  destruct (m w) as [[a|e] w1]; cbn [snd] in *; [|exact Hm].
  apply (only_bookkeeping_trans _ _ (users w1)); [exact Hm|apply Hk].
Qed.

Lemma bookkeeping_updateOne (u : t) (f : t -> t) :
  (forall x, same_identity x (f x)) -> bookkeeping_only (_id u) (updateOne u f).
Proof. intros Hf w. cbn. now apply update_first_bookkeeping. Qed.

Lemma bookkeeping_isLocked (id : ObjectId) (u : t) :
  bookkeeping_only id (isLocked u).
Proof.
  unfold isLocked. destruct (lockUntil u).
  - apply bookkeeping_bind; [apply bookkeeping_now|intros; apply bookkeeping_ret].
  - apply bookkeeping_ret.
Qed.

Lemma bookkeeping_incLoginAttempts (u : t) :
  bookkeeping_only (_id u) (incLoginAttempts u).
Proof.
  unfold incLoginAttempts. apply bookkeeping_bind.
  - destruct (lockUntil u).
    + apply bookkeeping_bind; [apply bookkeeping_now|intros; apply bookkeeping_ret].
    + apply bookkeeping_ret.
  - intros [|].
    + apply bookkeeping_updateOne. intros x. repeat split.
    + apply bookkeeping_bind.
      * destruct (maxAttempts <=? _); [|apply bookkeeping_ret].
        apply bookkeeping_bind; [apply bookkeeping_isLocked|].
        intros [|]; cbn [negb]; [apply bookkeeping_ret|].
        apply bookkeeping_bind; [apply bookkeeping_now|intros; apply bookkeeping_ret].
      * intros [l|]; apply bookkeeping_updateOne; intros x; repeat split.
Qed.

Lemma bookkeeping_check (e p : string) (w : World) :
  only_bookkeeping (option_map _id (find (active_with_email e) (users w)))
    (users w) (users (snd (check e p w))).
Proof.
  unfold findByCredentials, findOne. unfold bind at 1. unfold gets.
  change (fun u => String.eqb (email u) (toLowerCase e) && isActive u)
    with (active_with_email e).
  destruct (find (active_with_email e) (users w)) as [u|];
    [|apply only_bookkeeping_refl].
  cbn [option_map].
  revert w. change (bookkeeping_only (_id u)
    (locked <- isLocked u ;;
     if locked then throw account_locked
     else if negb (comparePassword bcrypt_compare u p) then
            incLoginAttempts u ;;; throw invalid_credentials
          else
            (if 0 <? getLoginAttempts u then resetLoginAttempts u else ret tt) ;;;
            updateLastLogin u ;;; ret u)).
  apply bookkeeping_bind; [apply bookkeeping_isLocked|].
  intros [|]; [apply bookkeeping_throw|].
  destruct (negb _).
  - apply bookkeeping_bind; [apply bookkeeping_incLoginAttempts|].
    intros; apply bookkeeping_throw.
  - apply bookkeeping_bind.
    + destruct (0 <? _); [|apply bookkeeping_ret].
      apply bookkeeping_updateOne. intros x. repeat split.
    + intros _. apply bookkeeping_bind; [|intros; apply bookkeeping_ret].
      unfold updateLastLogin.
      apply bookkeeping_bind; [apply bookkeeping_now|].
      intros t0. apply bookkeeping_updateOne. intros x. repeat split.
Qed.

(** The login handler answers from the outcome of [findByCredentials] and
    writes nothing of its own. *)
Lemma login_run (email0 password0 : string) (w : World) :
  (Auth.login_errors isEmail email0 password0 <> [] ->
     login_ email0 password0 w
     = (Ok (Auth.validation_failed (Auth.login_errors isEmail email0 password0)), w))
  /\ (Auth.login_errors isEmail email0 password0 = [] ->
      login_ email0 password0 w
      = (Ok match fst (check (normalizeEmail email0) password0 w) with
            | Ok u => Auth.Success 200 "Login successful"
                        (Some (jwt_sign (_id u))) (Some u)
            | Throw e =>
                if Auth.includes "Invalid login credentials" (Auth.message_of e)
                then Auth.invalid_reply
                else if Auth.includes "Account temporarily locked" (Auth.message_of e)
                     then Auth.locked_reply
                     else Auth.Failure 500 "Server error"
                            "Something went wrong during login" []
            end,
         snd (check (normalizeEmail email0) password0 w))).
Proof.
  unfold Auth.login, catch. split; intros H.
  - destruct (Auth.login_errors isEmail email0 password0); [now elim H|].
    reflexivity.
  - rewrite H. unfold bind.
    destruct (check (normalizeEmail email0) password0 w) as [[u|e] w1];
      cbn [fst snd]; [reflexivity|].
    destruct (Auth.includes "Invalid login credentials" (Auth.message_of e));
      [reflexivity|].
    destruct (Auth.includes "Account temporarily locked" (Auth.message_of e));
      reflexivity.
Qed.

Lemma login_errors_nil (email0 password0 : string) :
  Auth.login_errors isEmail email0 password0 = []
  <-> isEmail email0 = true /\ password0 <> "".
Proof.
  unfold Auth.login_errors.
  destruct (isEmail email0); destruct (String.eqb_spec password0 "");
    cbn; split; try discriminate; try tauto; intros [H1 H2]; try discriminate;
    contradiction.
Qed.

(** X13.  A login, through the model method or through the handler,
    rewrites at most the account it finds, and of that one only the attempt
    counter, the lock and the last-login time: the accounts stay in number
    and order, every other account is exactly as it was, and no account
    changes its identifier, name, email, phone, password, role or active
    flag.  When no account is found nothing is written. *)
Theorem login_touches_only_bookkeeping :
  forall (w : World) (email0 password0 : string),
    only_bookkeeping
      (option_map _id (find (active_with_email email0) (users w)))
      (users w) (users (snd (check email0 password0 w)))
    /\ only_bookkeeping
         (option_map _id (find (active_with_email (normalizeEmail email0)) (users w)))
         (users w) (users (snd (login_ email0 password0 w)))
    /\ (find (active_with_email email0) (users w) = None ->
        users (snd (check email0 password0 w)) = users w).
Proof.
  intros w email0 password0.
  pose proof (bookkeeping_check email0 password0 w) as Hcheck.
  split; [exact Hcheck|]. split.
  - destruct (login_run email0 password0 w) as [Hbad Hgood].
    destruct (Auth.login_errors isEmail email0 password0) eqn:E.
    + rewrite (Hgood eq_refl). cbn [snd]. apply bookkeeping_check.
    + rewrite Hbad by discriminate. apply only_bookkeeping_refl.
  - intros Hnone. rewrite Hnone in Hcheck. cbn [option_map] in Hcheck.
    unfold only_bookkeeping in Hcheck. clear Hnone.
    induction Hcheck as [|a b l l' [_ Hab] _ IH]; [reflexivity|].
    rewrite <- (Hab ltac:(discriminate)), IH. reflexivity.
Qed.

Lemma incLoginAttempts_returns (u : t) (w : World) :
  exists w', incLoginAttempts u w = (Ok tt, w').
Proof.
  unfold incLoginAttempts, isLocked, updateOne, bind, ret, modify, Date_now.
  destruct (lockUntil u) as [l|]; cbn [getClock setClock World_clock clock users].
  - destruct (l <? _); [eexists; reflexivity|].
    destruct (maxAttempts <=? _); [|eexists; reflexivity].
    destruct (_ <? l); cbn [negb]; eexists; reflexivity.
  - destruct (maxAttempts <=? _); eexists; reflexivity.
Qed.

Lemma check_unfold (e p : string) (w : World) :
  check e p w
  = match find (active_with_email e) (users w) with
    | None => (Throw invalid_credentials, w)
    | Some u =>
        (locked <- isLocked u ;;
         if locked then throw account_locked
         else if negb (comparePassword bcrypt_compare u p) then
                incLoginAttempts u ;;; throw invalid_credentials
              else
                (if 0 <? getLoginAttempts u then resetLoginAttempts u else ret tt) ;;;
                updateLastLogin u ;;; ret u) w
    end.
Proof.
  unfold findByCredentials, findOne. unfold bind at 1. unfold gets.
  change (fun u => String.eqb (email u) (toLowerCase e) && isActive u)
    with (active_with_email e).
  destruct (find (active_with_email e) (users w)); reflexivity.
Qed.

(** How [findByCredentials] ends. *)
Lemma check_result (e p : string) (w : World) :
  match find (active_with_email e) (users w) with
  | None => check e p w = (Throw invalid_credentials, w)
  | Some u =>
      (forall l, lockUntil u = Some l -> now (clock w) < l ->
         check e p w
         = (Throw account_locked, {| clock := after (clock w); users := users w |}))
      /\ (not_locked_at u (now (clock w)) ->
          comparePassword bcrypt_compare u p = false ->
          fst (check e p w) = Throw invalid_credentials)
      /\ (not_locked_at u (now (clock w)) ->
          comparePassword bcrypt_compare u p = true ->
          fst (check e p w) = Ok u)
  end.
Proof.
  rewrite check_unfold.
  destruct (find (active_with_email e) (users w)) as [u|]; [|reflexivity].
  split; [|split].
  - intros l Hl Hlt. unfold isLocked. rewrite Hl.
    unfold bind, ret, throw, Date_now. cbn [getClock setClock World_clock].
    now rewrite (proj2 (Z.ltb_lt _ _) Hlt).
  - intros Hnl Hc. unfold bind at 1.
    assert (Hunlocked : exists w1, isLocked u w = (Ok false, w1)).
    { unfold isLocked. destruct (lockUntil u) as [l|] eqn:Hl.
      - unfold bind, ret, Date_now. cbn [getClock setClock World_clock].
        rewrite (proj2 (Z.ltb_ge _ _) (Hnl l Hl)). eexists; reflexivity.
      - eexists; reflexivity. }
    destruct Hunlocked as (w1 & ->). rewrite Hc. cbn [negb].
    unfold bind at 1. destruct (incLoginAttempts_returns u w1) as (w2 & ->).
    reflexivity.
  - intros Hnl Hc. unfold bind at 1.
    assert (Hunlocked : exists w1, isLocked u w = (Ok false, w1)).
    { unfold isLocked. destruct (lockUntil u) as [l|] eqn:Hl.
      - unfold bind, ret, Date_now. cbn [getClock setClock World_clock].
        rewrite (proj2 (Z.ltb_ge _ _) (Hnl l Hl)). eexists; reflexivity.
      - eexists; reflexivity. }
    destruct Hunlocked as (w1 & ->). rewrite Hc. cbn [negb].
    unfold resetLoginAttempts, updateLastLogin, updateOne, bind, ret, modify,
      Date_now.
    destruct (0 <? getLoginAttempts u); reflexivity.
Qed.

(** X14.  [POST /login] answers 400 to a request its validators reject,
    before any account is looked at.  Otherwise an address that no active
    account has and a wrong password for an unlocked account get the same
    401 answer; an account whose lock lies in the future gets 423 whatever
    the password, and nothing is written; the right password for an unlocked
    account gets 200 with a token signed for that account's identifier,
    together with the account as it was found, before this login was
    recorded.  No other status is sent. *)
Theorem login_reply_classes :
  forall (w : World) (email0 password0 : string),
    let found := find (active_with_email (normalizeEmail email0)) (users w) in
    let run := login_ email0 password0 w in
    (isEmail email0 = false \/ password0 = "" ->
       exists details,
         run = (Ok (Auth.Failure 400 "Validation failed"
                      "Please check your input" details), w))
    /\ (isEmail email0 = true -> password0 <> "" ->
        (found = None -> run = (Ok Auth.invalid_reply, w))
        /\ (forall u, found = Some u ->
              (forall l, lockUntil u = Some l -> now (clock w) < l ->
                 fst run = Ok Auth.locked_reply
                 /\ users (snd run) = users w)
              /\ (not_locked_at u (now (clock w)) ->
                  comparePassword bcrypt_compare u password0 = false ->
                  fst run = Ok Auth.invalid_reply)
              /\ (not_locked_at u (now (clock w)) ->
                  comparePassword bcrypt_compare u password0 = true ->
                  fst run = Ok (Auth.Success 200 "Login successful"
                                  (Some (jwt_sign (_id u))) (Some u)))))
    /\ (exists reply,
          fst run = Ok reply
          /\ (Auth.status_of reply = 200 \/ Auth.status_of reply = 400
              \/ Auth.status_of reply = 401 \/ Auth.status_of reply = 423)).
Proof.
  intros w email0 password0 found run. subst found run.
  destruct (login_run email0 password0 w) as [Hbad Hgood].
  pose proof (login_errors_nil email0 password0) as Hnil.
  pose proof (check_result (normalizeEmail email0) password0 w) as Hres.
  split; [|split].
  - intros Hinvalid. eexists. apply Hbad. intros E. apply Hnil in E as [E1 E2].
    destruct Hinvalid; congruence.
  - intros H1 H2. rewrite (Hgood (proj2 Hnil (conj H1 H2))).
    clear Hbad Hgood Hnil. split.
    + intros Hnone. rewrite Hnone in Hres. now rewrite Hres.
    + intros u Hu. rewrite Hu in Hres. destruct Hres as (R1 & R2 & R3).
      split; [|split].
      * intros l Hl Hlt. now rewrite (R1 l Hl Hlt).
      * intros Hnl Hc. cbn [fst]. now rewrite (R2 Hnl Hc).
      * intros Hnl Hc. cbn [fst]. now rewrite (R3 Hnl Hc).
  - destruct (Auth.login_errors isEmail email0 password0) eqn:E.
    + rewrite (Hgood eq_refl). cbn [fst].
      destruct (find _ (users w)) as [u|] eqn:Hu.
      * destruct Hres as (R1 & R2 & R3).
        assert (Hcases : (exists l, lockUntil u = Some l /\ now (clock w) < l)
                         \/ not_locked_at u (now (clock w))).
        { unfold not_locked_at. destruct (lockUntil u) as [l|].
          - destruct (Z.lt_ge_cases (now (clock w)) l) as [Hlt|Hge].
            + left. now exists l.
            + right. intros l0 [= <-]. exact Hge.
          - right. intros l0 N. discriminate N. }
        destruct Hcases as [(l & Hl & Hlt)|Hnl].
        -- rewrite (R1 l Hl Hlt). eexists. split; [reflexivity|].
           cbn. tauto.
        -- destruct (comparePassword bcrypt_compare u password0) eqn:Hc.
           ++ rewrite (R3 Hnl eq_refl). eexists. split; [reflexivity|].
              cbn. tauto.
           ++ rewrite (R2 Hnl eq_refl). eexists. split; [reflexivity|].
              cbn. tauto.
      * rewrite Hres. eexists. split; [reflexivity|]. cbn. tauto.
    + rewrite Hbad by discriminate. eexists. split; [reflexivity|]. cbn. tauto.
Qed.




Lemma invalid_message_class :
  Auth.includes "Invalid login credentials" (Auth.message_of invalid_credentials)
  = true.
Proof. reflexivity. Qed.



Lemma lower_ascii_idem (c : ascii) : lower_ascii (lower_ascii c) = lower_ascii c.
Proof. destruct c as [[] [] [] [] [] [] [] []]; reflexivity. Qed.

Lemma toLowerCase_idem (s : string) : toLowerCase (toLowerCase s) = toLowerCase s.
Proof.
  unfold toLowerCase. induction s as [|c s IH]; simpl; [reflexivity|].
  now rewrite lower_ascii_idem, IH.
Qed.

Variable bcrypt_hash : string -> string -> string.

Local Abbreviation register_ :=
  (Auth.register bcrypt_hash jwt_sign isEmail normalizeEmail).

(** [saveNew], outcome by outcome. *)
Lemma saveNew_cases (salt : string) (u : t) (w : World) :
  Auth.saveNew bcrypt_hash salt u w
  = match Auth.schema_errors u with
    | [] =>
        let w1 := {| clock := after (clock w); users := users w |} in
        let u' := Auth.set_password (bcrypt_hash salt (password u)) u in
        if existsb (Auth.same_id (_id u)) (users w) then
          (Throw (DuplicateKey "_id"), w1)
        else if existsb (Auth.same_email (email u)) (users w) then
          (Throw (DuplicateKey "email"), w1)
        else if existsb (Auth.same_phone (phone u)) (users w) then
          (Throw (DuplicateKey "phone"), w1)
        else
          (Ok u', {| clock := after (clock w); users := (users w ++ [u'])%list |})
    | e :: errors => (Throw (ValidationError (String.concat "; " (e :: errors))), w)
    end.
Proof.
  unfold Auth.saveNew. destruct (Auth.schema_errors u); [|reflexivity].
  unfold Auth.insertOne, bind, gets, modify, ret, throw, Date_now.
  cbn [getClock setClock World_clock clock users Auth.set_password _id email phone].
  destruct (existsb (Auth.same_id (_id u)) (users w)); [reflexivity|].
  destruct (existsb (Auth.same_email (email u)) (users w)); [reflexivity|].
  destruct (existsb (Auth.same_phone (phone u)) (users w)); reflexivity.
Qed.

Lemma existsb_false_all (p : t -> bool) (l : list t) :
  existsb p l = false -> forall x, In x l -> p x = false.
Proof.
  intros H x Hx. destruct (p x) eqn:E; [|reflexivity].
  assert (existsb p l = true) by (apply existsb_exists; now exists x).
  congruence.
Qed.

(** The registration handler, outcome by outcome. *)
Lemma register_cases :
  forall (salt : string) (id : ObjectId) (b : Auth.Registration) (w : World),
    let email1 := toLowerCase (normalizeEmail (Auth.r_email b)) in
    let taken := fun x => String.eqb (email x) email1
                          || String.eqb (phone x) (Auth.r_phone b) in
    let candidate := Auth.newUser id (trim (Auth.r_fullName b)) email1
                       (Auth.r_phone b) (Auth.r_password b) in
    exists reply w',
      register_ salt id b w = (Ok reply, w')
      /\ (Auth.status_of reply = 201 \/ Auth.status_of reply = 400
          \/ Auth.status_of reply = 500)
      /\ (Auth.status_of reply <> 201 -> users w' = users w)
      /\ (Auth.registration_errors isEmail b <> [] ->
            reply = Auth.validation_failed (Auth.registration_errors isEmail b)
            /\ w' = w)
      /\ (Auth.registration_errors isEmail b = [] ->
          forall x, find taken (users w) = Some x ->
            w' = w
            /\ reply = Auth.Failure 400 "User already exists"
                         (if String.eqb (email x) email1
                          then "A user with this email already exists"
                          else "A user with this phone already exists") [])
      /\ (Auth.registration_errors isEmail b = [] ->
          find taken (users w) = None ->
          Auth.schema_errors candidate <> [] ->
            Auth.status_of reply = 500)
      /\ (Auth.status_of reply = 201 ->
            exists u,
              users w' = (users w ++ [u])%list
              /\ reply = Auth.Success 201 "User registered successfully"
                           (Some (jwt_sign id)) (Some u)
              /\ u = Auth.set_password (bcrypt_hash salt (Auth.r_password b)) candidate
              /\ Auth.registration_errors isEmail b = []
              /\ Auth.schema_errors candidate = []
              /\ forall x, In x (users w) ->
                   _id x <> id /\ email x <> email u /\ phone x <> phone u
                   /\ email x <> email1)
      /\ (distinct_accounts (users w) -> distinct_accounts (users w')).
Proof.
  intros salt id b w email1 taken candidate.
  unfold Auth.register, catch.
  destruct (Auth.registration_errors isEmail b) as [|e errors] eqn:Herr.
  2:{ unfold ret. eexists. eexists. split; [reflexivity|].
      cbn [Auth.status_of Auth.validation_failed].
      split; [right; now left|]. split; [reflexivity|].
      split; [now split|]. split; [discriminate|]. split; [discriminate|].
      split; [discriminate|]. trivial. }
  unfold bind at 1. unfold findOne, gets. fold email1. fold taken.
  destruct (find taken (users w)) as [x|] eqn:Hfind.
  { unfold ret. eexists. eexists. split; [reflexivity|].
    cbn [Auth.status_of].
    split; [right; now left|]. split; [reflexivity|].
    split; [intros N; now elim N|]. split.
    { intros _ x0 [= <-]. split; [reflexivity|].
      destruct (String.eqb (email x) email1); reflexivity. }
    split; [discriminate|]. split; [discriminate|]. trivial. }
  unfold bind at 1. fold candidate. rewrite saveNew_cases.
  destruct (Auth.schema_errors candidate) as [|e errors] eqn:Hschema.
  2:{ unfold ret. eexists. eexists. split; [reflexivity|].
      cbn [Auth.status_of].
      split; [right; now right|]. split; [reflexivity|].
      split; [intros N; now elim N|]. split; [discriminate|].
      split; [reflexivity|]. split; [discriminate|]. trivial. }
  cbn zeta.
  destruct (existsb (Auth.same_id (_id candidate)) (users w)) eqn:E1;
    [|destruct (existsb (Auth.same_email (email candidate)) (users w)) eqn:E2;
      [|destruct (existsb (Auth.same_phone (phone candidate)) (users w)) eqn:E3]];
    try (unfold ret; eexists; eexists; (split; [reflexivity|]);
         cbn [Auth.status_of users];
         (split; [right; now left|]); (split; [reflexivity|]);
         (split; [intros N; now elim N|]); (split; [discriminate|]);
         (split; [intros _ _ N; now elim N|]); (split; [discriminate|]);
         trivial).
  unfold ret. eexists. eexists. split; [reflexivity|].
  cbn [Auth.status_of users].
  assert (Hfresh : forall x, In x (users w) ->
                     _id x <> id /\ email x <> email candidate
                     /\ phone x <> phone candidate /\ email x <> email1).
  { intros x Hx.
    pose proof (existsb_false_all _ _ E1 x Hx) as F1.
    pose proof (existsb_false_all _ _ E2 x Hx) as F2.
    pose proof (existsb_false_all _ _ E3 x Hx) as F3.
    pose proof (find_none _ _ Hfind x Hx) as F4.
    unfold Auth.same_id, Auth.same_email, Auth.same_phone in *.
    apply String.eqb_neq in F1, F2, F3.
    unfold taken in F4. apply orb_false_elim in F4 as [F4 _].
    apply String.eqb_neq in F4. now repeat split. }
  split; [now left|]. split; [intros N; now elim N|].
  split; [intros N; now elim N|]. split; [discriminate|].
  split; [intros _ _ N; now elim N|]. split.
  { intros _. eexists. split; [reflexivity|]. split; [reflexivity|].
    split; [reflexivity|]. split; [reflexivity|]. split; [reflexivity|].
    intros x Hx. destruct (Hfresh x Hx) as (F1 & F2 & F3 & F4).
    now repeat split. }
  intros (D1 & D2 & D3). unfold distinct_accounts. rewrite !map_app. cbn [map].
  split; [|split]; apply NoDup_snoc; try assumption; intros Hin;
    apply in_map_iff in Hin as (x & Hx & Hin);
    destruct (Hfresh x Hin) as (F1 & F2 & F3 & _);
    first [exact (F1 Hx)|exact (F2 Hx)|exact (F3 Hx)].
Qed.


(** X16.  Registration is all or nothing.  The handler always answers,
    with 201, 400 or 500, and unless it answers 201 the accounts are as they
    were.  A body the validators reject gets their messages back.  When an
    account already has the lower-cased address or the phone, the answer is
    400 and names the address if the first such account has it, the phone
    otherwise.  A body that passes the handler's validators with a name that
    is shorter than two characters once trimmed fails the validators of the
    schema and gets 500.  On 201 exactly one account was added at the end,
    under an identifier, address and phone that no earlier account has; so
    an account store without duplicates stays without duplicates. *)
Theorem registration_all_or_nothing :
  forall (salt : string) (id : ObjectId) (b : Auth.Registration) (w : World),
    let email1 := toLowerCase (normalizeEmail (Auth.r_email b)) in
    let taken := fun x => String.eqb (email x) email1
                          || String.eqb (phone x) (Auth.r_phone b) in
    exists reply w',
      register_ salt id b w = (Ok reply, w')
      /\ (Auth.status_of reply = 201 \/ Auth.status_of reply = 400
          \/ Auth.status_of reply = 500)
      /\ (Auth.status_of reply <> 201 -> users w' = users w)
      /\ (Auth.registration_errors isEmail b <> [] ->
            reply = Auth.validation_failed (Auth.registration_errors isEmail b)
            /\ w' = w)
      /\ (Auth.registration_errors isEmail b = [] ->
          forall x, find taken (users w) = Some x ->
            w' = w
            /\ reply = Auth.Failure 400 "User already exists"
                         (if String.eqb (email x) email1
                          then "A user with this email already exists"
                          else "A user with this phone already exists") [])
      /\ (Auth.registration_errors isEmail b = [] ->
          find taken (users w) = None ->
          (String.length (trim (trim (Auth.r_fullName b))) < 2)%nat ->
            Auth.status_of reply = 500)
      /\ (Auth.status_of reply = 201 ->
            exists u,
              users w' = (users w ++ [u])%list
              /\ _id u = id
              /\ forall x, In x (users w) ->
                   _id x <> _id u /\ email x <> email u /\ phone x <> phone u)
      /\ (distinct_accounts (users w) -> distinct_accounts (users w')).
Proof.
  intros salt id b w email1 taken.
  destruct (register_cases salt id b w)
    as (reply & w' & Hrun & Hstatus & Hkeep & Hbad & Htaken & Hschema & Hnew & Hdist).
  exists reply, w'. split; [exact Hrun|]. split; [exact Hstatus|].
  split; [exact Hkeep|]. split; [exact Hbad|]. split; [exact Htaken|].
  split; [|split; [|exact Hdist]].
  - intros Herr Hnone Hshort. apply (Hschema Herr Hnone).
    unfold Auth.schema_errors, Auth.newUser. cbn [fullName].
    destruct (String.eqb _ ""); [discriminate|].
    destruct (Nat.ltb_spec (String.length (trim (trim (Auth.r_fullName b)))) 2);
      [discriminate|lia].
  - intros H201. destruct (Hnew H201) as (u & Hw & _ & -> & _ & _ & Hfresh).
    exists (Auth.set_password (bcrypt_hash salt (Auth.r_password b))
              (Auth.newUser id (trim (Auth.r_fullName b))
                 (toLowerCase (normalizeEmail (Auth.r_email b)))
                 (Auth.r_phone b) (Auth.r_password b))).
    split; [exact Hw|]. split; [reflexivity|].
    intros x Hx. destruct (Hfresh x Hx) as (F1 & F2 & F3 & _).
    now repeat split.
Qed.

Lemma schema_errors_nil (u : t) :
  Auth.schema_errors u = [] ->
  (2 <= String.length (fullName u) <= 100)%nat
  /\ Auth.matches_email (email u) = true
  /\ Auth.ten_digits (phone u) = true
  /\ (8 <= String.length (password u))%nat.
Proof.
  unfold Auth.schema_errors. intros H.
  apply app_eq_nil in H as [H1 H]. apply app_eq_nil in H as [H2 H].
  apply app_eq_nil in H as [H3 H4].
  destruct (String.eqb (fullName u) ""); [discriminate|].
  destruct (Nat.ltb_spec (String.length (fullName u)) 2); [discriminate|].
  destruct (Nat.ltb_spec 100 (String.length (fullName u))); [discriminate|].
  destruct (String.eqb (email u) ""); [discriminate|].
  destruct (Auth.matches_email (email u)); [|discriminate].
  destruct (String.eqb (phone u) ""); [discriminate|].
  destruct (Auth.ten_digits (phone u)); [|discriminate].
  destruct (String.eqb (password u) ""); [discriminate|].
  destruct (Nat.ltb_spec (String.length (password u)) 8); [discriminate|].
  repeat split; lia.
Qed.

Lemma registration_errors_nil (b : Auth.Registration) :
  Auth.registration_errors isEmail b = [] ->
  isEmail (Auth.r_email b) = true /\ Auth.r_password b <> "".
Proof.
  unfold Auth.registration_errors. intros H.
  apply app_eq_nil in H as [_ H]. apply app_eq_nil in H as [_ H].
  apply app_eq_nil in H as [H1 H]. apply app_eq_nil in H as [_ H].
  apply app_eq_nil in H as [H2 _].
  destruct (isEmail (Auth.r_email b)); [|discriminate].
  split; [reflexivity|]. intros E. rewrite E in H2. discriminate H2.
Qed.

Lemma find_snoc (p : t -> bool) (l : list t) (u : t) :
  (forall x, In x l -> p x = false) -> p u = true ->
  find p (l ++ [u]) = Some u.
Proof.
  intros Hl Hu. induction l as [|x l IH]; cbn [app find].
  - now rewrite Hu.
  - rewrite (Hl x (or_introl eq_refl)). apply IH.
    intros y Hy. apply Hl. now right.
Qed.

(** X17.  What a 201 from the registration handler leaves behind, and
    that it can be used at once.  The new account is active, has the role
    [user], a zero attempt counter, no lock and no last login; it stores the
    hash of the password, the lower-cased address and the phone of the
    request, all of which pass the schema validators.  When the normalised
    address has no white space around it and [bcrypt.compare] accepts a
    password against its own hash, a login with the address and password of
    the registration gets 200 with a token for the new account, and a
    password that [bcrypt.compare] rejects gets 401. *)
Theorem registered_account_can_log_in :
  forall (salt : string) (id : ObjectId) (b : Auth.Registration)
         (w w' : World) (reply : Auth.Reply),
    (forall s p, bcrypt_compare p (bcrypt_hash s p) = true) ->
    trim (toLowerCase (normalizeEmail (Auth.r_email b)))
    = toLowerCase (normalizeEmail (Auth.r_email b)) ->
    register_ salt id b w = (Ok reply, w') ->
    Auth.status_of reply = 201 ->
    exists u,
      reply = Auth.Success 201 "User registered successfully"
                (Some (jwt_sign id)) (Some u)
      /\ In u (users w')
      /\ _id u = id /\ role u = user /\ isActive u = true
      /\ getLoginAttempts u = 0 /\ lockUntil u = None /\ lastLogin u = None
      /\ password u = bcrypt_hash salt (Auth.r_password b)
      /\ email u = toLowerCase (normalizeEmail (Auth.r_email b))
      /\ phone u = Auth.r_phone b
      /\ (2 <= String.length (fullName u) <= 100)%nat
      /\ Auth.matches_email (email u) = true
      /\ Auth.ten_digits (phone u) = true
      /\ fst (login_ (Auth.r_email b) (Auth.r_password b) w')
         = Ok (Auth.Success 200 "Login successful" (Some (jwt_sign id)) (Some u))
      /\ (forall wrong,
            wrong <> "" -> bcrypt_compare wrong (password u) = false ->
            fst (login_ (Auth.r_email b) wrong w') = Ok Auth.invalid_reply).
Proof.
  intros salt id b w w' reply Hbcrypt Htrim Hrun H201.
  destruct (register_cases salt id b w)
    as (reply0 & w0 & Hrun0 & _ & _ & _ & _ & _ & Hnew & _).
  rewrite Hrun in Hrun0. injection Hrun0 as <- <-.
  destruct (Hnew H201) as (u & Hw & Hreply & Hu & Herr & Hschema & Hfresh).
  destruct (schema_errors_nil _ Hschema) as (S1 & S2 & S3 & _).
  destruct (registration_errors_nil b Herr) as [Hmail Hpw].
  set (email1 := toLowerCase (normalizeEmail (Auth.r_email b))) in *.
  assert (Hemail : email u = email1).
  { rewrite Hu. cbn [Auth.set_password Auth.newUser email].
    unfold email1. now rewrite toLowerCase_idem. }
  assert (Hfind : find (active_with_email (normalizeEmail (Auth.r_email b))) (users w')
                  = Some u).
  { rewrite Hw. apply find_snoc.
    - intros x Hx. destruct (Hfresh x Hx) as (_ & _ & _ & F4).
      unfold active_with_email. fold email1.
      apply String.eqb_neq in F4. now rewrite F4.
    - unfold active_with_email. fold email1. rewrite Hemail, String.eqb_refl.
      rewrite Hu. reflexivity. }
  assert (Hnl : not_locked_at u (now (clock w'))).
  { intros l Hl. rewrite Hu in Hl. discriminate Hl. }
  pose proof (check_result (normalizeEmail (Auth.r_email b))) as Hres.
  exists u. split; [exact Hreply|]. split.
  { rewrite Hw. apply in_or_app. right. now left. }
  rewrite Hu at 1 2 3 4 5 6 7. cbn [Auth.set_password Auth.newUser _id role isActive
    getLoginAttempts loginAttempts lockUntil lastLogin password].
  repeat (split; [reflexivity|]).
  split; [exact Hemail|]. split; [rewrite Hu; reflexivity|].
  split; [rewrite Hu; exact S1|]. split; [rewrite Hu; exact S2|].
  split; [rewrite Hu; exact S3|].
  assert (Hid : _id u = id) by (rewrite Hu; reflexivity).
  split.
  - destruct (login_run (Auth.r_email b) (Auth.r_password b) w') as [_ Hgood].
    rewrite (Hgood (proj2 (login_errors_nil _ _) (conj Hmail Hpw))). cbn [fst].
    specialize (Hres (Auth.r_password b) w'). rewrite Hfind in Hres.
    destruct Hres as (_ & _ & R3). rewrite (R3 Hnl); [now rewrite Hid|].
    unfold comparePassword. rewrite Hu. cbn [Auth.set_password password].
    apply Hbcrypt.
  - intros wrong Hwrong Hcmp.
    destruct (login_run (Auth.r_email b) wrong w') as [_ Hgood].
    rewrite (Hgood (proj2 (login_errors_nil _ _) (conj Hmail Hwrong))). cbn [fst].
    specialize (Hres wrong w'). rewrite Hfind in Hres.
    destruct Hres as (_ & R2 & _). rewrite (R2 Hnl Hcmp).
    now rewrite invalid_message_class.
Qed.

Local Abbreviation changePassword_ :=
  (Auth.changePassword bcrypt_compare bcrypt_hash).

Lemma update_first_rehashed (id : ObjectId) (hash : string) (l : list t) :
  Forall2 (rehashed id hash) l (update_first id (Auth.set_password hash) l).
Proof.
  induction l as [|x l IH]; cbn [update_first]; [constructor|].
  destruct (String.eqb_spec (_id x) id) as [E|N].
  - constructor; [right; now split|].
    clear. induction l; constructor; [now left|assumption].
  - constructor; [now left|exact IH].
Qed.

Lemma rehashed_refl (id : ObjectId) (hash : string) (l : list t) :
  Forall2 (rehashed id hash) l l.
Proof. induction l; constructor; [now left|assumption]. Qed.

Lemma password_errors_nil (currentPassword newPassword : string) :
  Auth.password_errors currentPassword newPassword = [] ->
  (8 <= String.length newPassword)%nat /\ newPassword <> "".
Proof.
  unfold Auth.password_errors. intros H.
  apply app_eq_nil in H as [_ H]. apply app_eq_nil in H as [H _].
  destruct (Nat.leb_spec 8 (String.length newPassword)); [|discriminate].
  split; [assumption|]. intros ->. cbn in *. lia.
Qed.

(** X18.  [POST /change-password] always answers, with 200, 400 or 500,
    and unless it answers 200 the accounts are as they were.  A body the
    validators reject and a wrong current password both get 400; the wrong
    password is not counted as a failed login.  On 200 every account is as
    it was except that the stored account with the caller's identifier may
    now hold the hash of the new password; its counter, lock and other
    fields are untouched.  A right current password with a new password that
    differs from the stored string gets 200 whenever the account is still
    stored, which then holds the new hash, and 500 when it is not. *)
Theorem password_change_outcomes :
  forall (salt : string) (reqUser : t) (currentPassword newPassword : string)
         (w : World),
    exists reply w',
      changePassword_ salt reqUser currentPassword newPassword w = (Ok reply, w')
      /\ (Auth.status_of reply = 200 \/ Auth.status_of reply = 400
          \/ Auth.status_of reply = 500)
      /\ (Auth.status_of reply <> 200 -> users w' = users w)
      /\ (Auth.password_errors currentPassword newPassword <> [] ->
            reply = Auth.validation_failed
                      (Auth.password_errors currentPassword newPassword)
            /\ w' = w)
      /\ (Auth.password_errors currentPassword newPassword = [] ->
          comparePassword bcrypt_compare reqUser currentPassword = false ->
            reply = Auth.Failure 400 "Invalid password"
                      "Current password is incorrect" []
            /\ w' = w)
      /\ Forall2 (rehashed (_id reqUser) (bcrypt_hash salt newPassword))
           (users w) (users w')
      /\ (Auth.password_errors currentPassword newPassword = [] ->
          comparePassword bcrypt_compare reqUser currentPassword = true ->
          newPassword <> password reqUser ->
          (forall a, findById (_id reqUser) (users w) = Some a ->
             Auth.status_of reply = 200
             /\ findById (_id reqUser) (users w')
                = Some (Auth.set_password (bcrypt_hash salt newPassword) a))
          /\ (findById (_id reqUser) (users w) = None ->
                Auth.status_of reply = 500)).
Proof.
  intros salt reqUser currentPassword newPassword w.
  unfold Auth.changePassword, catch.
  destruct (Auth.password_errors currentPassword newPassword) as [|e errors] eqn:Herr.
  2:{ unfold ret. eexists. eexists. split; [reflexivity|].
      cbn [Auth.status_of Auth.validation_failed].
      split; [right; now left|]. split; [reflexivity|].
      split; [now split|]. split; [discriminate|].
      split; [apply rehashed_refl|]. discriminate. }
  destruct (password_errors_nil _ _ Herr) as [Hlen Hne].
  destruct (comparePassword bcrypt_compare reqUser currentPassword) eqn:Hcmp;
    cbn [negb].
  2:{ unfold ret. eexists. eexists. split; [reflexivity|].
      cbn [Auth.status_of].
      split; [right; now left|]. split; [reflexivity|].
      split; [intros N; now elim N|]. split; [now split|].
      split; [apply rehashed_refl|]. discriminate. }
  unfold bind at 1. unfold Auth.savePassword.
  replace (String.eqb newPassword "") with false
    by (symmetry; now apply String.eqb_neq).
  replace (String.length newPassword <? 8)%nat with false
    by (symmetry; apply Nat.ltb_ge; exact Hlen).
  rewrite andb_false_r.
  unfold bind at 1. unfold Date_now at 1. cbn [getClock setClock World_clock].
  destruct (String.eqb_spec newPassword (password reqUser)) as [Esame|Ediff];
    cbn [negb].
  { unfold ret. eexists. eexists. split; [reflexivity|].
    cbn [Auth.status_of users].
    split; [now left|]. split; [reflexivity|].
    split; [intros N; now elim N|]. split; [discriminate|].
    split; [apply rehashed_refl|].
    intros _ _ N. now elim N. }
  unfold bind at 1. unfold gets. cbn [users].
  destruct (existsb (Auth.same_id (_id reqUser)) (users w)) eqn:Eex.
  - unfold updateOne, modify, ret. eexists. eexists. split; [reflexivity|].
    cbn [Auth.status_of users].
    split; [now left|]. split; [intros N; now elim N|].
    split; [intros N; now elim N|]. split; [discriminate|].
    split; [apply update_first_rehashed|].
    intros _ _ _. split.
    + intros a Ha. split; [reflexivity|].
      now apply findById_update_first.
    + intros Hnone. exfalso.
      apply existsb_exists in Eex as (x & Hx & Ex).
      unfold findById in Hnone. apply (find_none _ _ Hnone) in Hx.
      unfold Auth.same_id in Ex. congruence.
  - unfold throw, ret. eexists. eexists. split; [reflexivity|].
    cbn [Auth.status_of users].
    split; [right; now right|]. split; [reflexivity|].
    split; [intros N; now elim N|]. split; [discriminate|].
    split; [apply rehashed_refl|].
    intros _ _ _. split; [|reflexivity].
    intros a Ha. exfalso.
    unfold findById in Ha. apply find_some in Ha as [Hin Ea].
    pose proof (existsb_false_all _ _ Eex a Hin) as F.
    unfold Auth.same_id in F. congruence.
Qed.

Lemma find_filter_key (q : string * Routes.json -> bool) (k : string)
    (l : list (string * Routes.json)) :
  (forall kv, fst kv = k -> q kv = true) ->
  find (fun kv => String.eqb (fst kv) k) (filter q l)
  = find (fun kv => String.eqb (fst kv) k) l.
Proof.
  intros Hq. induction l as [|kv l IH]; [reflexivity|].
  cbn [filter find]. destruct (q kv) eqn:E; cbn [find].
  - now rewrite IH.
  - destruct (String.eqb_spec (fst kv) k) as [Ek|_]; [|exact IH].
    rewrite (Hq kv Ek) in E. discriminate E.
Qed.

(** X19.  The [toJSON] transform removes the password, the reset and
    verification tokens with their expiry times and the version key from
    the object, whatever else it holds, and keeps every other property, with
    its value and in its place. *)
Theorem account_json_hides_secrets :
  forall (ret0 : list (string * Routes.json)),
    (forall k, In k Auth.hidden_paths ->
               field k (Routes.JObj (Auth.transform ret0)) = None
               /\ ~ In k (map fst (Auth.transform ret0)))
    /\ (forall k, ~ In k Auth.hidden_paths ->
                  field k (Routes.JObj (Auth.transform ret0))
                  = field k (Routes.JObj ret0))
    /\ Auth.transform ret0
       = filter (fun kv => negb (existsb (String.eqb (fst kv)) Auth.hidden_paths))
                ret0.
Proof.
  intros ret0.
  assert (Hfilter : Auth.transform ret0
                    = filter (fun kv => negb (existsb (String.eqb (fst kv))
                                                Auth.hidden_paths)) ret0).
  { unfold Auth.transform, Auth.delete, Auth.hidden_paths.
    induction ret0 as [|[k v] l IH]; [reflexivity|].
    cbn [filter fst existsb].
    destruct (String.eqb k "password"); cbn [negb orb filter fst]; [exact IH|].
    destruct (String.eqb k "resetPasswordToken"); cbn [negb orb filter fst];
      [exact IH|].
    destruct (String.eqb k "resetPasswordExpires"); cbn [negb orb filter fst];
      [exact IH|].
    destruct (String.eqb k "emailVerificationToken"); cbn [negb orb filter fst];
      [exact IH|].
    destruct (String.eqb k "emailVerificationExpires"); cbn [negb orb filter fst];
      [exact IH|].
    destruct (String.eqb k "__v"); cbn [negb orb filter fst]; [exact IH|].
    now rewrite IH. }
  assert (Hhidden : forall k, In k Auth.hidden_paths ->
                      existsb (String.eqb k) Auth.hidden_paths = true).
  { intros k Hk. apply existsb_exists. exists k. split; [exact Hk|].
    apply String.eqb_refl. }
  assert (Hshown : forall k, ~ In k Auth.hidden_paths ->
                     existsb (String.eqb k) Auth.hidden_paths = false).
  { intros k Hk. destruct (existsb _ _) eqn:E; [|reflexivity].
    apply existsb_exists in E as (k' & Hk' & E). apply String.eqb_eq in E.
    subst. contradiction. }
  split; [|split; [|exact Hfilter]].
  - intros k Hk. rewrite Hfilter.
    assert (Hnot : ~ In k (map fst (filter (fun kv => negb (existsb (String.eqb (fst kv))
                                                     Auth.hidden_paths)) ret0))).
    { intros Hin. apply in_map_iff in Hin as ([k' v] & E & Hin).
      apply filter_In in Hin as [_ Hp]. cbn [fst] in *. subst k'.
      rewrite (Hhidden k Hk) in Hp. discriminate Hp. }
    split; [|exact Hnot].
    unfold field.
    destruct (find _ _) as [[k' v]|] eqn:Hf; [|reflexivity].
    exfalso. apply find_some in Hf as [Hin E]. cbn [fst] in E.
    apply String.eqb_eq in E. subst k'. apply Hnot.
    apply in_map_iff. exists (k, v). now split.
  - intros k Hk. rewrite Hfilter. unfold field. f_equal.
    apply find_filter_key. intros kv <-. now rewrite (Hshown _ Hk).
Qed.

End AccountFacts.

(** ** The delivery window *)

Section WindowFacts.
Import Shipment.

Lemma setHours_local (tz d h : Z) :
  0 <= h < 24 ->
  (Routes.setHours tz d h + tz) / Routes.day = (d + tz) / Routes.day
  /\ (Routes.setHours tz d h + tz) mod Routes.day = h * Routes.hour.
Proof.
  intros Hh. unfold Routes.setHours, Routes.day, Routes.hour.
  replace ((d + tz) / 86400000 * 86400000 + h * 3600000 - tz + tz)
    with (h * 3600000 + (d + tz) / 86400000 * 86400000) by lia.
  split.
  - rewrite Z.div_add by lia. rewrite Z.div_small by lia. lia.
  - rewrite Z.mod_add by lia. apply Z.mod_small. lia.
Qed.

(** X12.  The delivery window of a shipment runs from 09:00 to 18:00,
    server local time, on the local calendar day of its estimated delivery:
    nine hours long, both ends on that day.  The estimated delivery itself
    lies in the window exactly when its local time of day is between 09:00
    and 18:00. *)
Theorem delivery_window_on_local_day :
  forall (tz : Z) (s : t),
    let est := estimatedDelivery (service s) in
    exists a b,
      Routes.deliveryWindow tz s
      = Routes.JObj [("start", Routes.JDate a); ("end", Routes.JDate b)]
      /\ b - a = 9 * Routes.hour
      /\ (a + tz) / Routes.day = (est + tz) / Routes.day
      /\ (b + tz) / Routes.day = (est + tz) / Routes.day
      /\ (a + tz) mod Routes.day = 9 * Routes.hour
      /\ (b + tz) mod Routes.day = 18 * Routes.hour
      /\ (a <= est <= b
          <-> 9 * Routes.hour <= (est + tz) mod Routes.day <= 18 * Routes.hour).
Proof.
  intros tz s est.
  exists (Routes.setHours tz est 9), (Routes.setHours tz est 18).
  destruct (setHours_local tz est 9 ltac:(lia)) as [A1 A2].
  destruct (setHours_local tz est 18 ltac:(lia)) as [B1 B2].
  split; [reflexivity|]. split.
  { unfold Routes.setHours. lia. }
  split; [exact A1|]. split; [exact B1|]. split; [exact A2|]. split; [exact B2|].
  unfold Routes.setHours, Routes.day, Routes.hour in *.
  pose proof (Z.div_mod (est + tz) 86400000 ltac:(lia)) as Hdm.
  lia.
Qed.

End WindowFacts.

(** ** The browser client *)

Section ClientFacts.
Import Client.

Lemma setToken_run (t : option string) (st : State) :
  setToken t st
  = (Ok tt,
     {| token := t;
        localStorage := fun k =>
          if String.eqb k token_key then (if truthy t then t else None)
          else localStorage st k |}).
Proof.
  unfold setToken, modify. f_equal.
  destruct t as [v|]; cbn [truthy].
  - destruct (negb (String.eqb v "")); reflexivity.
  - reflexivity.
Qed.

(** X20.  [logout] ends with the client signed out whatever happens to
    the request: for every outcome of [fetch], a rejection and an error
    status included, the call returns without throwing, the token is null on
    the client and gone from the browser storage, no request built
    afterwards carries an [Authorization] header, a client constructed
    afterwards is not authenticated, and no other key of the storage is
    touched. *)
Theorem logout_always_clears :
  forall (f : Fetched) (st : State),
    exists st',
      logout f st = (Ok tt, st')
      /\ token st' = None
      /\ localStorage st' token_key = None
      /\ isAuthenticated st' = false
      /\ (forall isMultipart,
            ~ In "Authorization" (map fst (getHeaders isMultipart st')))
      /\ isAuthenticated (construct (localStorage st')) = false
      /\ (forall k, k <> token_key -> localStorage st' k = localStorage st k).
Proof.
  intros f st.
  assert (Hrun : logout f st = setToken None st).
  { unfold logout, finally, catch, bind, ret, request, throw.
    destruct f as [e|[|] status [d|]]; cbn; rewrite setToken_run; reflexivity. }
  rewrite Hrun.
  rewrite setToken_run. eexists. split; [reflexivity|].
  cbn [token localStorage truthy isAuthenticated construct].
  rewrite String.eqb_refl.
  split; [reflexivity|]. split; [reflexivity|]. split; [reflexivity|].
  split.
  { intros [|]; cbn; [intros []|intros [H|[]]; discriminate H]. }
  split; [reflexivity|].
  intros k Hk. apply String.eqb_neq in Hk. now rewrite Hk.
Qed.

(** X21.  A token the server hands out survives a reload.  When [fetch]
    answers a login with an ok status and a body that carries a non-empty
    token, [login] returns the body, keeps the token on the client and in
    the browser storage, a client constructed afterwards from that storage
    is authenticated with the same token, and requests carry it as [Bearer]
    authorization, with a JSON content type unless they are multipart.  When
    the request fails, by rejection, by a body that does not parse or by an
    error status, [login] throws and the client and the storage are as they
    were; for an error status the error carries the server's message, or the
    status when the body has none. *)
Theorem token_survives_reload :
  forall (st : State),
    (forall status d t,
        d_token d = Some t -> t <> "" ->
        exists st',
          login (Answered true status (Some d)) st = (Ok d, st')
          /\ token st' = Some t
          /\ localStorage st' token_key = Some t
          /\ (forall k, k <> token_key -> localStorage st' k = localStorage st k)
          /\ token (construct (localStorage st')) = Some t
          /\ isAuthenticated (construct (localStorage st')) = true
          /\ getHeaders false st'
             = [("Content-Type", "application/json");
                ("Authorization", ("Bearer " ++ t)%string)]
          /\ getHeaders true st' = [("Authorization", ("Bearer " ++ t)%string)])
    /\ (forall status d,
          truthy (d_token d) = false ->
          login (Answered true status (Some d)) st = (Ok d, st))
    /\ (forall f,
          (forall status d, f <> Answered true status (Some d)) ->
          exists e, login f st = (Throw e, st))
    /\ (forall status d,
          login (Answered false status (Some d)) st
          = (Throw (Error match d_message d with
                          | Some m => if String.eqb m "" then
                                        ("HTTP error! status: " ++ decimal status)%string
                                      else m
                          | None => ("HTTP error! status: " ++ decimal status)%string
                          end), st)).
Proof.
  intros st. split; [|split; [|split]].
  - intros status d t Ht Hne.
    assert (Htruthy : truthy (Some t) = true).
    { cbn. apply String.eqb_neq in Hne. now rewrite Hne. }
    unfold login, request, bind, ret. cbv beta iota.
    rewrite Ht. rewrite Htruthy. rewrite setToken_run. rewrite Htruthy.
    eexists. split; [reflexivity|].
    cbn [token localStorage].
    unfold isAuthenticated, construct, getHeaders. cbn [token localStorage negb app].
    rewrite String.eqb_refl, Htruthy.
    split; [reflexivity|]. split; [reflexivity|]. split.
    { intros k Hk. apply String.eqb_neq in Hk. now rewrite Hk. }
    repeat split.
  - intros status d Hfalsy. unfold login, request, bind, ret.
    now rewrite Hfalsy.
  - intros f Hf. unfold login, request, bind, throw.
    destruct f as [e|[|] status [d|]]; try (eexists; reflexivity).
    exfalso. now apply (Hf status d).
  - intros status d. unfold login, request, bind, throw.
    destruct (d_message d) as [m|]; cbn [truthy]; [|reflexivity].
    destruct (String.eqb m ""); reflexivity.
Qed.

End ClientFacts.

(** ** More runs on the sample data *)

Section MoreSamples.
Import Shipment.

(** A delivered parcel is reopened by an Order Placed event, and keeps
    its delivery date. *)
Lemma event_accepted_whatever_the_status_witness :
  currentStatus (the_parcel delivered_ledger) = Delivered
  /\ exists d' w',
       addTrackingEvent (hydrate (the_parcel delivered_ledger))
         (report OrderPlaced (Some 9000)) delivered_ledger = (Ok d', w')
       /\ currentStatus (data d') = OrderPlaced
       /\ deliveredAt (data d') = Some 5000.
Proof.
  split; [vm_compute; reflexivity|].
  destruct (event_accepted_whatever_the_status delivered_ledger
              (the_parcel delivered_ledger) (report OrderPlaced (Some 9000))
              OrderPlaced)
    as (d' & w' & Hrun & _ & Hst & Hdel & _).
  - vm_compute. reflexivity.
  - vm_compute. reflexivity.
  - reflexivity.
  - discriminate.
  - discriminate.
  - exists d', w'. split; [exact Hrun|]. split; [exact Hst|].
    rewrite Hdel; [vm_compute; reflexivity|discriminate].
Defined.

(** A third delivery attempt on one parcel, and a creation request that
    reuses a stored number, both leave a well-formed ledger. *)
Lemma ledger_stays_well_formed_witness :
  well_formed (snd (incrementDeliveryAttempts (hydrate (the_parcel two_parcels))
                      two_parcels))
  /\ well_formed (snd (Routes.createShipment "64b0000000000000000000a3" ravi
                         (order (Some "IND222222222") []) two_parcels)).
Proof.
  destruct (ledger_stays_well_formed two_parcels) as (Hcreate & _ & _ & Hinc & _).
  - unfold well_formed. split; [|split].
    + vm_compute. repeat (constructor; [cbn; intuition discriminate|]). constructor.
    + vm_compute. repeat (constructor; [cbn; intuition discriminate|]). constructor.
    + intros s Hin. vm_compute in Hin.
      destruct Hin as [<-|[<-|[]]]; vm_compute; reflexivity.
  - split; [|apply Hcreate].
    apply Hinc. vm_compute. now left.
Defined.

(** A creation request without a tracking number is refused and stores
    nothing. *)
Lemma creation_all_or_nothing_witness :
  exists resp w',
    Routes.createShipment second_id customer (order None []) one_parcel
    = (Ok resp, w')
    /\ Routes.code resp = 500
    /\ shipments w' = shipments one_parcel.
Proof.
  destruct (creation_all_or_nothing second_id customer (order None []) one_parcel)
    as (resp & w' & Hrun & _ & Hkeep & _ & Hnone & _).
  exists resp, w'. split; [exact Hrun|].
  split; [exact (Hnone eq_refl)|exact (Hkeep (Hnone eq_refl))].
Defined.



(** An event on the first parcel leaves the second one alone. *)
Lemma writes_touch_one_shipment_witness :
  only_touches (_id (the_parcel two_parcels)) (shipments two_parcels)
    (shipments (snd (addTrackingEvent (hydrate (the_parcel two_parcels))
                       (report InTransit None) two_parcels))).
Proof.
  destruct (writes_touch_one_shipment two_parcels (the_parcel two_parcels))
    as (Hevent & _).
  - vm_compute. reflexivity.
  - apply Hevent.
Defined.




(** Two matching parcels in pages of one: two pages, fetched in turn, give
    both parcels, the newer first. *)
Lemma listing_is_paginated_witness :
  map _id (pages_upto customer 1 None 2 two_parcels) = [second_id; parcel_id]
  /\ Permutation (pages_upto customer 1 None 2 two_parcels) (shipments two_parcels).
Proof.
  destruct (listing_is_paginated customer (Some 1) (Some 1) None two_parcels)
    as (r & _ & _ & _ & Hpages).
  destruct (Hpages 2%nat ltac:(vm_compute; reflexivity)) as [Heq Hperm].
  split; [vm_compute; reflexivity|].
  apply Hperm. vm_compute. discriminate.
Defined.

Lemma dashboard_counts_agree_witness :
  exists st w',
    Dashboard.stats 19800000 two_parcels = (Ok (Some st), w')
    /\ Dashboard.totalShipments st = 2
    /\ Dashboard.count_of OrderPlaced (Dashboard.statusBreakdown st) = 2
    /\ Dashboard.deliveredShipments st = 0.
Proof.
  destruct (dashboard_counts_agree 19800000 two_parcels)
    as (st & w' & Hrun & _ & Htotal & Hcount & _ & _ & _ & Hdel & _).
  exists st, w'. split; [exact Hrun|].
  split; [rewrite Htotal; vm_compute; reflexivity|].
  split; [rewrite Hcount; vm_compute; reflexivity|].
  rewrite Hdel, Hcount. vm_compute. reflexivity.
Defined.

Lemma delivery_window_on_local_day_witness :
  exists a b,
    Routes.deliveryWindow 19800000 (the_parcel one_parcel)
    = Routes.JObj [("start", Routes.JDate a); ("end", Routes.JDate b)]
    /\ b - a = 32400000.
Proof.
  destruct (delivery_window_on_local_day 19800000 (the_parcel one_parcel))
    as (a & b & Hw & Hlen & _).
  exists a, b. split; [exact Hw|exact Hlen].
Defined.

End MoreSamples.

Section AccountSamples.
Import User.

(** A wrong password leaves the other account of the office alone. *)
Lemma login_touches_only_bookkeeping_witness :
  only_bookkeeping (Some (_id (alice (Some 2) None true)))
    (users office)
    (users (snd (findByCredentials sample_compare "Alice@Example.com" "guess"
                   office))).
Proof.
  exact (proj1 (login_touches_only_bookkeeping sample_compare sample_sign
                  Auth.matches_email toLowerCase office "Alice@Example.com"
                  "guess")).
Defined.

(** An address nobody registered gets the answer a wrong password gets. *)
Lemma login_reply_classes_witness :
  Auth.login sample_compare sample_sign Auth.matches_email toLowerCase
    "nobody@example.com" "Secret123" office
  = (Ok Auth.invalid_reply, office).
Proof.
  destruct (login_reply_classes sample_compare sample_sign Auth.matches_email
              toLowerCase office "nobody@example.com" "Secret123")
    as (_ & Hvalid & _).
  destruct (Hvalid ltac:(vm_compute; reflexivity) ltac:(discriminate))
    as [Hnone _].
  apply Hnone. vm_compute. reflexivity.
Defined.


(** A name of one letter and a blank passes the handler's validators and
    fails the schema's. *)
Lemma registration_all_or_nothing_witness :
  exists reply w',
    Auth.register sample_hash sample_sign Auth.matches_email toLowerCase
      "salt" bob_id
      {| Auth.r_fullName := " B"; Auth.r_email := "bob@example.com";
         Auth.r_phone := "9123456789"; Auth.r_password := "Secret123" |}
      office
    = (Ok reply, w')
    /\ Auth.status_of reply = 500
    /\ users w' = users office.
Proof.
  destruct (registration_all_or_nothing sample_sign Auth.matches_email toLowerCase
              sample_hash "salt" bob_id
              {| Auth.r_fullName := " B"; Auth.r_email := "bob@example.com";
                 Auth.r_phone := "9123456789"; Auth.r_password := "Secret123" |}
              office)
    as (reply & w' & Hrun & _ & Hkeep & _ & _ & Hschema & _).
  assert (H500 : Auth.status_of reply = 500).
  { apply Hschema.
    - vm_compute. reflexivity.
    - vm_compute. reflexivity.
    - vm_compute. lia. }
  exists reply, w'. split; [exact Hrun|]. split; [exact H500|].
  apply Hkeep. rewrite H500. discriminate.
Defined.

Lemma registered_account_can_log_in_witness :
  exists u,
    In u (users (snd after_signup))
    /\ role u = user
    /\ password u = "hash:Secret123"
    /\ fst (Auth.login sample_compare sample_sign Auth.matches_email toLowerCase
              "Bob@Example.com" "Secret123" (snd after_signup))
       = Ok (Auth.Success 200 "Login successful"
               (Some (sample_sign bob_id)) (Some u)).
Proof.
  destruct (registered_account_can_log_in sample_compare sample_sign
              Auth.matches_email toLowerCase sample_hash "salt" bob_id signup
              office (snd after_signup)
              (Auth.Success 201 "User registered successfully"
                 (Some (sample_sign bob_id))
                 (Some (mk bob_id "Bob Builder" "bob@example.com" "9123456789"
                          "hash:Secret123" user true (Some 0) None None))))
    as (u & _ & Hin & _ & Hrole & _ & _ & _ & _ & Hpw & _ & _ & _ & _ & _ & Hlogin & _).
  - intros s p. unfold sample_compare, sample_hash. apply String.eqb_refl.
  - vm_compute. reflexivity.
  - vm_compute. reflexivity.
  - reflexivity.
  - exists u. split; [exact Hin|]. split; [exact Hrole|].
    split; [exact Hpw|exact Hlogin].
Defined.

(** A wrong current password changes nothing and is not counted. *)
Lemma password_change_outcomes_witness :
  exists reply,
    Auth.changePassword sample_compare sample_hash "salt"
      (alice (Some 2) None true) "not-it" "NewSecret1" office
    = (Ok reply, office)
    /\ Auth.status_of reply = 400.
Proof.
  destruct (password_change_outcomes sample_compare sample_hash "salt"
              (alice (Some 2) None true) "not-it" "NewSecret1" office)
    as (reply & w' & Hrun & _ & _ & _ & Hwrong & _).
  destruct (Hwrong ltac:(vm_compute; reflexivity) ltac:(vm_compute; reflexivity))
    as [-> ->].
  eexists. split; [exact Hrun|reflexivity].
Defined.

Lemma account_json_hides_secrets_witness :
  map fst (Auth.transform account_object) = ["_id"; "fullName"; "role"]
  /\ field "password" (Routes.JObj (Auth.transform account_object)) = None
  /\ field "role" (Routes.JObj (Auth.transform account_object))
     = Some (Routes.JStr "user").
Proof.
  destruct (account_json_hides_secrets account_object) as (Hhidden & Hshown & Hfilter).
  split; [rewrite Hfilter; vm_compute; reflexivity|].
  split.
  - apply Hhidden. vm_compute. now left.
  - rewrite Hshown; [vm_compute; reflexivity|].
    vm_compute. intuition discriminate.
Defined.

End AccountSamples.

Section ClientSamples.
Import Client.

(** Logging out while the server cannot be reached. *)
Lemma logout_always_clears_witness :
  exists st',
    logout (Rejected (Error "Failed to fetch")) browser = (Ok tt, st')
    /\ isAuthenticated st' = false
    /\ localStorage st' "trackship_token" = None
    /\ localStorage st' "lang" = Some "hi".
Proof.
  destruct (logout_always_clears (Rejected (Error "Failed to fetch")) browser)
    as (st' & Hrun & _ & Hgone & Hauth & _ & _ & Hother).
  exists st'. split; [exact Hrun|]. split; [exact Hauth|]. split; [exact Hgone|].
  rewrite Hother; [vm_compute; reflexivity|discriminate].
Defined.

Lemma token_survives_reload_witness :
  exists st',
    login (Answered true 200
             (Some {| d_message := Some "Login successful";
                      d_token := Some "new-token" |})) browser
    = (Ok {| d_message := Some "Login successful"; d_token := Some "new-token" |},
       st')
    /\ token (construct (localStorage st')) = Some "new-token"
    /\ getHeaders true st' = [("Authorization", "Bearer new-token")].
Proof.
  destruct (token_survives_reload browser) as (Hok & _).
  destruct (Hok 200 {| d_message := Some "Login successful";
                       d_token := Some "new-token" |} "new-token"
              eq_refl ltac:(discriminate))
    as (st' & Hrun & _ & _ & _ & Hreload & _ & _ & Hheaders).
  exists st'. split; [exact Hrun|]. split; [exact Hreload|exact Hheaders].
Defined.

End ClientSamples.
